(** * Order Flow Insight: the order/costing data model of [main.py]

    A shallow embedding of the non-UI logic of the Streamlit application in
    [src/main.py]: the five SQLite tables, the sqlite3 connection with its
    pending transaction, the cost sheet (fabric standard resolution,
    validation warnings, cost calculations, the two-write save), the order
    registry (data entry, stage updates) and the dashboard metrics.

    Python [int] values are [Z]; Python [float] values (SQLite REAL, IEEE
    binary64) are Rocq's primitive [float], so every product, sum, quotient
    and comparison below is the very operation the interpreter performs. *)

From Stdlib Require Import ZArith List Ascii String Bool Lia Sorted.
From Stdlib Require Import Floats.
From Stdlib Require Uint63.
Import ListNotations.

Set Warnings "-inexact-float".

(** ** Python numerics *)

Module Py.

(** Exceptions the modelled code can meet. *)
Inductive exn : Type :=
| ZeroDivisionError
| ValueError
| OverflowError
| IntegrityError
| OperationalError.

(** A computation that returns or raises. *)
Inductive result (A : Type) : Type :=
| Ok (a : A)
| Raise (e : exn).

Arguments Ok {A} a.
Arguments Raise {A} e.

Definition bind {A B : Type} (r : result A) (k : A -> result B) : result B :=
  match r with
  | Ok a => k a
  | Raise e => Raise e
  end.

(** [float(n)]: the binary64 nearest to [n], ties to even.  On the 64-bit
    integers an SQLite INTEGER column holds, this is what Python computes
    when an [int] meets a [float] in [*] or [/]. *)
Definition float_of_int (n : Z) : float :=
  SF2Prim (binary_normalize prec emax n 0 false).

(** Truth value of an [int] in [if n]. *)
Definition int_truthy (n : Z) : bool := negb (n =? 0)%Z.

(** Truth value of a [float] in [if x]: anything but a zero. *)
Definition float_truthy (x : float) : bool := negb (x =? 0)%float.

(** [x / n] for a float [x] and an int [n]. *)
Definition truediv_float_int (x : float) (n : Z) : result float :=
  if (n =? 0)%Z then Raise ZeroDivisionError
  else Ok (x / float_of_int n)%float.

(** [int(x)]: truncation toward zero; NaN and the infinities raise. *)
Definition int_of_float (x : float) : result Z :=
  match Prim2SF x with
  | S754_zero _ => Ok 0%Z
  | S754_finite s m e =>
      let mag := if (0 <=? e)%Z then Z.shiftl (Zpos m) e
                 else Z.shiftr (Zpos m) (- e) in
      Ok (if s then (- mag)%Z else mag)
  | S754_infinity _ => Raise OverflowError
  | S754_nan => Raise ValueError
  end.

(** What [int()] takes: a binary64 value that is a zero, or a finite
    number with its exponent within the given bounds. *)
Definition finite_or_zero (x : spec_float) (lo hi : Z) : Prop :=
  match x with
  | S754_zero _ => True
  | S754_finite _ _ e => (lo <= e <= hi)%Z
  | _ => False
  end.

Definition finite_nonzero (x : spec_float) : Prop :=
  match x with
  | S754_finite _ _ _ => True
  | _ => False
  end.

(** A Python number as the cost sheet meets it: [FABRIC_STANDARD.get(k, 0)]
    is a [float] for a known key and the [int] 0 otherwise. *)
Inductive num : Type :=
| Int (n : Z)
| Float (x : float).

Definition to_float (v : num) : float :=
  match v with
  | Int n => float_of_int n
  | Float x => x
  end.

(** [v * n] for an int [n]: int arithmetic when [v] is an int. *)
Definition mul_int (v : num) (n : Z) : num :=
  match v with
  | Int a => Int (a * n)
  | Float x => Float (x * float_of_int n)%float
  end.

(** [str.lower()] and [str.capitalize()] on ASCII text. *)
Definition lower_char (c : Ascii.ascii) : Ascii.ascii :=
  let n := Ascii.nat_of_ascii c in
  if (65 <=? n)%nat && (n <=? 90)%nat then Ascii.ascii_of_nat (n + 32) else c.

Definition upper_char (c : Ascii.ascii) : Ascii.ascii :=
  let n := Ascii.nat_of_ascii c in
  if (97 <=? n)%nat && (n <=? 122)%nat then Ascii.ascii_of_nat (n - 32) else c.

Fixpoint lower (s : string) : string :=
  match s with
  | EmptyString => EmptyString
  | String c s' => String (lower_char c) (lower s')
  end.

Definition capitalize (s : string) : string :=
  match s with
  | EmptyString => EmptyString
  | String c s' => String (upper_char c) (lower s')
  end.

(** [dict.get(k, default)] on a dict written as its item list. *)
Fixpoint dict_get {V : Type} (m : list (string * V)) (k : string) : option V :=
  match m with
  | [] => None
  | (k', v) :: m' => if String.eqb k' k then Some v else dict_get m' k
  end.

(** [datetime.date]: ordered by year, then month, then day. *)
Record date : Type := { year : Z; month : Z; day : Z }.

Definition date_ltb (a b : date) : bool :=
  (year a <? year b)%Z
  || ((year a =? year b)%Z
      && ((month a <? month b)%Z
          || ((month a =? month b)%Z && (day a <? day b)%Z))).

Definition date_eqb (a b : date) : bool :=
  (year a =? year b)%Z && (month a =? month b)%Z && (day a =? day b)%Z.

End Py.

Import Py.

(** ** The persistent store (main.py, lines 38-140) *)

Module Store.

(** The twelve values of the cost form, in the order of the [defaults]
    tuple and of the SELECT that pre-populates it. *)
Record cost_inputs : Type := {
  fabric_issued : float;
  fabric_rate : float;
  accessories_rate : float;
  printing_rate : float;
  overhead_per_unit : float;
  labor_cutting_rate : float;
  labor_sewing_rate : float;
  labor_finishing_rate : float;
  dyeing_rate : float;
  embroidery_rate : float;
  shipping_cost : float;
  misc_cost : float
}.

(** The twelve values as a list, in the same order. *)
Definition fields (i : cost_inputs) : list float :=
  [ fabric_issued i; fabric_rate i; accessories_rate i; printing_rate i;
    overhead_per_unit i; labor_cutting_rate i; labor_sewing_rate i;
    labor_finishing_rate i; dyeing_rate i; embroidery_rate i;
    shipping_cost i; misc_cost i ].

(** *** REAL columns

    A REAL column gives back the binary64 number that was bound to it,
    with one exception among numbers: a negative zero comes back as
    [0.0] (SQLite writes a float without fractional part as an integer
    and reads it as a float again, and the integer 0 has no sign).  This is
    so on the connection that wrote the value as well as on any later one.
    NaN, which is not a number, is stored as NULL; no widget of the
    application yields it, and below a NaN is left as it is: statements
    about stored values are made for the numbers the widgets yield. *)
Definition sql_real (x : float) : float :=
  if (x =? 0)%float then 0%float else x.

(** [orders]: [id] is the AUTOINCREMENT key, [order_number] is UNIQUE and
    the four stage counters DEFAULT 0.  [due_date] holds the text
    [strftime("%Y-%m-%d")] of a [datetime.date], which [pd.to_datetime]
    reads back as that date: the row keeps the date. *)
Record order_row : Type := {
  o_id : Z;
  order_number : string;
  customer : string;
  product : string;
  due_date : date;
  quantity : Z;
  cutting : Z;
  sewing : Z;
  finishing : Z;
  packaging : Z
}.

(** [fabric_cost_1]: [order_number] is the PRIMARY KEY; the twelve cost
    columns are REAL. *)
Record cost_row : Type := {
  c_order_number : string;
  c_item_type : string;
  c_units : Z;
  c_inputs : cost_inputs;
  c_last_updated : string
}.

(** [fabric_cost_history]: the columns of [fabric_cost_1] and a surrogate
    AUTOINCREMENT [id]. *)
Record history_row : Type := {
  h_id : Z;
  h_cost : cost_row
}.

Record standard_row : Type := {
  s_id : Z;
  product_type : string;
  size : string;
  style : string;
  fabric_per_unit : float
}.

Record accessory_row : Type := {
  a_id : Z;
  a_order_number : string;
  accessory_type : string;
  a_quantity : float;
  a_rate : float;
  a_last_updated : string
}.

(** The database file: each table in rowid order (an INSERT appends). *)
Record db : Type := {
  orders : list order_row;
  fabric_cost_1 : list cost_row;
  fabric_standards : list standard_row;
  fabric_cost_history : list history_row;
  accessories_details : list accessory_row
}.

(** The file right after the CREATE TABLE statements on first launch. *)
Definition empty_db : db :=
  {| orders := []; fabric_cost_1 := []; fabric_standards := [];
     fabric_cost_history := []; accessories_details := [] |}.

(** The next AUTOINCREMENT key.  No row is ever deleted, so the largest key
    ever used is the largest key present. *)
Definition next_id (ids : list Z) : Z := (1 + fold_right Z.max 0 ids)%Z.

Definition seed_standards : list standard_row :=
  [ {| s_id := 1%Z; product_type := "top"; size := "standard";
       style := "regular"; fabric_per_unit := 1.5%float |};
    {| s_id := 2%Z; product_type := "trouser"; size := "standard";
       style := "regular"; fabric_per_unit := 1.0%float |};
    {| s_id := 3%Z; product_type := "suit"; size := "standard";
       style := "regular"; fabric_per_unit := 2.5%float |} ].

(** Lines 124-136, run at the top of every script run: seed the standards
    when the table is empty, then commit. *)
Definition setup (d : db) : db :=
  match fabric_standards d with
  | [] =>
      {| orders := orders d; fabric_cost_1 := fabric_cost_1 d;
         fabric_standards := seed_standards;
         fabric_cost_history := fabric_cost_history d;
         accessories_details := accessories_details d |}
  | _ :: _ => d
  end.

(** *** The sqlite3 connection

    With the module's default transaction control an INSERT or UPDATE opens
    a transaction implicitly; its effect is seen by later statements of the
    same connection and reaches the file at [commit].  [close] without a
    commit drops what is pending.  The script never calls [rollback]. *)
Record conn : Type := {
  committed : db;
  working : db
}.

Definition connect (file : db) : conn :=
  {| committed := file; working := file |}.

Definition close (c : conn) : db := committed c.

(** A statement is its effect on the connection's view of the tables, or
    the exception it raises. *)
Definition stmt : Type := db -> result db.

(** Code that runs on a connection: it leaves the connection in a new state
    and returns or raises. *)
Definition M (A : Type) : Type := conn -> conn * result A.

Definition ret {A : Type} (a : A) : M A := fun c => (c, Ok a).

Definition seq {A B : Type} (m : M A) (k : A -> M B) : M B :=
  fun c =>
    match m c with
    | (c', Ok a) => k a c'
    | (c', Raise e) => (c', Raise e)
    end.

(** [try: m  except Exception as e: h e]: the handler runs on the
    connection as the failed body left it. *)
Definition try_except {A : Type} (m : M A) (h : exn -> M A) : M A :=
  fun c =>
    match m c with
    | (c', Ok a) => (c', Ok a)
    | (c', Raise e) => h e c'
    end.

(** [c.execute(stmt)].  [fault] is the environment: [Some e] when the
    engine fails the statement for a reason of its own (disk full, I/O
    error, a lock held by another process); a failed statement changes
    nothing. *)
Definition execute (fault : option exn) (s : stmt) : M unit :=
  fun c =>
    match fault with
    | Some e => (c, Raise e)
    | None =>
        match s (working c) with
        | Ok w => ({| committed := committed c; working := w |}, Ok tt)
        | Raise e => (c, Raise e)
        end
    end.

(** [conn.commit()]: a failed commit leaves the transaction open. *)
Definition commit (fault : option exn) : M unit :=
  fun c =>
    match fault with
    | Some e => (c, Raise e)
    | None => ({| committed := working c; working := working c |}, Ok tt)
    end.

(** The environment of one script run: the failure, if any, that the
    engine inflicts on write call number [n] of the run, counted from 0. *)
Definition faults : Type := nat -> option exn.

Definition no_faults : faults := fun _ => None.

End Store.

Import Store.

(** Statements in sequence, as the lines of a [try] block. *)
Declare Scope conn_scope.
Delimit Scope conn_scope with conn.
Notation "m1 ;; m2" := (seq m1 (fun _ => m2))
  (at level 61, right associativity) : conn_scope.

(** ** Cost sheet (main.py, lines 330-567) *)

Module CostSheet.

Local Open Scope float_scope.

Definition FABRIC_STANDARD : list (string * float) :=
  [("top", 1.5); ("trouser", 1.0); ("suit", 2.5)]%string.

Definition PRODUCT_MAPPING : list (string * string) :=
  [("Tops", "top"); ("Trousers", "trouser"); ("Suits", "suit")]%string.

(** Lines 336-338 and 350: [order_map = {row[0]: row for row in
    order_data}]; in a dict comprehension a later row replaces an earlier
    one under the same key, so the lookup reads the rows last to first. *)
Definition order_map (d : db) : list (string * (string * string * Z)) :=
  rev (map (fun r => (order_number r, (order_number r, product r, quantity r)))
           (orders d)).

(** Line 351. *)
Definition item_type_of (product : string) : string :=
  match dict_get PRODUCT_MAPPING (capitalize product) with
  | Some t => t
  | None => lower product
  end.

(** Lines 355-357: the first row, in rowid order, of
    [SELECT fabric_per_unit FROM fabric_standards WHERE product_type = ?
    AND size = 'standard']. *)
Definition select_standard (d : db) (item_type : string) : option float :=
  option_map fabric_per_unit
    (find (fun r => String.eqb (product_type r) item_type
                    && String.eqb (size r) "standard")
          (fabric_standards d)).

(** [FABRIC_STANDARD.get(item_type, 0)]. *)
Definition FABRIC_STANDARD_get (item_type : string) : num :=
  match dict_get FABRIC_STANDARD item_type with
  | Some x => Float x
  | None => Int 0
  end.

(** Line 358. *)
Definition fabric_required_std (d : db) (item_type : string) (units : Z) : num :=
  match select_standard d item_type with
  | Some x => Float (x * float_of_int units)
  | None => mul_int (FABRIC_STANDARD_get item_type) units
  end.

(** [Resolve(product_type)] in the words of the specification: the
    per-unit value of the standards row when there is one, else the
    built-in constant, else 0.  Line 358 computes the required fabric in
    one go; [fabric_required_std_resolve] below relates the two. *)
Definition resolve (d : db) (item_type : string) : num :=
  match select_standard d item_type with
  | Some x => Float x
  | None => FABRIC_STANDARD_get item_type
  end.

(** Line 366: the "No standard fabric requirement defined" warning. *)
Definition no_standard_defined (d : db) (item_type : string) : bool :=
  match dict_get FABRIC_STANDARD item_type, select_standard d item_type with
  | None, None => true
  | _, _ => false
  end.

(** Lines 371-378: [Load].  The first row of the SELECT on
    [fabric_cost_1], or nothing: the twelve REAL columns as the table holds
    them. *)
Definition load_cost (d : db) (order_number : string) : option cost_inputs :=
  option_map c_inputs
    (find (fun r => String.eqb (c_order_number r) order_number)
          (fabric_cost_1 d)).

Definition zero_inputs : cost_inputs :=
  {| fabric_issued := 0; fabric_rate := 0; accessories_rate := 0;
     printing_rate := 0; overhead_per_unit := 0; labor_cutting_rate := 0;
     labor_sewing_rate := 0; labor_finishing_rate := 0; dyeing_rate := 0;
     embroidery_rate := 0; shipping_cost := 0; misc_cost := 0 |}.

(** [defaults], the values the form's widgets start from. *)
Definition defaults (d : db) (order_number : string) : cost_inputs :=
  match load_cost d order_number with
  | Some i => i
  | None => zero_inputs
  end.

(** Line 385.  [fabric_required_override] is the value of a number_input
    with [min_value=0.0], a float. *)
Definition fabric_required (fabric_required_override : float) (units : Z)
    (fabric_required_std : num) : num :=
  if float_truthy fabric_required_override
  then Float (fabric_required_override * float_of_int units)
  else fabric_required_std.

(** Lines 402-406: the warnings shown under the form. *)
Inductive warning : Type :=
| FabricDeviation
| UnusualRate.

Definition validate (fabric_issued : float) (fabric_required : num)
    (fabric_rate : float) : list warning :=
  (if (fabric_issued <? to_float fabric_required * 0.8)
      || (to_float fabric_required * 1.2 <? fabric_issued)
   then [FabricDeviation] else [])
  ++ (if (fabric_rate <? 1.0) || (50.0 <? fabric_rate)
      then [UnusualRate] else []).

(** The figures of the "Cost Summary". *)
Record cost_breakdown : Type := {
  fabric_cost : float;
  accessories_cost : float;
  printing_cost : float;
  overhead_cost : float;
  labor_cutting_cost : float;
  labor_sewing_cost : float;
  labor_finishing_cost : float;
  dyeing_cost : float;
  embroidery_cost : float;
  total_cost : float;
  cost_per_unit : float
}.

(** [units] is the order's quantity, a Python [int]; in [units * rate] it is
    converted to a float first. *)
Definition compute (units : Z) (i : cost_inputs) : result cost_breakdown :=
  let u := float_of_int units in
  let fabric_cost := fabric_issued i * fabric_rate i in
  let accessories_cost := u * accessories_rate i in
  let printing_cost := u * printing_rate i in
  let overhead_cost := u * overhead_per_unit i in
  let labor_cutting_cost := u * labor_cutting_rate i in
  let labor_sewing_cost := u * labor_sewing_rate i in
  let labor_finishing_cost := u * labor_finishing_rate i in
  let dyeing_cost := u * dyeing_rate i in
  let embroidery_cost := u * embroidery_rate i in
  let total_cost :=
    fabric_cost + accessories_cost + printing_cost + overhead_cost +
    labor_cutting_cost + labor_sewing_cost + labor_finishing_cost +
    dyeing_cost + embroidery_cost + shipping_cost i + misc_cost i in
  bind (if int_truthy units then truediv_float_int total_cost units
        else Ok 0)
    (fun cost_per_unit =>
       Ok {| fabric_cost := fabric_cost;
             accessories_cost := accessories_cost;
             printing_cost := printing_cost;
             overhead_cost := overhead_cost;
             labor_cutting_cost := labor_cutting_cost;
             labor_sewing_cost := labor_sewing_cost;
             labor_finishing_cost := labor_finishing_cost;
             dyeing_cost := dyeing_cost;
             embroidery_cost := embroidery_cost;
             total_cost := total_cost;
             cost_per_unit := cost_per_unit |}).

(** The inputs of the worked example of the specification. *)
Definition example_inputs : cost_inputs :=
  {| fabric_issued := 15; fabric_rate := 5; accessories_rate := 2;
     printing_rate := 1; overhead_per_unit := 3; labor_cutting_rate := 4;
     labor_sewing_rate := 4; labor_finishing_rate := 4; dyeing_rate := 0;
     embroidery_rate := 0; shipping_cost := 50; misc_cost := 10 |}.

(** *** Saving (lines 454-514) *)

(** The tuple bound to both INSERT statements. *)
Definition cost_record (order_number item_type : string) (units : Z)
    (i : cost_inputs) (last_updated : string) : cost_row :=
  {| c_order_number := order_number; c_item_type := item_type;
     c_units := units; c_inputs := i; c_last_updated := last_updated |}.

(** The twelve bound values as the REAL columns of the two cost tables
    hold them. *)
Definition stored_inputs (i : cost_inputs) : cost_inputs :=
  {| fabric_issued := sql_real (fabric_issued i);
     fabric_rate := sql_real (fabric_rate i);
     accessories_rate := sql_real (accessories_rate i);
     printing_rate := sql_real (printing_rate i);
     overhead_per_unit := sql_real (overhead_per_unit i);
     labor_cutting_rate := sql_real (labor_cutting_rate i);
     labor_sewing_rate := sql_real (labor_sewing_rate i);
     labor_finishing_rate := sql_real (labor_finishing_rate i);
     dyeing_rate := sql_real (dyeing_rate i);
     embroidery_rate := sql_real (embroidery_rate i);
     shipping_cost := sql_real (shipping_cost i);
     misc_cost := sql_real (misc_cost i) |}.

(** The bound tuple as a row of either cost table: the text and integer
    columns as bound, the REAL columns as they store the numbers. *)
Definition stored (r : cost_row) : cost_row :=
  {| c_order_number := c_order_number r;
     c_item_type := c_item_type r;
     c_units := c_units r;
     c_inputs := stored_inputs (c_inputs r);
     c_last_updated := c_last_updated r |}.

(** [INSERT INTO fabric_cost_history (...) VALUES (...)]: a new row under
    the next surrogate key; the table has no constraint to violate. *)
Definition add_history (r : cost_row) (d : db) : db :=
  {| orders := orders d;
     fabric_cost_1 := fabric_cost_1 d;
     fabric_standards := fabric_standards d;
     fabric_cost_history :=
       fabric_cost_history d
       ++ [ {| h_id := next_id (map h_id (fabric_cost_history d));
               h_cost := stored r |} ];
     accessories_details := accessories_details d |}.

Definition insert_history (r : cost_row) : stmt :=
  fun d => Ok (add_history r d).

(** [INSERT INTO fabric_cost_1 ... ON CONFLICT(order_number) DO UPDATE SET
    c = excluded.c] for every column but the key: the row holding the key
    takes the new values in place, otherwise the row is appended. *)
Fixpoint upsert (r : cost_row) (t : list cost_row) : list cost_row :=
  match t with
  | [] => [stored r]
  | x :: t' =>
      if String.eqb (c_order_number x) (c_order_number r)
      then {| c_order_number := c_order_number x;
              c_item_type := c_item_type r;
              c_units := c_units r;
              c_inputs := stored_inputs (c_inputs r);
              c_last_updated := c_last_updated r |} :: t'
      else x :: upsert r t'
  end.

Definition put_current (r : cost_row) (d : db) : db :=
  {| orders := orders d;
     fabric_cost_1 := upsert r (fabric_cost_1 d);
     fabric_standards := fabric_standards d;
     fabric_cost_history := fabric_cost_history d;
     accessories_details := accessories_details d |}.

Definition upsert_cost (r : cost_row) : stmt :=
  fun d => Ok (put_current r d).

(** The body of the [try]: two executes, then one commit. *)
Definition save_cost (f : faults) (r : cost_row) : M unit :=
  (execute (f 0%nat) (insert_history r) ;;
   execute (f 1%nat) (upsert_cost r) ;;
   commit (f 2%nat))%conn.

(** What the page reports after the button. *)
Inductive save_message : Type :=
| Saved
| SaveIntegrityError
| SaveError (e : exn).

(** What the two [except] clauses show for an exception. *)
Definition reported (e : exn) : save_message :=
  match e with
  | IntegrityError => SaveIntegrityError
  | _ => SaveError e
  end.

(** The [try] with its two [except] clauses: each only reports. *)
Definition save_handler (f : faults) (r : cost_row) : M save_message :=
  try_except (save_cost f r ;; ret Saved)%conn (fun e => ret (reported e)).

(** Line 552, the "Cost History" table: the history rows of the order as
    the connection sees them (shown latest first). *)
Definition history_of (d : db) (order_number : string) : list history_row :=
  filter (fun h => String.eqb (c_order_number (h_cost h)) order_number)
         (fabric_cost_history d).

(** The rows of [fabric_cost_1] under an order number. *)
Definition current_of (d : db) (order_number : string) : list cost_row :=
  filter (fun r => String.eqb (c_order_number r) order_number)
         (fabric_cost_1 d).

(** How many history rows, and how many current records, an order has. *)
Definition history_count (d : db) (k : string) : nat :=
  List.length (history_of d k).

Definition current_count (d : db) (k : string) : nat :=
  List.length (current_of d k).

(** *** One run of the page with "Save Cost Record" pressed *)

Record cost_form : Type := {
  fabric_required_override : float;
  form_inputs : cost_inputs
}.

Record cost_sheet_page : Type := {
  shown_warnings : list warning;
  shown_breakdown : cost_breakdown;
  shown_message : save_message;
  (** what the "Cost History" query of this run returns *)
  shown_history : list history_row;
  (** what the cost query of this run finds for the order *)
  shown_current : option cost_inputs;
  (** the database file once the script has closed the connection *)
  file_after : db
}.

(** The page shows no form when nothing is selected ([if selected_order:])
    and the selectbox offers only the keys of [order_map]; a calculation
    that raised would end the run before the save. *)
Definition cost_sheet_submit (f : faults) (file : db) (selected_order : string)
    (form : cost_form) (now : string) : option cost_sheet_page :=
  let c := connect (setup file) in
  if String.eqb selected_order "" then None
  else
    match dict_get (order_map (working c)) selected_order with
    | None => None
    | Some (order_number, product, units) =>
        let item_type := item_type_of product in
        let std := fabric_required_std (working c) item_type units in
        let required :=
          fabric_required (fabric_required_override form) units std in
        let i := form_inputs form in
        let warnings := validate (fabric_issued i) required (fabric_rate i) in
        match compute units i with
        | Raise _ => None
        | Ok b =>
            let '(c', r) :=
              save_handler f (cost_record order_number item_type units i now) c in
            Some {| shown_warnings := warnings;
                    shown_breakdown := b;
                    shown_message :=
                      match r with Ok m => m | Raise e => SaveError e end;
                    shown_history := history_of (working c') order_number;
                    shown_current := load_cost (working c') order_number;
                    file_after := close c' |}
        end
    end.

(** *** Accessories (lines 518-533) *)

(** [quantity] and [rate] are REAL columns. *)
Definition insert_accessory (order_number accessory_type : string)
    (quantity rate : float) (now : string) : stmt :=
  fun d =>
    Ok {| orders := orders d;
          fabric_cost_1 := fabric_cost_1 d;
          fabric_standards := fabric_standards d;
          fabric_cost_history := fabric_cost_history d;
          accessories_details :=
            accessories_details d
            ++ [ {| a_id := next_id (map a_id (accessories_details d));
                    a_order_number := order_number;
                    accessory_type := accessory_type;
                    a_quantity := sql_real quantity;
                    a_rate := sql_real rate;
                    a_last_updated := now |} ] |}.

Definition add_accessory (f : faults) (order_number accessory_type : string)
    (quantity rate : float) (now : string) : M bool :=
  try_except
    (execute (f 0%nat)
       (insert_accessory order_number accessory_type quantity rate now) ;;
     commit (f 1%nat) ;;
     ret true)%conn
    (fun _ => ret false).

Definition accessories_submit (f : faults) (file : db) (selected_order : string)
    (accessory_type : string) (quantity rate : float) (now : string) : db :=
  let c := connect (setup file) in
  if String.eqb selected_order "" then close c
  else
    match dict_get (order_map (working c)) selected_order with
    | None => close c
    | Some (order_number, _, _) =>
        close (fst (add_accessory f order_number accessory_type
                      quantity rate now c))
    end.

End CostSheet.

Import CostSheet.

(** ** Order registry (main.py, lines 263-294 and 620-642) *)

Module Registry.

Local Open Scope Z_scope.

(** [st.number_input(label, min_value, max_value, value)]: the value the
    widget hands to the script lies between its bounds.  A number outside
    them is refused in the browser, where the widget keeps the value it
    had, and never reaches the script. *)
Definition number_input_ok (min_value max_value v : Z) : bool :=
  (min_value <=? v) && (v <=? max_value).

(** The call itself raises, and the run ends there, when the start value
    [value] is not between the bounds, or when a bound is not an integer
    that JavaScript holds exactly. *)
Definition js_safe (n : Z) : bool :=
  (- (2 ^ 53 - 1) <=? n) && (n <=? 2 ^ 53 - 1).

Definition number_input_renders (min_value max_value value : Z) : bool :=
  js_safe min_value && js_safe max_value
  && number_input_ok min_value max_value value.

(** A Python [int] is bound to an INTEGER column when it fits 64 bits;
    otherwise the binding raises OverflowError before the statement
    runs. *)
Definition sqlite_int (n : Z) : bool := (- 2 ^ 63 <=? n) && (n <? 2 ^ 63).

(** [INSERT INTO orders (order_number, customer, product, due_date,
    quantity)]: the row goes under the next id and the stage columns take
    their DEFAULT 0. *)
Definition with_order (order_number customer product : string)
    (due_date : date) (quantity : Z) (d : db) : db :=
  {| orders :=
       orders d
       ++ [ {| o_id := next_id (map o_id (orders d));
               Store.order_number := order_number;
               Store.customer := customer;
               Store.product := product;
               Store.due_date := due_date;
               Store.quantity := quantity;
               cutting := 0; sewing := 0; finishing := 0; packaging := 0 |} ];
     fabric_cost_1 := fabric_cost_1 d;
     fabric_standards := fabric_standards d;
     fabric_cost_history := fabric_cost_history d;
     accessories_details := accessories_details d |}.

(** The parameters are bound first, then the statement runs;
    [order_number] is UNIQUE: a second row under a number already present
    is refused. *)
Definition insert_order (order_number customer product : string)
    (due_date : date) (quantity : Z) : stmt :=
  fun d =>
    if negb (sqlite_int quantity) then Raise OverflowError
    else if existsb (fun r => String.eqb (Store.order_number r) order_number)
                    (orders d)
    then Raise IntegrityError
    else Ok (with_order order_number customer product due_date quantity d).

(** What a press of "Add Order" comes to: one of the three messages of
    lines 638-642, or nothing at all when the form does not take the
    values. *)
Inductive entry_message : Type :=
| OrderAdded
| MustBeUnique
| EntryError (e : exn)
| NotAccepted.

(** What the two [except] clauses show for an exception. *)
Definition entry_reported (e : exn) : entry_message :=
  match e with
  | IntegrityError => MustBeUnique
  | _ => EntryError e
  end.

(** Lines 631-642. *)
Definition add_order (f : faults) (order_number customer product : string)
    (due_date : date) (quantity : Z) : M entry_message :=
  try_except
    (execute (f 0%nat)
       (insert_order order_number customer product due_date quantity) ;;
     commit (f 1%nat) ;;
     ret OrderAdded)%conn
    (fun e => ret (entry_reported e)).

(** The widgets of the form (lines 624-628).  The two text inputs and
    the date input hand over any text and any date.  The selectbox hands
    over one of its three options, and the number_input with [min_value=1]
    and no maximum a whole number of 1 or more. *)
Definition product_options : list string :=
  ["Tops"; "Trousers"; "Suits"]%string.

Definition order_form_accepts (product : string) (quantity : Z) : bool :=
  existsb (String.eqb product) product_options && (1 <=? quantity).

(** One run of "Data Entry" with "Add Order" pressed, the five values
    being those of the form's widgets: the message and the file once the
    connection is closed.  The widgets hand over no other product and no
    quantity below 1: with such values there is no run of lines 631-642,
    and nothing is written. *)
Definition data_entry_submit (f : faults) (file : db)
    (order_number customer product : string) (due_date : date)
    (quantity : Z) : db * entry_message :=
  let c := connect (setup file) in
  if order_form_accepts product quantity then
    let '(c', r) :=
      add_order f order_number customer product due_date quantity c in
    (close c', match r with Ok m => m | Raise e => EntryError e end)
  else (close c, NotAccepted).

(** [UPDATE orders SET cutting=?, sewing=?, finishing=?, packaging=?
    WHERE id=?]. *)
Definition set_stages (id cutting sewing finishing packaging : Z)
    (r : order_row) : order_row :=
  if o_id r =? id
  then {| o_id := o_id r;
          Store.order_number := Store.order_number r;
          Store.customer := Store.customer r;
          Store.product := Store.product r;
          Store.due_date := Store.due_date r;
          Store.quantity := Store.quantity r;
          Store.cutting := cutting; Store.sewing := sewing;
          Store.finishing := finishing; Store.packaging := packaging |}
  else r.

Definition with_stages (id cutting sewing finishing packaging : Z) (d : db)
  : db :=
  {| orders :=
       map (set_stages id cutting sewing finishing packaging) (orders d);
     fabric_cost_1 := fabric_cost_1 d;
     fabric_standards := fabric_standards d;
     fabric_cost_history := fabric_cost_history d;
     accessories_details := accessories_details d |}.

(** The statement violates no constraint. *)
Definition update_orders (id cutting sewing finishing packaging : Z) : stmt :=
  fun d => Ok (with_stages id cutting sewing finishing packaging d).

(** Lines 283-292. *)
Definition update_stages (f : faults)
    (id cutting sewing finishing packaging : Z) : M bool :=
  try_except
    (execute (f 0%nat)
       (update_orders id cutting sewing finishing packaging) ;;
     commit (f 1%nat) ;;
     ret true)%conn
    (fun _ => ret false).

(** The row of the Orders page whose widgets the user edits. *)
Definition order_by_id (d : db) (id : Z) : option order_row :=
  find (fun r => o_id r =? id) (orders d).

(** The four number_inputs of a row (lines 279-282): the bounds are 0
    and the row's quantity, the start values the row's own counters. *)
Definition row_renders (row : order_row) : bool :=
  number_input_renders 0 (Store.quantity row) (Store.cutting row)
  && number_input_renders 0 (Store.quantity row) (Store.sewing row)
  && number_input_renders 0 (Store.quantity row) (Store.finishing row)
  && number_input_renders 0 (Store.quantity row) (Store.packaging row).

Definition row_accepts (row : order_row)
    (cutting sewing finishing packaging : Z) : bool :=
  number_input_ok 0 (Store.quantity row) cutting
  && number_input_ok 0 (Store.quantity row) sewing
  && number_input_ok 0 (Store.quantity row) finishing
  && number_input_ok 0 (Store.quantity row) packaging.

(** One run of "Orders" with the "Update" button of row [id] pressed, the
    four numbers being the values of the row's number_inputs; the page
    offers no button for a row it does not list.  The script comes to
    lines 283-288 only when the four widgets of the row are there, and the
    widgets hand over no number outside their bounds: with such numbers
    there is no run of the UPDATE, and nothing is written.  (The loop of
    line 275 shows the rows listed before this one first; which rows those
    are is for the search box of line 266 to decide.) *)
Definition orders_update (f : faults) (file : db)
    (id cutting sewing finishing packaging : Z) : db * bool :=
  let c := connect (setup file) in
  match order_by_id (working c) id with
  | None => (close c, false)
  | Some row =>
      if row_renders row && row_accepts row cutting sewing finishing packaging
      then
        let '(c', r) :=
          update_stages f id cutting sewing finishing packaging c in
        (close c', match r with Ok b => b | Raise _ => false end)
      else (close c, false)
  end.

(** The bound the Orders page keeps: every stage counter between 0 and the
    ordered quantity. *)
Definition stages_in_range (r : order_row) : Prop :=
  0 <= Store.cutting r <= Store.quantity r
  /\ 0 <= Store.sewing r <= Store.quantity r
  /\ 0 <= Store.finishing r <= Store.quantity r
  /\ 0 <= Store.packaging r <= Store.quantity r.

(** Line 310: the status column of the Record page. *)
Definition status (r : order_row) : string :=
  if Store.quantity r <=? Store.packaging r then "Closed" else "Open".

End Registry.

Import Registry.

(** ** Dashboard metrics (main.py, lines 202-226) *)

Module Dashboard.

Local Open Scope Z_scope.

(** pandas sums an integer column in 64-bit two's complement. *)
Definition wrap64 (z : Z) : Z := (z + 2 ^ 63) mod 2 ^ 64 - 2 ^ 63.

Definition column_sum (col : order_row -> Z) (rows : list order_row) : Z :=
  fold_left (fun acc r => wrap64 (acc + col r)) rows 0.

Record metrics : Type := {
  overall_completion : Z;
  active_orders : nat;
  on_track : nat;
  at_risk : nat
}.

(** Line 204: numpy's true division of the two sums, times 100, through
    [int()]. *)
Definition overall_completion_of (rows : list order_row) : result Z :=
  int_of_float
    ((float_of_int (column_sum packaging rows)
      / float_of_int (column_sum quantity rows)) * float_of_int 100)%float.

(** The four metric cards; nothing is computed for an empty table (the
    [else] branch shows "No data available"). *)
Definition completion_metrics (today : date) (rows : list order_row)
  : option (result metrics) :=
  match rows with
  | [] => None
  | _ :: _ =>
      Some
        (bind (overall_completion_of rows)
           (fun pct =>
              Ok {| overall_completion := pct;
                    active_orders := List.length rows;
                    on_track :=
                      List.length (filter (fun r => date_ltb today (due_date r)) rows);
                    at_risk :=
                      List.length (filter (fun r => date_ltb (due_date r) today) rows)
                 |}))
  end.

Definition dashboard (today : date) (file : db) : option (result metrics) :=
  completion_metrics today (orders (setup file)).

End Dashboard.

Import Dashboard.

(** ** The application as a transition system on the database file *)

Module App.

(** One script run that presses a button (or none). *)
Inductive action : Type :=
| DataEntry (f : faults) (order_number customer product : string)
    (due_date : date) (quantity : Z)
| OrdersUpdate (f : faults) (id cutting sewing finishing packaging : Z)
| CostSave (f : faults) (selected_order : string) (form : cost_form)
    (now : string)
| AccessoryAdd (f : faults) (selected_order accessory_type : string)
    (quantity rate : float) (now : string)
| View.

Definition step (file : db) (a : action) : db :=
  match a with
  | DataEntry f order_number customer product due_date quantity =>
      fst (data_entry_submit f file order_number customer product due_date
             quantity)
  | OrdersUpdate f id cutting sewing finishing packaging =>
      fst (orders_update f file id cutting sewing finishing packaging)
  | CostSave f selected_order form now =>
      match cost_sheet_submit f file selected_order form now with
      | Some page => file_after page
      | None => setup file
      end
  | AccessoryAdd f selected_order accessory_type quantity rate now =>
      accessories_submit f file selected_order accessory_type quantity rate now
  | View => setup file
  end.

Definition run (file : db) (trace : list action) : db :=
  fold_left step trace file.

(** The values a run receives are values its widgets can yield: the
    quantity of a new order is at least 1 (line 628), the four stage values
    lie between 0 and the quantity of the row edited (lines 279-282). *)
Definition widgets_allow (file : db) (a : action) : Prop :=
  match a with
  | DataEntry _ _ _ _ _ quantity => (1 <= quantity)%Z
  | OrdersUpdate _ id cutting sewing finishing packaging =>
      forall r, In r (orders file) -> o_id r = id ->
                number_input_ok 0 (Store.quantity r) cutting = true
                /\ number_input_ok 0 (Store.quantity r) sewing = true
                /\ number_input_ok 0 (Store.quantity r) finishing = true
                /\ number_input_ok 0 (Store.quantity r) packaging = true
  | _ => True
  end.

Fixpoint admissible (file : db) (trace : list action) : Prop :=
  match trace with
  | [] => True
  | a :: trace' => widgets_allow file a /\ admissible (step file a) trace'
  end.

(** The numbers of the cost sheet are those of number_inputs with
    [min_value=0.0] (lines 384-398, 520-521): each is a number of 0 or
    more, negative zero included. *)
Definition at_least_zero (x : float) : Prop := (0 <=? x)%float = true.

Definition form_allows (form : cost_form) : Prop :=
  at_least_zero (fabric_required_override form)
  /\ Forall at_least_zero (fields (form_inputs form)).

Definition numbers_allow (a : action) : Prop :=
  match a with
  | CostSave _ _ form _ => form_allows form
  | AccessoryAdd _ _ _ quantity rate _ =>
      at_least_zero quantity /\ at_least_zero rate
  | _ => True
  end.

(** Whether the run [a], started on [file], reports "Cost record
    saved/updated successfully." for [order_number]. *)
Definition saves (order_number : string) (file : db) (a : action) : bool :=
  match a with
  | CostSave f selected_order form now =>
      match cost_sheet_submit f file selected_order form now with
      | Some page =>
          match shown_message page with
          | Saved => String.eqb selected_order order_number
          | _ => false
          end
      | None => false
      end
  | _ => false
  end.

(** The tuple such a run binds to its two INSERTs, when it reports
    success. *)
Definition saved_row (file : db) (a : action) : option cost_row :=
  match a with
  | CostSave f selected_order form now =>
      match cost_sheet_submit f file selected_order form now,
            dict_get (order_map (setup file)) selected_order with
      | Some page, Some (order_number, product, units) =>
          match shown_message page with
          | Saved =>
              Some (cost_record order_number (item_type_of product) units
                      (form_inputs form) now)
          | _ => None
          end
      | _, _ => None
      end
  | _ => None
  end.

(** The number of successful saves for [order_number] along a trace. *)
Fixpoint successful_saves (order_number : string) (file : db)
    (trace : list action) : nat :=
  match trace with
  | [] => 0
  | a :: trace' =>
      (if saves order_number file a then 1 else 0)
      + successful_saves order_number (step file a) trace'
  end.

End App.

Import App.

(** ** Listings and reports (main.py, lines 253-328 and 535-618) *)

Module Reports.

Local Open Scope string_scope.




(** Lines 535-537: the accessory lines of an order, in rowid order. *)
Definition accessories_of (d : db) (order_number : string)
  : list (string * float * float) :=
  map (fun a => (accessory_type a, a_quantity a, a_rate a))
      (filter (fun a => String.eqb (a_order_number a) order_number)
              (accessories_details d)).

(** Line 540: the "Total Cost" column. *)
Definition line_totals (lines : list (string * float * float)) : list float :=
  map (fun l => (snd (fst l) * snd l)%float) lines.

(** *** The Record page (lines 306-327) *)

Section RecordPage.

(** [Series.str.contains(pat, case=False)], pandas' regular-expression
    search, is not part of the script: the listing is given for any such
    test. *)
Variable str_contains : string -> string -> bool.

Definition record_listing (d : db)
    (search_order search_customer status_filter : string) : list order_row :=
  let filtered_df := orders d in
  let filtered_df :=
    if String.eqb search_order "" then filtered_df
    else filter (fun r => str_contains search_order (order_number r))
                filtered_df in
  let filtered_df :=
    if String.eqb search_customer "" then filtered_df
    else filter (fun r => str_contains search_customer (customer r))
                filtered_df in
  if String.eqb status_filter "All" then filtered_df
  else filter (fun r => String.eqb (status r) status_filter) filtered_df.

End RecordPage.

(** *** Month-wise summary (lines 253-255) *)

(** The month of a due date, as [to_period("M")] gives it; the text
    "YYYY-MM" orders as the pair does. *)
Definition month_key : Type := (Z * Z)%type.

Definition month_of (r : order_row) : month_key :=
  (year (due_date r), month (due_date r)).

Definition month_ltb (a b : month_key) : bool :=
  (fst a <? fst b)%Z || ((fst a =? fst b)%Z && (snd a <? snd b)%Z).

Definition month_eqb (a b : month_key) : bool :=
  (fst a =? fst b)%Z && (snd a =? snd b)%Z.

(** The group keys of [groupby("month")]: each month once, ascending. *)
Fixpoint insert_month (k : month_key) (keys : list month_key)
  : list month_key :=
  match keys with
  | [] => [k]
  | k' :: keys' =>
      if month_ltb k k' then k :: keys
      else if month_eqb k k' then keys
      else k' :: insert_month k keys'
  end.

Definition months (rows : list order_row) : list month_key :=
  fold_right (fun r keys => insert_month (month_of r) keys) [] rows.

Record month_row : Type := {
  m_month : month_key;
  m_quantity : Z;
  m_cutting : Z;
  m_sewing : Z;
  m_finishing : Z;
  m_packaging : Z
}.

(** [groupby("month")[[...]].sum().reset_index()]: one row per month, each
    column the 64-bit sum over the orders due that month. *)
Definition monthly_summary (rows : list order_row) : list month_row :=
  map (fun k =>
         let group := filter (fun r => month_eqb (month_of r) k) rows in
         {| m_month := k;
            m_quantity := column_sum quantity group;
            m_cutting := column_sum cutting group;
            m_sewing := column_sum sewing group;
            m_finishing := column_sum finishing group;
            m_packaging := column_sum packaging group |})
      (months rows).

(** *** Order-wise cost data (lines 571-595) *)

Record export_row : Type := {
  e_order_number : string;
  e_customer : string;
  e_product : string;
  e_quantity : Z;
  e_item_type : string;
  e_units : Z;
  e_inputs : cost_inputs;
  e_last_updated : string
}.

(** [orders o LEFT JOIN fabric_cost_1 f ON f.order_number =
    o.order_number] with the COALESCE defaults: the rows of the SELECT,
    which its ORDER BY then arranges by [f.last_updated]. *)
Definition cost_export_join (d : db) : list export_row :=
  flat_map
    (fun o =>
       match current_of d (order_number o) with
       | [] =>
           [ {| e_order_number := order_number o;
                e_customer := customer o;
                e_product := product o;
                e_quantity := quantity o;
                e_item_type := "";
                e_units := 0;
                e_inputs := zero_inputs;
                e_last_updated := "" |} ]
       | matches =>
           map (fun f =>
                  {| e_order_number := order_number o;
                     e_customer := customer o;
                     e_product := product o;
                     e_quantity := quantity o;
                     e_item_type := c_item_type f;
                     e_units := c_units f;
                     e_inputs := c_inputs f;
                     e_last_updated := c_last_updated f |})
               matches
       end)
    (orders d).

End Reports.

Import Reports.

(** ** Login and session (main.py, lines 146-180) *)

Module Session.

Local Open Scope string_scope.

Definition users : list (string * string) :=
  [("admin", "admin123"); ("user1", "password1")].

(** Line 157: [username in users and users[username] == password]. *)
Definition credentials_ok (username password : string) : bool :=
  match dict_get users username with
  | Some p => String.eqb p password
  | None => false
  end.

(** [st.session_state]: the flag, and the user name once a login has set
    it. *)
Record session : Type := {
  authenticated : bool;
  username : option string
}.

(** Lines 166-167: the state of a new browser session. *)
Definition new_session : session :=
  {| authenticated := false; username := None |}.

(** What the user does in one script run. *)
Inductive press : Type :=
| LoginForm (username password : string)
| LogoutButton
| PageButton (a : action).

(** One script run.  The tables are set up first; then an unauthenticated
    session gets the login form and [st.stop()], whatever was pressed; an
    authenticated one gets the logout button and the page. *)
Definition script_run (s : session) (file : db) (p : press) : session * db :=
  if authenticated s then
    match p with
    | LogoutButton =>
        ({| authenticated := false; username := username s |}, setup file)
    | PageButton a => (s, step file a)
    | LoginForm _ _ => (s, setup file)
    end
  else
    match p with
    | LoginForm u pw =>
        if credentials_ok u pw
        then ({| authenticated := true; username := Some u |}, setup file)
        else (s, setup file)
    | _ => (s, setup file)
    end.

Fixpoint session_run (s : session) (file : db) (presses : list press)
  : session * db :=
  match presses with
  | [] => (s, file)
  | p :: presses' =>
      let '(s', file') := script_run s file p in
      session_run s' file' presses'
  end.

End Session.

Import Session.

(** ** What a trace leaves on record *)

Module Ledger.

(** The inputs of the latest successful save for [order_number] along a
    trace, as the REAL columns hold them; [before] when there is none. *)
Fixpoint last_saved (order_number : string) (file : db) (trace : list action)
    (before : option cost_inputs) : option cost_inputs :=
  match trace with
  | [] => before
  | a :: trace' =>
      last_saved order_number (step file a) trace'
        (match saved_row file a with
         | Some r =>
             if String.eqb (c_order_number r) order_number
             then Some (stored_inputs (c_inputs r))
             else before
         | None => before
         end)
  end.

(** The accessory line a run appends, when it appends one: the type as
    entered, the two numbers as the REAL columns hold them. *)
Definition added_accessory (file : db) (a : action)
  : option (string * (string * float * float)) :=
  match a with
  | AccessoryAdd f selected_order accessory_type quantity rate now =>
      if String.eqb selected_order "" then None
      else
        match dict_get (order_map (setup file)) selected_order,
              f 0%nat, f 1%nat with
        | Some (order_number, _, _), None, None =>
            Some (order_number,
                  (accessory_type, sql_real quantity, sql_real rate))
        | _, _, _ => None
        end
  | _ => None
  end.

(** The accessory lines added for [order_number] along a trace, in
    order. *)
Fixpoint added_accessories (order_number : string) (file : db)
    (trace : list action) : list (string * float * float) :=
  match trace with
  | [] => []
  | a :: trace' =>
      match added_accessory file a with
      | Some (k, line) =>
          if String.eqb k order_number
          then line :: added_accessories order_number (step file a) trace'
          else added_accessories order_number (step file a) trace'
      | None => added_accessories order_number (step file a) trace'
      end
  end.

End Ledger.

Import Ledger.

(** ** Sample data *)

Module Sample.

Local Open Scope string_scope.

Definition may_1st : date := {| year := 2024; month := 5; day := 1 |}.

(** A fresh database after one order of 10 tops has been entered. *)
Definition one_order : db :=
  fst (data_entry_submit no_faults empty_db "ORD-1" "Acme" "Tops" may_1st 10).

Definition example_form : cost_form :=
  {| fabric_required_override := 1.5; form_inputs := example_inputs |}.


(** The form left at its zeros, but for a negative zero typed as the
    fabric issued. *)
Definition negative_zero_inputs : cost_inputs :=
  {| fabric_issued := neg_zero; fabric_rate := 0; accessories_rate := 0;
     printing_rate := 0; overhead_per_unit := 0; labor_cutting_rate := 0;
     labor_sewing_rate := 0; labor_finishing_rate := 0; dyeing_rate := 0;
     embroidery_rate := 0; shipping_cost := 0; misc_cost := 0 |}%float.

Definition order_of (quantity packaging : Z) (due : date) : order_row :=
  {| o_id := 1; order_number := "ORD-1"; customer := "Acme";
     product := "Tops"; due_date := due; quantity := quantity;
     cutting := packaging; sewing := packaging; finishing := packaging;
     packaging := packaging |}.

(** 2049 orders, none packed yet, whose quantities add up to 2 ^ 64: 2048
    orders of 2 ^ 53 - 1 units and one of 2048. *)
Definition orders_adding_to_2_64 : list order_row :=
  (repeat (order_of (2 ^ 53 - 1) 0 may_1st) 2048
   ++ [order_of 2048 0 may_1st])%list.

End Sample.

Import Sample.

(** * Properties *)

(** ** Binary64 comparisons *)

Section FloatFacts.

Open Scope float_scope.

Lemma SFltb_negb_SFleb (a b : spec_float) :
  a <> S754_nan -> b <> S754_nan -> SFltb a b = negb (SFleb b a).
Proof.
  intros Ha Hb. unfold SFltb, SFleb.
  destruct a as [sa|sa| |sa ma ea], b as [sb|sb| |sb mb eb];
    try congruence; cbn;
    try (destruct sa; reflexivity); try (destruct sb; reflexivity);
    try (destruct sa, sb; reflexivity).
  destruct sa, sb; try reflexivity;
    rewrite (Z.compare_antisym ea eb);
    destruct (ea ?= eb)%Z; cbn; try reflexivity;
    change (Pos.compare_cont Eq mb ma) with (Pos.compare mb ma);
    change (Pos.compare_cont Eq ma mb) with (Pos.compare ma mb);
    rewrite (Pos.compare_antisym ma mb);
    destruct (ma ?= mb)%positive; reflexivity.
Qed.

Lemma is_nan_false (x : float) : is_nan x = false -> Prim2SF x <> S754_nan.
Proof.
  unfold is_nan. rewrite eqb_spec. intros H E. rewrite E in H. discriminate H.
Qed.

(** Away from NaN, [x < y] is the negation of [y <= x]. *)
Lemma ltb_negb_leb (x y : float) :
  is_nan x = false -> is_nan y = false -> (x <? y) = negb (y <=? x).
Proof.
  intros Hx Hy. rewrite ltb_spec, leb_spec.
  apply SFltb_negb_SFleb; apply is_nan_false; assumption.
Qed.

Lemma leb_not_nan_l (x y : float) : (x <=? y) = true -> is_nan x = false.
Proof.
  unfold is_nan. rewrite leb_spec, eqb_spec. unfold SFleb, SFeqb.
  destruct (Prim2SF x) as [sa|sa| |sa ma ea], (Prim2SF y) as [sb|sb| |sb mb eb];
    cbn; try discriminate; intros _;
    try reflexivity; try (destruct sa; reflexivity).
  all: destruct sa; try rewrite Z.compare_refl;
    try rewrite Pos.compare_cont_refl; reflexivity.
Qed.

Lemma leb_not_nan_r (x y : float) : (x <=? y) = true -> is_nan y = false.
Proof.
  unfold is_nan. rewrite leb_spec, eqb_spec. unfold SFleb, SFeqb.
  destruct (Prim2SF x) as [sa|sa| |sa ma ea], (Prim2SF y) as [sb|sb| |sb mb eb];
    cbn; try discriminate; intros _;
    try reflexivity; try (destruct sb; reflexivity).
  all: destruct sb; try rewrite Z.compare_refl;
    try rewrite Pos.compare_cont_refl; reflexivity.
Qed.

(** A value of a number_input with [min_value=0.0] is true in [if x]
    exactly when it is positive. *)
Lemma float_truthy_nonneg (x : float) :
  (0 <=? x) = true -> float_truthy x = (0 <? x).
Proof.
  unfold float_truthy. rewrite leb_spec, eqb_spec, ltb_spec.
  change (Prim2SF 0) with (S754_zero false).
  unfold SFleb, SFeqb, SFltb.
  destruct (Prim2SF x) as [s|s| |s m e]; cbn;
    try discriminate; try reflexivity; destruct s; cbn;
    try discriminate; reflexivity.
Qed.

(** Two floats that [=?] tells apart are different values. *)
Lemma eqb_false_neq (x y : float) : (x =? y) = false -> is_nan x = false -> x <> y.
Proof.
  intros H Hx E. subst y. unfold is_nan in Hx. rewrite H in Hx. discriminate Hx.
Qed.

End FloatFacts.

(** ** The cost calculations *)

Section Calculations.

Open Scope float_scope.

(** The calculation never raises: the only division is behind [if units]. *)
Lemma compute_returns (units : Z) (i : cost_inputs) :
  exists b, compute units i = Ok b.
Proof.
  unfold compute, int_truthy, truediv_float_int.
  destruct (units =? 0)%Z; cbn; eexists; reflexivity.
Qed.

(** C1, as amended.  For every input tuple [compute] returns a breakdown in
    which the fabric cost is [fabric_issued * fabric_rate], each of the
    eight unit-based components is [units] times its rate, the total is the
    sum of the eleven components, and the cost per unit is the total
    divided by [units] when [units] is not 0 and 0 when it is, so no
    division by zero is ever raised.  On the worked example (units = 10) the
    total is 315 and the cost per unit 31.5. *)
Theorem compute_breakdown :
  (forall (units : Z) (i : cost_inputs),
      exists b : cost_breakdown,
        compute units i = Ok b
        /\ fabric_cost b = fabric_issued i * fabric_rate i
        /\ accessories_cost b = float_of_int units * accessories_rate i
        /\ printing_cost b = float_of_int units * printing_rate i
        /\ overhead_cost b = float_of_int units * overhead_per_unit i
        /\ labor_cutting_cost b = float_of_int units * labor_cutting_rate i
        /\ labor_sewing_cost b = float_of_int units * labor_sewing_rate i
        /\ labor_finishing_cost b = float_of_int units * labor_finishing_rate i
        /\ dyeing_cost b = float_of_int units * dyeing_rate i
        /\ embroidery_cost b = float_of_int units * embroidery_rate i
        /\ total_cost b =
             fabric_cost b + accessories_cost b + printing_cost b
             + overhead_cost b + labor_cutting_cost b + labor_sewing_cost b
             + labor_finishing_cost b + dyeing_cost b + embroidery_cost b
             + shipping_cost i + misc_cost i
        /\ (units <> 0%Z ->
            cost_per_unit b = total_cost b / float_of_int units)
        /\ (units = 0%Z -> cost_per_unit b = 0))
  /\ (exists b : cost_breakdown,
        compute 10 example_inputs = Ok b
        /\ fabric_cost b = 75 /\ accessories_cost b = 20
        /\ printing_cost b = 10 /\ overhead_cost b = 30
        /\ labor_cutting_cost b = 40 /\ labor_sewing_cost b = 40
        /\ labor_finishing_cost b = 40 /\ dyeing_cost b = 0
        /\ embroidery_cost b = 0
        /\ total_cost b = 315 /\ cost_per_unit b = 31.5).
Proof.
  split.
  - intros units i. unfold compute, int_truthy, truediv_float_int.
    destruct (Z.eqb_spec units 0) as [E | N]; cbn.
    + eexists. split; [reflexivity |]. cbn.
      repeat split; intros; solve [reflexivity | congruence].
    + eexists. split; [reflexivity |]. cbn.
      repeat split; intros; solve [reflexivity | congruence].
  - eexists. split; [vm_compute; reflexivity |].
    cbn. repeat split; reflexivity.
Qed.

(** C1, the worked example as the specification prints it: the eleven
    components it lists add up to 315, not 335, and the cost per unit is
    31.5, not 33.5. *)
Lemma worked_example_is_not_335 :
  ~ (exists b : cost_breakdown,
       compute 10 example_inputs = Ok b
       /\ total_cost b = 335 /\ cost_per_unit b = 33.5).
Proof.
  intros [b [Hb [Ht _]]].
  vm_compute in Hb. injection Hb as Hb. subst b. cbn in Ht.
  revert Ht. apply eqb_false_neq; reflexivity.
Qed.

End Calculations.

(** ** Required fabric *)

Section RequiredFabric.

Open Scope float_scope.

(** What the SELECT of lines 355-357 finds. *)
Lemma select_standard_some (d : db) (item_type : string) (x : float) :
  select_standard d item_type = Some x ->
  exists r, In r (fabric_standards d)
            /\ product_type r = item_type /\ size r = "standard"%string
            /\ fabric_per_unit r = x.
Proof.
  unfold select_standard.
  destruct (find _ (fabric_standards d)) as [r |] eqn:F; [| discriminate].
  cbn. intros [= <-]. apply find_some in F. destruct F as [I B].
  apply andb_true_iff in B. destruct B as [B1 B2].
  apply String.eqb_eq in B1. apply String.eqb_eq in B2.
  exists r. auto.
Qed.

Lemma select_standard_none (d : db) (item_type : string) :
  select_standard d item_type = None <->
  (forall r, In r (fabric_standards d) ->
             ~ (product_type r = item_type /\ size r = "standard"%string)).
Proof.
  unfold select_standard. split.
  - destruct (find _ (fabric_standards d)) as [r |] eqn:F; [discriminate |].
    intros _ r I [E1 E2].
    apply (find_none _ _ F) in I. cbn in I.
    apply String.eqb_eq in E1. apply String.eqb_eq in E2.
    rewrite E1, E2 in I. discriminate I.
  - intros H.
    destruct (find _ (fabric_standards d)) as [r |] eqn:F; [| reflexivity].
    exfalso. apply find_some in F. destruct F as [I B].
    apply andb_true_iff in B. destruct B as [B1 B2].
    apply String.eqb_eq in B1. apply String.eqb_eq in B2.
    exact (H r I (conj B1 B2)).
Qed.

(** Line 358 is the resolved per-unit value times the units. *)
Lemma fabric_required_std_resolve (d : db) (item_type : string) (units : Z) :
  fabric_required_std d item_type units = mul_int (resolve d item_type) units.
Proof.
  unfold fabric_required_std, resolve.
  destruct (select_standard d item_type); reflexivity.
Qed.

(** C5.  With an override above 0 (the widget admits none below 0) the
    required fabric is the override times the units; otherwise it is the
    resolved per-unit value times the units, where the resolved value is
    the [fabric_per_unit] of the standards row for the type and size
    'standard', else the built-in constant of the type (top 1.5, trouser
    1.0, suit 2.5), else 0.  With no standards row, "trouser" resolves to
    1.0. *)
Theorem required_fabric_resolution
    (d : db) (item_type : string) (units : Z) (override : float) :
  (0 <=? override) = true ->
  ((0 <? override) = true ->
   fabric_required override units (fabric_required_std d item_type units)
   = Float (override * float_of_int units))
  /\ ((0 <? override) = false ->
      fabric_required override units (fabric_required_std d item_type units)
      = mul_int (resolve d item_type) units)
  /\ (forall x, select_standard d item_type = Some x ->
                (exists r, In r (fabric_standards d)
                           /\ product_type r = item_type
                           /\ size r = "standard"%string
                           /\ fabric_per_unit r = x)
                /\ resolve d item_type = Float x
                /\ mul_int (resolve d item_type) units
                   = Float (x * float_of_int units))
  /\ (forall k, select_standard d item_type = None ->
                dict_get FABRIC_STANDARD item_type = Some k ->
                resolve d item_type = Float k
                /\ mul_int (resolve d item_type) units
                   = Float (k * float_of_int units))
  /\ (select_standard d item_type = None ->
      dict_get FABRIC_STANDARD item_type = None ->
      resolve d item_type = Int 0)
  /\ (select_standard d item_type = None <->
      (forall r, In r (fabric_standards d) ->
                 ~ (product_type r = item_type /\ size r = "standard"%string)))
  /\ FABRIC_STANDARD = [("top", 1.5); ("trouser", 1.0); ("suit", 2.5)]%string
  /\ (select_standard d "trouser" = None -> resolve d "trouser" = Float 1.0).
Proof.
  intros Hmin. pose proof (float_truthy_nonneg override Hmin) as T.
  unfold fabric_required. rewrite T.
  split; [intros ->; reflexivity |].
  split; [intros ->; apply fabric_required_std_resolve |].
  split.
  { intros x Hx. split; [exact (select_standard_some d item_type x Hx) |].
    unfold resolve. rewrite Hx. split; reflexivity. }
  split.
  { intros k Hn Hk. unfold resolve, FABRIC_STANDARD_get. rewrite Hn, Hk.
    split; reflexivity. }
  split.
  { intros Hn Hk. unfold resolve, FABRIC_STANDARD_get. rewrite Hn, Hk.
    reflexivity. }
  split; [apply select_standard_none |].
  split; [reflexivity |].
  intros Hn. unfold resolve. rewrite Hn. reflexivity.
Qed.

(** The theorem at work: order of 10 trousers on a database without
    standards rows, the override left at 0. *)
Lemma required_fabric_resolution_witness :
  (0 <=? 0) = true
  /\ fabric_required 0 10 (fabric_required_std empty_db "trouser" 10)
     = mul_int (resolve empty_db "trouser") 10
  /\ resolve empty_db "trouser" = Float 1.0.
Proof.
  split; [reflexivity |].
  pose proof (required_fabric_resolution empty_db "trouser" 10 0 eq_refl)
    as [_ [H [_ [_ [_ [_ [_ R]]]]]]].
  split; [apply H; reflexivity | apply R; reflexivity].
Defined.

End RequiredFabric.

(** ** Saving and loading a cost record *)

Section Saving.

(** The handler, case by case on where the environment strikes. *)
Lemma save_handler_cases (f : faults) (r : cost_row) (c : conn) :
  save_handler f r c =
  match f 0%nat, f 1%nat, f 2%nat with
  | Some e, _, _ => (c, Ok (reported e))
  | None, Some e, _ =>
      ({| committed := committed c; working := add_history r (working c) |},
       Ok (reported e))
  | None, None, Some e =>
      ({| committed := committed c;
          working := put_current r (add_history r (working c)) |},
       Ok (reported e))
  | None, None, None =>
      ({| committed := put_current r (add_history r (working c));
          working := put_current r (add_history r (working c)) |},
       Ok Saved)
  end.
Proof.
  unfold save_handler, save_cost, try_except, seq, execute, commit, ret,
    insert_history, upsert_cost, reported.
  destruct (f 0%nat) as [e0 |]; [reflexivity |].
  destruct (f 1%nat) as [e1 |]; [reflexivity |].
  destruct (f 2%nat) as [e2 |]; reflexivity.
Qed.

Lemma reported_not_saved (e : exn) : reported e <> Saved.
Proof. destruct e; discriminate. Qed.

(** "Saved" is reported exactly when no call of the run failed. *)
Lemma save_handler_saved (f : faults) (r : cost_row) (c c' : conn) :
  save_handler f r c = (c', Ok Saved) ->
  f 0%nat = None /\ f 1%nat = None /\ f 2%nat = None
  /\ committed c' = put_current r (add_history r (working c))
  /\ working c' = put_current r (add_history r (working c)).
Proof.
  rewrite save_handler_cases.
  destruct (f 0%nat) as [e0 |].
  { intros [= _ H]. destruct (reported_not_saved e0 H). }
  destruct (f 1%nat) as [e1 |].
  { intros [= _ H]. destruct (reported_not_saved e1 H). }
  destruct (f 2%nat) as [e2 |].
  { intros [= _ H]. destruct (reported_not_saved e2 H). }
  intros [= <-]. cbn. auto.
Qed.

(** The row under the key after the upsert carries the new values, the
    numbers as the REAL columns hold them. *)
Lemma find_upsert (r : cost_row) (t : list cost_row) :
  exists x,
    find (fun y => String.eqb (c_order_number y) (c_order_number r)) (upsert r t)
    = Some x
    /\ c_item_type x = c_item_type r /\ c_units x = c_units r
    /\ c_inputs x = stored_inputs (c_inputs r)
    /\ c_last_updated x = c_last_updated r.
Proof.
  induction t as [| y t IH]; cbn.
  - rewrite String.eqb_refl. eexists; split; [reflexivity | cbn; auto].
  - destruct (String.eqb (c_order_number y) (c_order_number r)) eqn:E; cbn.
    + rewrite E. eexists; split; [reflexivity | cbn; auto].
    + rewrite E. exact IH.
Qed.

Lemma load_after_put (r : cost_row) (d : db) :
  load_cost (put_current r d) (c_order_number r)
  = Some (stored_inputs (c_inputs r)).
Proof.
  unfold load_cost, put_current; cbn.
  destruct (find_upsert r (fabric_cost_1 d)) as [x [F [_ [_ [I _]]]]].
  rewrite F. cbn. rewrite I. reflexivity.
Qed.

(** Seeding the standards leaves the other four tables alone. *)
Lemma setup_tables (d : db) :
  orders (setup d) = orders d
  /\ fabric_cost_1 (setup d) = fabric_cost_1 d
  /\ fabric_cost_history (setup d) = fabric_cost_history d
  /\ accessories_details (setup d) = accessories_details d.
Proof. unfold setup. destruct (fabric_standards d); cbn; auto. Qed.

Lemma load_cost_setup (d : db) (k : string) :
  load_cost (setup d) k = load_cost d k.
Proof.
  unfold load_cost. destruct (setup_tables d) as [_ [E _]]. rewrite E.
  reflexivity.
Qed.

(** What a REAL column does to a number: the value read is numerically
    equal to the value bound, and it is the same binary64 value unless the
    value bound is a negative zero. *)
Lemma sql_real_number (x : float) :
  at_least_zero x ->
  (sql_real x =? x)%float = true
  /\ at_least_zero (sql_real x)
  /\ (Prim2SF x <> S754_zero true -> sql_real x = x)
  /\ (Prim2SF x = S754_zero true -> sql_real x = 0%float).
Proof.
  unfold at_least_zero, sql_real. intros H.
  pose proof (SF2Prim_Prim2SF x) as P.
  assert (Z0 : Prim2SF 0 = S754_zero false) by reflexivity.
  destruct (x =? 0)%float eqn:Q.
  - rewrite eqb_spec in Q. rewrite eqb_spec, Z0. rewrite Z0 in Q.
    destruct (Prim2SF x) as [s | s | | s m e] eqn:E; cbn in Q;
      try discriminate; try (destruct s; discriminate Q).
    split; [reflexivity |]. split; [reflexivity |]. split; [| reflexivity].
    destruct s; [congruence |]. intros _. rewrite <- P. reflexivity.
  - split.
    { rewrite eqb_spec. rewrite leb_spec, Z0 in H.
      destruct (Prim2SF x) as [s | s | | s m e]; cbn in H |- *;
        try discriminate; try reflexivity.
      all: destruct s; try discriminate; cbn; try reflexivity.
      rewrite Z.compare_refl, Pos.compare_cont_refl. reflexivity. }
    split; [exact H |]. split; [reflexivity |].
    intros E. rewrite eqb_spec, E, Z0 in Q. discriminate Q.
Qed.

(** C2, as amended.  After a save that reports success, of twelve numbers
    as the form's widgets yield them (each 0 or more), the load of the
    same order number returns all twelve fields, on the connection that
    saved, in the file once the connection is closed, and in every later
    run of the script, and the form defaults are those values.  Each value
    returned is numerically equal to the value saved, and is the saved
    binary64 value itself, except that a negative zero is returned as
    zero. *)
Theorem save_load_round_trip
    (f : faults) (c c' : conn) (order_number item_type : string) (units : Z)
    (i : cost_inputs) (now : string) :
  Forall at_least_zero (fields i) ->
  save_handler f (cost_record order_number item_type units i now) c
  = (c', Ok Saved) ->
  exists loaded : cost_inputs,
    load_cost (working c') order_number = Some loaded
    /\ load_cost (close c') order_number = Some loaded
    /\ load_cost (working (connect (setup (close c')))) order_number
       = Some loaded
    /\ defaults (close c') order_number = loaded
    /\ loaded = stored_inputs i
    /\ Forall2 (fun read saved =>
                  (read =? saved)%float = true
                  /\ (Prim2SF saved <> S754_zero true -> read = saved)
                  /\ (Prim2SF saved = S754_zero true -> read = 0%float))
         (fields loaded) (fields i)
    /\ ((forall x, In x (fields i) -> Prim2SF x <> S754_zero true) ->
        loaded = i).
Proof.
  intros W H. apply save_handler_saved in H.
  destruct H as [_ [_ [_ [Hc Hw]]]].
  pose proof (load_after_put (cost_record order_number item_type units i now)
                (add_history (cost_record order_number item_type units i now)
                   (working c))) as L.
  cbn [c_order_number c_inputs cost_record] in L.
  exists (stored_inputs i).
  unfold close, defaults. cbn [working connect].
  rewrite load_cost_setup, Hc, Hw, L.
  repeat (split; [reflexivity |]).
  assert (Each : forall x, In x (fields i) ->
                   (sql_real x =? x)%float = true
                   /\ (Prim2SF x <> S754_zero true -> sql_real x = x)
                   /\ (Prim2SF x = S754_zero true -> sql_real x = 0%float)).
  { intros x Ix. rewrite Forall_forall in W.
    destruct (sql_real_number x (W x Ix)) as [A [_ [B C]]]. auto. }
  split.
  - unfold fields, stored_inputs; cbn [fabric_issued fabric_rate accessories_rate
      printing_rate overhead_per_unit labor_cutting_rate labor_sewing_rate
      labor_finishing_rate dyeing_rate embroidery_rate shipping_cost misc_cost].
    repeat (constructor; [apply Each; unfold fields; cbn [In]; auto 15 |]).
    constructor.
  - intros NZ. destruct i. unfold stored_inputs, fields in *.
    cbn [fabric_issued fabric_rate accessories_rate
      printing_rate overhead_per_unit labor_cutting_rate labor_sewing_rate
      labor_finishing_rate dyeing_rate embroidery_rate shipping_cost misc_cost]
      in *.
    f_equal; apply Each; cbn [In]; auto 15; apply NZ; cbn [In]; auto 15.
Qed.

(** The round trip on the worked example, saved for ORD-1. *)
Lemma save_load_round_trip_witness :
  Forall at_least_zero (fields example_inputs)
  /\ save_handler no_faults (cost_record "ORD-1" "top" 10 example_inputs "t")
       (connect one_order)
     = (fst (save_handler no_faults
               (cost_record "ORD-1" "top" 10 example_inputs "t")
               (connect one_order)), Ok Saved)
  /\ exists loaded,
       load_cost
         (close (fst (save_handler no_faults
                        (cost_record "ORD-1" "top" 10 example_inputs "t")
                        (connect one_order)))) "ORD-1"
       = Some loaded
       /\ loaded = stored_inputs example_inputs.
Proof.
  assert (W : Forall at_least_zero (fields example_inputs))
    by (repeat constructor).
  split; [exact W |]. split; [reflexivity |].
  destruct (save_load_round_trip no_faults (connect one_order) _ "ORD-1" "top"
              10 example_inputs "t" W eq_refl)
    as [loaded [_ [L [_ [_ [E _]]]]]].
  exists loaded. split; assumption.
Defined.

(** C2, the claim as stated: the values returned are not always the
    values saved.  A negative zero typed as the fabric issued satisfies the
    widget's [min_value=0.0]; the save succeeds and the load returns
    [0.0] in its place. *)
Lemma save_load_negative_zero :
  ~ (forall (f : faults) (c c' : conn) (order_number item_type : string)
            (units : Z) (i : cost_inputs) (now : string),
        Forall at_least_zero (fields i) ->
        save_handler f (cost_record order_number item_type units i now) c
        = (c', Ok Saved) ->
        load_cost (working c') order_number = Some i).
Proof.
  intros H.
  assert (W : Forall at_least_zero (fields negative_zero_inputs))
    by (repeat constructor).
  specialize (H no_faults (connect one_order) _ "ORD-1"%string "top"%string
                10%Z negative_zero_inputs "t"%string W eq_refl).
  apply (f_equal (fun loaded =>
                    match loaded with
                    | Some i => Prim2SF (fabric_issued i)
                    | None => S754_nan
                    end)) in H.
  vm_compute in H. discriminate H.
Qed.

End Saving.

(** ** The cost sheet page as a whole *)

Section CostSheetPage.

Lemma dict_get_in {V : Type} (m : list (string * V)) (k : string) (v : V) :
  dict_get m k = Some v -> In (k, v) m.
Proof.
  induction m as [| [k' v'] m IH]; cbn; [discriminate |].
  destruct (String.eqb k' k) eqn:E.
  - intros [= <-]. apply String.eqb_eq in E. subst. left; reflexivity.
  - intros H. right. exact (IH H).
Qed.

(** The row found under a key of [order_map] carries that order number. *)
Lemma order_map_key (d : db) (k order_number product : string) (units : Z) :
  dict_get (order_map d) k = Some (order_number, product, units) ->
  order_number = k
  /\ exists r, In r (orders d) /\ Store.order_number r = k
               /\ Store.product r = product /\ Store.quantity r = units.
Proof.
  intros H. apply dict_get_in in H. unfold order_map in H.
  apply in_rev in H. apply in_map_iff in H. destruct H as [r [E I]].
  injection E as E1 E2 E3 E4. subst. split; [reflexivity |].
  exists r. auto.
Qed.

(** One run of the page, unfolded: the order is looked up, the warnings
    and the breakdown are computed, and the handler runs whatever the
    warnings are. *)
Lemma cost_sheet_submit_some
    (f : faults) (file : db) (selected_order : string) (form : cost_form)
    (now : string) (page : cost_sheet_page) :
  cost_sheet_submit f file selected_order form now = Some page ->
  exists product units,
    dict_get (order_map (setup file)) selected_order
    = Some (selected_order, product, units)
    /\ selected_order <> ""%string
    /\ compute units (form_inputs form) = Ok (shown_breakdown page)
    /\ shown_warnings page
       = validate (fabric_issued (form_inputs form))
           (fabric_required (fabric_required_override form) units
              (fabric_required_std (setup file) (item_type_of product) units))
           (fabric_rate (form_inputs form))
    /\ (let r := cost_record selected_order (item_type_of product) units
                   (form_inputs form) now in
        let out := save_handler f r (connect (setup file)) in
        snd out = Ok (shown_message page)
        /\ shown_history page = history_of (working (fst out)) selected_order
        /\ shown_current page = load_cost (working (fst out)) selected_order
        /\ file_after page = close (fst out)).
Proof.
  unfold cost_sheet_submit. cbn [working connect].
  destruct (String.eqb selected_order "") eqn:E; [discriminate |].
  apply String.eqb_neq in E.
  destruct (dict_get (order_map (setup file)) selected_order)
    as [[[on product] units] |] eqn:G; [| discriminate].
  destruct (order_map_key _ _ _ _ _ G) as [-> _].
  destruct (compute units (form_inputs form)) as [b |] eqn:C; [| discriminate].
  rewrite save_handler_cases.
  destruct (f 0%nat) eqn:F0, (f 1%nat) eqn:F1, (f 2%nat) eqn:F2;
    intros [= <-]; exists product, units;
    rewrite save_handler_cases, F0, ?F1, ?F2; cbn; auto 10.
Qed.

(** Conversely the page runs for every listed order. *)
Lemma cost_sheet_submit_runs
    (f : faults) (file : db) (selected_order product : string) (units : Z)
    (form : cost_form) (now : string) :
  dict_get (order_map (setup file)) selected_order
  = Some (selected_order, product, units) ->
  selected_order <> ""%string ->
  exists page, cost_sheet_submit f file selected_order form now = Some page.
Proof.
  intros G N. unfold cost_sheet_submit. cbn [working connect].
  apply String.eqb_neq in N. rewrite N, G.
  destruct (compute_returns units (form_inputs form)) as [b ->].
  destruct (save_handler f _ _). eexists; reflexivity.
Qed.

End CostSheetPage.

(** ** Validation warnings *)

Section Validation.

Open Scope float_scope.

Lemma in_deviation (a c : float) (r : num) :
  In FabricDeviation (validate a r c) <->
  (a <? to_float r * 0.8) || (to_float r * 1.2 <? a) = true.
Proof.
  unfold validate.
  destruct ((a <? to_float r * 0.8) || (to_float r * 1.2 <? a));
    destruct ((c <? 1.0) || (50.0 <? c)); cbn;
    intuition congruence.
Qed.

Lemma in_unusual_rate (a c : float) (r : num) :
  In UnusualRate (validate a r c) <-> (c <? 1.0) || (50.0 <? c) = true.
Proof.
  unfold validate.
  destruct ((a <? to_float r * 0.8) || (to_float r * 1.2 <? a));
    destruct ((c <? 1.0) || (50.0 <? c)); cbn;
    intuition congruence.
Qed.

(** Away from NaN, "below the lower end or above the upper end" is "not
    in the closed interval". *)
Lemma outside_closed (lo hi x : float) :
  is_nan lo = false -> is_nan hi = false -> is_nan x = false ->
  (x <? lo) || (hi <? x) = negb ((lo <=? x) && (x <=? hi)).
Proof.
  intros Hlo Hhi Hx.
  rewrite (ltb_negb_leb x lo Hx Hlo), (ltb_negb_leb hi x Hhi Hx).
  destruct (lo <=? x), (x <=? hi); reflexivity.
Qed.

(** C8.  [validate] only returns a list of warnings.  For numbers (no
    NaN) it warns of a deviation exactly when the fabric issued is not in
    the closed interval from 0.8 times to 1.2 times the required fabric,
    and of an unusual rate exactly when the rate is not in the closed
    interval from 1.0 to 50.0.  The save that follows does not look at the
    warnings: for a listed order the page always runs the handler, and it
    reports success exactly when no database call of the run fails. *)
Theorem validate_advisories
    (fabric_issued : float) (fabric_required : num) (fabric_rate : float) :
  is_nan fabric_issued = false ->
  is_nan fabric_rate = false ->
  is_nan (to_float fabric_required * 0.8) = false ->
  is_nan (to_float fabric_required * 1.2) = false ->
  (In FabricDeviation (validate fabric_issued fabric_required fabric_rate)
   <-> (to_float fabric_required * 0.8 <=? fabric_issued)
       && (fabric_issued <=? to_float fabric_required * 1.2) = false)
  /\ (In UnusualRate (validate fabric_issued fabric_required fabric_rate)
      <-> (1.0 <=? fabric_rate) && (fabric_rate <=? 50.0) = false)
  /\ (forall w,
         In w (validate fabric_issued fabric_required fabric_rate) ->
         w = FabricDeviation \/ w = UnusualRate)
  /\ (forall (f : faults) (file : db) (selected_order product : string)
             (units : Z) (form : cost_form) (now : string),
         dict_get (order_map (setup file)) selected_order
         = Some (selected_order, product, units) ->
         selected_order <> ""%string ->
         exists page,
           cost_sheet_submit f file selected_order form now = Some page
           /\ (shown_message page = Saved
               <-> f 0%nat = None /\ f 1%nat = None /\ f 2%nat = None)).
Proof.
  intros Hi Hr Hlo Hhi.
  split.
  { rewrite in_deviation, (outside_closed _ _ _ Hlo Hhi Hi).
    apply negb_true_iff. }
  split.
  { rewrite in_unusual_rate.
    rewrite (outside_closed 1.0 50.0 fabric_rate eq_refl eq_refl Hr).
    apply negb_true_iff. }
  split.
  { intros []; auto. }
  intros f file selected_order product units form now G N.
  destruct (cost_sheet_submit_runs f file selected_order product units form
              now G N) as [page P].
  exists page. split; [exact P |].
  destruct (cost_sheet_submit_some _ _ _ _ _ _ P)
    as [p' [u' [_ [_ [_ [_ [S _]]]]]]].
  cbn zeta in S. rewrite save_handler_cases in S.
  destruct (f 0%nat) as [e0 |] eqn:F0.
  { cbn in S. injection S as S. split.
    - intros H. rewrite H in S. destruct (reported_not_saved e0 S).
    - intros [H _]. discriminate H. }
  destruct (f 1%nat) as [e1 |] eqn:F1.
  { cbn in S. injection S as S. split.
    - intros H. rewrite H in S. destruct (reported_not_saved e1 S).
    - intros [_ [H _]]. discriminate H. }
  destruct (f 2%nat) as [e2 |] eqn:F2.
  { cbn in S. injection S as S. split.
    - intros H. rewrite H in S. destruct (reported_not_saved e2 S).
    - intros [_ [_ H]]. discriminate H. }
  cbn in S. injection S as S. split; auto.
Qed.

(** The theorem at work: 15 m issued against 15 m required at a rate of
    5 raises no warning; 8 m issued against 15 m required does. *)
Lemma validate_advisories_witness :
  (is_nan 15 = false /\ is_nan 5 = false
   /\ is_nan (to_float (Float 15) * 0.8) = false
   /\ is_nan (to_float (Float 15) * 1.2) = false)
  /\ (In FabricDeviation (validate 15 (Float 15) 5)
      <-> (to_float (Float 15) * 0.8 <=? 15)
          && (15 <=? to_float (Float 15) * 1.2) = false)
  /\ (In FabricDeviation (validate 8 (Float 15) 5)
      <-> (to_float (Float 15) * 0.8 <=? 8)
          && (8 <=? to_float (Float 15) * 1.2) = false).
Proof.
  split; [repeat split; reflexivity |].
  split.
  - exact (proj1 (validate_advisories 15 (Float 15) 5
                    eq_refl eq_refl eq_refl eq_refl)).
  - exact (proj1 (validate_advisories 8 (Float 15) 5
                    eq_refl eq_refl eq_refl eq_refl)).
Defined.

End Validation.

(** ** The two writes of a save *)

Section TwoWrites.


(** The same for every save: when the first write passes and the second
    fails, the connection is left with the history row and without the
    upsert. *)
Lemma save_handler_half_done
    (f : faults) (r : cost_row) (c : conn) (e : exn) :
  f 0%nat = None -> f 1%nat = Some e ->
  let c' := fst (save_handler f r c) in
  working c' = add_history r (working c)
  /\ fabric_cost_1 (working c') = fabric_cost_1 (working c)
  /\ committed c' = committed c.
Proof.
  intros F0 F1. rewrite save_handler_cases, F0, F1. cbn. auto.
Qed.

(** X1.  What does hold: the file sees both writes or neither.  Whatever fails,
    closing the connection after the handler leaves the committed tables as
    they were, or with the history row and the upsert together. *)
Lemma save_file_both_or_neither (f : faults) (r : cost_row) (c : conn) :
  let out := save_handler f r c in
  (snd out = Ok Saved
   /\ close (fst out) = put_current r (add_history r (working c)))
  \/ (snd out <> Ok Saved /\ close (fst out) = close c).
Proof.
  cbn zeta. rewrite save_handler_cases.
  destruct (f 0%nat) as [e0 |];
    [right; split; [intros [= H]; destruct (reported_not_saved _ H)
                   | reflexivity] |].
  destruct (f 1%nat) as [e1 |];
    [right; split; [intros [= H]; destruct (reported_not_saved _ H)
                   | reflexivity] |].
  destruct (f 2%nat) as [e2 |];
    [right; split; [intros [= H]; destruct (reported_not_saved _ H)
                   | reflexivity] |].
  left. split; reflexivity.
Qed.

(** The orders table across a run of the cost sheet. *)
Lemma save_frame_orders :
  (forall (f : faults) (r : cost_row) (c : conn),
      orders (working (fst (save_handler f r c))) = orders (working c))
  /\ (forall (f : faults) (file : db) (selected_order : string)
             (form : cost_form) (now : string),
         orders (step file (CostSave f selected_order form now))
         = orders file).
Proof.
  split.
  - intros f r c. rewrite save_handler_cases.
    destruct (f 0%nat), (f 1%nat), (f 2%nat); reflexivity.
  - intros f file selected_order form now. unfold step.
    destruct (setup_tables file) as [So _].
    destruct (cost_sheet_submit f file selected_order form now)
      as [page |] eqn:P; [| exact So].
    destruct (cost_sheet_submit_some _ _ _ _ _ _ P)
      as [product [units [_ [_ [_ [_ [_ [_ [_ ->]]]]]]]]].
    rewrite save_handler_cases.
    destruct (f 0%nat), (f 1%nat), (f 2%nat); exact So.
Qed.

(** C10.  A save writes to [fabric_cost_1] and [fabric_cost_history] only.
    Whatever the handler meets, the [orders] and [accessories_details]
    tables the connection sees are unchanged, and what it commits is what
    the connection held; for a run of the page the two tables of the file
    afterwards (and the standards) are those of the file before. *)
Theorem save_frame :
  (forall (f : faults) (r : cost_row) (c : conn),
      let c' := fst (save_handler f r c) in
      orders (working c') = orders (working c)
      /\ accessories_details (working c') = accessories_details (working c)
      /\ fabric_standards (working c') = fabric_standards (working c)
      /\ (orders (committed c') = orders (committed c)
          /\ accessories_details (committed c')
             = accessories_details (committed c)
          \/ orders (committed c') = orders (working c)
             /\ accessories_details (committed c')
                = accessories_details (working c)))
  /\ (forall (f : faults) (file : db) (selected_order : string)
             (form : cost_form) (now : string),
         let file' := step file (CostSave f selected_order form now) in
         orders file' = orders file
         /\ accessories_details file' = accessories_details file
         /\ fabric_standards file' = fabric_standards (setup file)).
Proof.
  split.
  - intros f r c. cbn zeta. rewrite save_handler_cases.
    destruct (f 0%nat), (f 1%nat), (f 2%nat); cbn; auto 10.
  - intros f file selected_order form now. cbn zeta. unfold step.
    destruct (setup_tables file) as [So [_ [_ Sa]]].
    destruct (cost_sheet_submit f file selected_order form now)
      as [page |] eqn:P; [| auto].
    destruct (cost_sheet_submit_some _ _ _ _ _ _ P)
      as [product [units [_ [_ [_ [_ [_ [_ [_ ->]]]]]]]]].
    rewrite save_handler_cases.
    destruct (f 0%nat), (f 1%nat), (f 2%nat); cbn; auto.
Qed.

End TwoWrites.

(** ** The two buttons of the order registry, case by case *)

Section Presses.

Open Scope Z_scope.

Lemma existsb_order_number (rows : list order_row) (k : string) :
  existsb (fun r => String.eqb (order_number r) k) rows = true
  <-> exists r, In r rows /\ order_number r = k.
Proof.
  rewrite existsb_exists. split; intros [r [I E]]; exists r; split; auto.
  - apply String.eqb_eq; exact E.
  - apply String.eqb_eq; exact E.
Qed.

Lemma number_input_ok_range (lo hi v : Z) :
  number_input_ok lo hi v = true <-> lo <= v <= hi.
Proof. unfold number_input_ok. lia. Qed.

Lemma sqlite_int_range (n : Z) :
  sqlite_int n = true <-> - 2 ^ 63 <= n < 2 ^ 63.
Proof. unfold sqlite_int. lia. Qed.

(** What the order form hands over. *)
Lemma order_form_accepts_iff (product : string) (quantity : Z) :
  order_form_accepts product quantity = true
  <-> In product product_options /\ 1 <= quantity.
Proof.
  unfold order_form_accepts. rewrite andb_true_iff, Z.leb_le, existsb_exists.
  split.
  - intros [[x [I E]] Q]. apply String.eqb_eq in E. subst x. auto.
  - intros [I Q]. split; [| exact Q].
    exists product. split; [exact I | apply String.eqb_refl].
Qed.

(** When the four widgets of a row are there, and what they hand over. *)
Lemma row_renders_iff (row : order_row) :
  row_renders row = true
  <-> quantity row <= 2 ^ 53 - 1 /\ stages_in_range row.
Proof.
  unfold row_renders, number_input_renders, number_input_ok, js_safe,
    stages_in_range.
  rewrite !andb_true_iff, !Z.leb_le. lia.
Qed.

Lemma row_accepts_iff (row : order_row) (cu se fi pa : Z) :
  row_accepts row cu se fi pa = true
  <-> 0 <= cu <= quantity row /\ 0 <= se <= quantity row
      /\ 0 <= fi <= quantity row /\ 0 <= pa <= quantity row.
Proof.
  unfold row_accepts, number_input_ok.
  rewrite !andb_true_iff, !Z.leb_le. lia.
Qed.

Lemma find_map_set_stages (id cu se fi pa : Z) (rows : list order_row) :
  find (fun r => o_id r =? id) (map (set_stages id cu se fi pa) rows)
  = option_map (set_stages id cu se fi pa) (find (fun r => o_id r =? id) rows).
Proof.
  induction rows as [| r rows IH]; cbn; [reflexivity |].
  unfold set_stages at 1.
  destruct (o_id r =? id) eqn:E; cbn; rewrite E; [| exact IH].
  unfold set_stages. rewrite E. reflexivity.
Qed.

Lemma entry_reported_not_added (e : exn) : entry_reported e <> OrderAdded.
Proof. destruct e; discriminate. Qed.

(** The outcome of one press of "Add Order". *)
Lemma data_entry_submit_cases
    (f : faults) (file : db) (on cu pr : string) (dd : date) (q : Z) :
  data_entry_submit f file on cu pr dd q =
  if order_form_accepts pr q then
    match f 0%nat with
    | Some e => (setup file, entry_reported e)
    | None =>
        if negb (sqlite_int q) then (setup file, EntryError OverflowError)
        else if existsb (fun r => String.eqb (order_number r) on) (orders file)
        then (setup file, MustBeUnique)
        else
          match f 1%nat with
          | Some e => (setup file, entry_reported e)
          | None => (with_order on cu pr dd q (setup file), OrderAdded)
          end
    end
  else (setup file, NotAccepted).
Proof.
  destruct (setup_tables file) as [So _].
  unfold data_entry_submit, add_order, try_except, seq, execute, commit, ret,
    insert_order. cbn [working connect committed close]. rewrite So.
  destruct (order_form_accepts pr q); [| reflexivity].
  destruct (f 0%nat); [reflexivity |].
  destruct (sqlite_int q); cbn [negb]; [| reflexivity].
  destruct (existsb _ (orders file)); [reflexivity |].
  destruct (f 1%nat); reflexivity.
Qed.

(** It leaves the file as the setup left it, or adds the order. *)
Lemma data_entry_tables
    (f : faults) (file : db) (on cu pr : string) (dd : date) (q : Z) :
  fst (data_entry_submit f file on cu pr dd q) = setup file
  \/ (order_form_accepts pr q = true /\ sqlite_int q = true
      /\ existsb (fun r => String.eqb (order_number r) on) (orders file)
         = false
      /\ data_entry_submit f file on cu pr dd q
         = (with_order on cu pr dd q (setup file), OrderAdded)).
Proof.
  rewrite data_entry_submit_cases.
  destruct (order_form_accepts pr q); [| left; reflexivity].
  destruct (f 0%nat); [left; reflexivity |].
  destruct (sqlite_int q); cbn [negb]; [| left; reflexivity].
  destruct (existsb _ (orders file)); [left; reflexivity |].
  destruct (f 1%nat); [left; reflexivity |].
  right. auto.
Qed.

Lemma order_by_id_setup (file : db) (id : Z) :
  order_by_id (setup file) id = order_by_id file id.
Proof.
  unfold order_by_id. destruct (setup_tables file) as [-> _]. reflexivity.
Qed.

(** The outcome of one press of "Update". *)
Lemma orders_update_cases (f : faults) (file : db) (id cu se fi pa : Z) :
  orders_update f file id cu se fi pa =
  match order_by_id file id with
  | Some row =>
      if row_renders row && row_accepts row cu se fi pa then
        match f 0%nat, f 1%nat with
        | None, None => (with_stages id cu se fi pa (setup file), true)
        | _, _ => (setup file, false)
        end
      else (setup file, false)
  | None => (setup file, false)
  end.
Proof.
  unfold orders_update, update_stages, try_except, seq, execute, commit, ret,
    update_orders. cbn [working connect committed close].
  rewrite order_by_id_setup.
  destruct (order_by_id file id) as [row |]; [| reflexivity].
  destruct (row_renders row && row_accepts row cu se fi pa); [| reflexivity].
  destruct (f 0%nat); [reflexivity |].
  destruct (f 1%nat); reflexivity.
Qed.

(** It leaves the file as the setup left it, or sets the four counters to
    numbers the row's widgets hand over. *)
Lemma orders_update_tables (f : faults) (file : db) (id cu se fi pa : Z) :
  orders_update f file id cu se fi pa = (setup file, false)
  \/ (exists row,
         order_by_id file id = Some row
         /\ row_renders row = true
         /\ row_accepts row cu se fi pa = true
         /\ f 0%nat = None /\ f 1%nat = None
         /\ orders_update f file id cu se fi pa
            = (with_stages id cu se fi pa (setup file), true)).
Proof.
  rewrite orders_update_cases.
  destruct (order_by_id file id) as [row |]; [| left; reflexivity].
  destruct (row_renders row) eqn:R; cbn [andb]; [| left; reflexivity].
  destruct (row_accepts row cu se fi pa) eqn:A; [| left; reflexivity].
  destruct (f 0%nat); [left; reflexivity |].
  destruct (f 1%nat); [left; reflexivity |].
  right. exists row. auto 10.
Qed.

End Presses.

(** ** The history is append-only *)

Section History.

Lemma count_upsert (r : cost_row) (k : string) (t : list cost_row) :
  List.length (filter (fun x => String.eqb (c_order_number x) k) (upsert r t))
  = if String.eqb (c_order_number r) k
    then Nat.max 1
           (List.length (filter (fun x => String.eqb (c_order_number x) k) t))
    else List.length (filter (fun x => String.eqb (c_order_number x) k) t).
Proof.
  induction t as [| y t IH]; cbn [upsert filter stored c_order_number].
  - destruct (String.eqb (c_order_number r) k); reflexivity.
  - destruct (String.eqb (c_order_number y) (c_order_number r)) eqn:E;
      cbn [filter c_order_number].
    + apply String.eqb_eq in E. rewrite E.
      destruct (String.eqb (c_order_number r) k); cbn [List.length]; lia.
    + destruct (String.eqb (c_order_number r) k) eqn:K;
        destruct (String.eqb (c_order_number y) k) eqn:Y;
        cbn [List.length]; rewrite IH; try lia.
      apply String.eqb_eq in K, Y. apply String.eqb_neq in E. congruence.
Qed.

(** How one run changes the two cost tables: a run that reports "saved"
    appends one history row and upserts one cost record; any other run
    leaves both tables as they are. *)
Lemma step_cost_tables (file : db) (a : action) :
  match saved_row file a with
  | Some r =>
      fabric_cost_history (step file a)
      = fabric_cost_history file
        ++ [ {| h_id := next_id (map h_id (fabric_cost_history file));
                h_cost := stored r |} ]
      /\ fabric_cost_1 (step file a) = upsert r (fabric_cost_1 file)
  | None =>
      fabric_cost_history (step file a) = fabric_cost_history file
      /\ fabric_cost_1 (step file a) = fabric_cost_1 file
  end.
Proof.
  destruct (setup_tables file) as [_ [S1 [Sh _]]].
  destruct a as [f on cu pr dd q | f id cu se fi pa | f sel form now
                 | f sel ty q ra now |]; cbn [saved_row step].
  - destruct (data_entry_tables f file on cu pr dd q)
      as [-> | [_ [_ [_ ->]]]]; cbn; auto.
  - destruct (orders_update_tables f file id cu se fi pa)
      as [-> | [row [_ [_ [_ [_ [_ ->]]]]]]]; cbn; auto.
  - destruct (cost_sheet_submit f file sel form now) as [page |] eqn:P;
      [| auto].
    destruct (cost_sheet_submit_some _ _ _ _ _ _ P)
      as [product [units [G [_ [_ [_ [M [_ [_ ->]]]]]]]]].
    rewrite G. revert M. rewrite save_handler_cases.
    destruct (f 0%nat) as [e0 |].
    { cbn. intros [= <-]. destruct e0; cbn; auto. }
    destruct (f 1%nat) as [e1 |].
    { cbn. intros [= <-]. destruct e1; cbn; auto. }
    destruct (f 2%nat) as [e2 |].
    { cbn. intros [= <-]. destruct e2; cbn; auto. }
    cbn. intros [= <-]. rewrite Sh, S1. auto.
  - unfold accessories_submit, add_accessory, try_except, seq, execute,
      commit, ret, insert_accessory. cbn [working connect committed].
    destruct (String.eqb sel ""); [cbn; auto |].
    destruct (dict_get _ sel) as [[[on p] u] |]; [| cbn; auto].
    destruct (f 0%nat); [cbn; auto |].
    destruct (f 1%nat); cbn; auto.
  - auto.
Qed.

Lemma saves_saved_row (k : string) (file : db) (a : action) :
  saves k file a
  = match saved_row file a with
    | Some r => String.eqb (c_order_number r) k
    | None => false
    end.
Proof.
  destruct a as [| | f sel form now | |]; cbn [saves saved_row]; try reflexivity.
  destruct (cost_sheet_submit f file sel form now) as [page |] eqn:P;
    [| reflexivity].
  destruct (cost_sheet_submit_some _ _ _ _ _ _ P)
    as [product [units [G _]]].
  rewrite G. destruct (shown_message page); reflexivity.
Qed.

(** One run: the history of an order grows by one exactly when the run
    saves for that order, and its cost record is then present. *)
Lemma step_counts (k : string) (file : db) (a : action) :
  history_count (step file a) k
  = (history_count file k + if saves k file a then 1 else 0)%nat
  /\ current_count (step file a) k
     = if saves k file a then Nat.max 1 (current_count file k)
       else current_count file k.
Proof.
  unfold history_count, current_count, history_of, current_of.
  rewrite saves_saved_row.
  pose proof (step_cost_tables file a) as T.
  destruct (saved_row file a) as [r |]; destruct T as [-> ->].
  - rewrite filter_app, length_app, count_upsert. cbn.
    destruct (String.eqb (c_order_number r) k); cbn; auto.
  - rewrite Nat.add_0_r. auto.
Qed.

(** Along any trace, from any file. *)
Lemma run_counts (k : string) (trace : list action) :
  forall file,
    history_count (run file trace) k
    = (history_count file k + successful_saves k file trace)%nat
    /\ current_count (run file trace) k
       = match successful_saves k file trace with
         | O => current_count file k
         | S _ => Nat.max 1 (current_count file k)
         end.
Proof.
  induction trace as [| a trace IH]; intros file; cbn [run fold_left successful_saves].
  - rewrite Nat.add_0_r. auto.
  - change (fold_left step trace (step file a)) with (run (step file a) trace).
    destruct (IH (step file a)) as [H C].
    destruct (step_counts k file a) as [Hs Cs].
    rewrite H, C, Hs, Cs. split; [lia |].
    destruct (saves k file a);
      destruct (successful_saves k (step file a) trace);
      cbn [Nat.add]; lia.
Qed.

(** No run rewrites or removes a history row. *)
Lemma step_history_extends (file : db) (a : action) :
  exists rows,
    fabric_cost_history (step file a) = fabric_cost_history file ++ rows.
Proof.
  pose proof (step_cost_tables file a) as T.
  destruct (saved_row file a) as [r |]; destruct T as [-> _].
  - eexists; reflexivity.
  - exists []. rewrite app_nil_r. reflexivity.
Qed.

(** C3.  Start from the freshly created database and let the application
    run any sequence of button presses.  If N of them are successful saves
    for an order number, the history holds exactly N rows for it, and when
    N is at least 1 the current-record table holds exactly one (none when N
    is 0).  Every run, whatever it is, leaves the history rows it found in
    place and unchanged: the table after is the table before, followed by
    what the run appended. *)
Theorem history_append_only :
  (forall (order_number : string) (trace : list action),
      history_count (run empty_db trace) order_number
      = successful_saves order_number empty_db trace
      /\ (1 <= successful_saves order_number empty_db trace ->
          current_count (run empty_db trace) order_number = 1)%nat
      /\ (successful_saves order_number empty_db trace = 0 ->
          current_count (run empty_db trace) order_number = 0)%nat)
  /\ (forall (file : db) (trace : list action),
         exists rows,
           fabric_cost_history (run file trace)
           = fabric_cost_history file ++ rows).
Proof.
  split.
  - intros k trace. destruct (run_counts k trace empty_db) as [H C].
    rewrite H, C. cbn.
    split; [reflexivity |].
    destruct (successful_saves k empty_db trace); split; intros; lia.
  - intros file trace. revert file.
    induction trace as [| a trace IH]; intros file; cbn [run fold_left].
    + exists []. rewrite app_nil_r. reflexivity.
    + change (fold_left step trace (step file a)) with (run (step file a) trace).
      destruct (IH (step file a)) as [rows2 ->].
      destruct (step_history_extends file a) as [rows1 ->].
      exists (rows1 ++ rows2). rewrite app_assoc. reflexivity.
Qed.

End History.

(** ** Binary64 values of 64-bit integers *)

Section Binary64.

Open Scope Z_scope.

(** The number of binary digits of a positive number. *)
Lemma digits2_pos_bounds (p : positive) :
  2 ^ (Z.pos (digits2_pos p) - 1) <= Z.pos p < 2 ^ Z.pos (digits2_pos p).
Proof.
  induction p as [p IH | p IH |]; cbn [digits2_pos].
  - rewrite Pos2Z.inj_succ, Pos2Z.inj_xI.
    replace (Z.succ (Z.pos (digits2_pos p)) - 1)
      with (Z.succ (Z.pos (digits2_pos p) - 1)) by lia.
    rewrite !Z.pow_succ_r by lia.
    revert IH. generalize (2 ^ (Z.pos (digits2_pos p) - 1)).
    generalize (2 ^ Z.pos (digits2_pos p)). intros; lia.
  - rewrite Pos2Z.inj_succ. change (Z.pos p~0) with (2 * Z.pos p).
    replace (Z.succ (Z.pos (digits2_pos p)) - 1)
      with (Z.succ (Z.pos (digits2_pos p) - 1)) by lia.
    rewrite !Z.pow_succ_r by lia.
    revert IH. generalize (2 ^ (Z.pos (digits2_pos p) - 1)).
    generalize (2 ^ Z.pos (digits2_pos p)). intros; lia.
  - cbn. lia.
Qed.

Lemma Zdigits2_bounds (m : Z) :
  0 < m -> 1 <= Zdigits2 m /\ 2 ^ (Zdigits2 m - 1) <= m < 2 ^ Zdigits2 m.
Proof.
  destruct m as [| p | p]; try lia. intros _. cbn [Zdigits2].
  split; [lia | apply digits2_pos_bounds].
Qed.

Lemma Zdigits2_le (m D : Z) : 0 <= m < 2 ^ D -> 0 <= D -> 0 <= Zdigits2 m <= D.
Proof.
  intros [H0 H] HD. destruct (Z.eq_dec m 0) as [-> | N]; [cbn; lia |].
  destruct (Zdigits2_bounds m) as [H1 [H2 _]]; [lia |].
  split; [lia |].
  destruct (Z_lt_le_dec D (Zdigits2 m)) as [L | L]; [| exact L].
  exfalso. assert (2 ^ D <= 2 ^ (Zdigits2 m - 1)) by (apply Z.pow_le_mono_r; lia).
  lia.
Qed.

(** Shifting a mantissa right by one bit, and by [p] bits. *)
Lemma shr_1_m (mrs : shr_record) :
  0 <= shr_m mrs -> shr_m (shr_1 mrs) = shr_m mrs / 2.
Proof.
  destruct mrs as [m r s]. cbn [shr_m]. intros H.
  destruct m as [| p | p]; [reflexivity | | lia].
  destruct p as [p | p |]; cbn [shr_1 shr_m].
  - rewrite Pos2Z.inj_xI. apply Z.div_unique with 1; lia.
  - change (Z.pos p~0) with (2 * Z.pos p). apply Z.div_unique with 0; lia.
  - reflexivity.
Qed.

Lemma iter_shr_1_m (p : positive) :
  forall mrs, 0 <= shr_m mrs ->
    shr_m (iter_pos shr_1 p mrs) = shr_m mrs / 2 ^ Z.pos p.
Proof.
  assert (Pw : forall a q, 0 <= a -> 0 <= a / 2 ^ Z.pos q)
    by (intros; apply Z.div_pos; [lia | apply Z.pow_pos_nonneg; lia]).
  induction p as [p IH | p IH |]; intros mrs H; cbn [iter_pos].
  - pose proof (shr_1_m mrs H) as A.
    assert (H1 : 0 <= shr_m (shr_1 mrs)) by (rewrite A; apply Z.div_pos; lia).
    pose proof (IH _ H1) as B.
    assert (H2 : 0 <= shr_m (iter_pos shr_1 p (shr_1 mrs)))
      by (rewrite B; apply Pw; exact H1).
    rewrite (IH _ H2), B, A.
    rewrite !Z.div_div by (try apply Z.pow_pos_nonneg; lia).
    f_equal. rewrite Pos2Z.inj_xI.
    replace (2 * Z.pos p + 1) with (1 + Z.pos p + Z.pos p) by lia.
    rewrite !Z.pow_add_r by lia. lia.
  - pose proof (IH _ H) as B.
    assert (H2 : 0 <= shr_m (iter_pos shr_1 p mrs))
      by (rewrite B; apply Pw; exact H).
    rewrite (IH _ H2), B.
    rewrite !Z.div_div by (try apply Z.pow_pos_nonneg; lia).
    f_equal. change (Z.pos p~0) with (2 * Z.pos p).
    replace (2 * Z.pos p) with (Z.pos p + Z.pos p) by lia.
    rewrite !Z.pow_add_r by lia. lia.
  - rewrite shr_1_m by exact H. reflexivity.
Qed.

Lemma shr_record_of_loc_m (m : Z) (l : location) :
  shr_m (shr_record_of_loc m l) = m.
Proof. destruct l as [| []]; reflexivity. Qed.

(** One alignment of [binary_round_aux]: the mantissa loses the bits that
    do not fit and the exponent moves up by as many. *)
Lemma shr_fexp_spec (m e : Z) (l : location) :
  0 <= m ->
  let n := Z.max 0 (fexp prec emax (Zdigits2 m + e) - e) in
  shr_m (fst (shr_fexp prec emax m e l)) = m / 2 ^ n
  /\ snd (shr_fexp prec emax m e l) = e + n.
Proof.
  intros H n. unfold shr_fexp, shr. subst n.
  destruct (fexp prec emax (Zdigits2 m + e) - e) as [| p | p]; cbn [fst snd].
  - rewrite shr_record_of_loc_m, Z.div_1_r. split; reflexivity || lia.
  - rewrite iter_shr_1_m by (rewrite shr_record_of_loc_m; exact H).
    rewrite shr_record_of_loc_m.
    replace (Z.max 0 (Z.pos p)) with (Z.pos p) by lia. split; reflexivity.
  - rewrite shr_record_of_loc_m.
    replace (Z.max 0 (Z.neg p)) with 0 by lia.
    rewrite Z.div_1_r. split; reflexivity || lia.
Qed.

Lemma round_nearest_even_bounds (m : Z) (l : location) :
  m <= round_nearest_even m l <= m + 1.
Proof.
  unfold round_nearest_even. destruct l as [| []]; try lia.
  destruct (Z.even m); lia.
Qed.

(** Rounding a mantissa of at most [D] bits at an exponent of at most [E]
    gives a zero or a finite number, and a finite number other than zero
    when the mantissa is not 0. *)
Lemma binary_round_aux_returned (s : bool) (m e : Z) (l : location) (D E : Z) :
  0 <= m < 2 ^ D -> 0 <= D -> e <= E -> -1074 <= E -> E + 2 * D + 1 <= 971 ->
  finite_or_zero (binary_round_aux prec emax s m e l) e (E + 2 * D + 1)
  /\ (0 < m -> -1074 <= e ->
      finite_nonzero (binary_round_aux prec emax s m e l)).
Proof.
  intros Hm HD He HE HB.
  unfold binary_round_aux.
  pose proof (shr_fexp_spec m e l (proj1 Hm)) as S1. cbn zeta in S1.
  destruct (shr_fexp prec emax m e l) as [mrs1 e1]. cbn [fst snd] in S1.
  destruct S1 as [M1 E1].
  pose proof (round_nearest_even_bounds (shr_m mrs1) (loc_of_shr_record mrs1)) as R.
  set (m1 := round_nearest_even (shr_m mrs1) (loc_of_shr_record mrs1)) in *.
  assert (P1 : 0 < 2 ^ Z.max 0 (fexp prec emax (Zdigits2 m + e) - e))
    by (apply Z.pow_pos_nonneg; lia).
  assert (Q1 : 0 <= shr_m mrs1 <= m).
  { rewrite M1. split; [apply Z.div_pos; lia |].
    apply Z.div_le_upper_bound; [lia |]. nia. }
  assert (H1 : 0 <= m1) by lia.
  pose proof (shr_fexp_spec m1 e1 loc_Exact H1) as S2. cbn zeta in S2.
  destruct (shr_fexp prec emax m1 e1 loc_Exact) as [mrs2 e2]. cbn [fst snd] in S2.
  destruct S2 as [M2 E2].
  assert (P2 : 0 < 2 ^ Z.max 0 (fexp prec emax (Zdigits2 m1 + e1) - e1))
    by (apply Z.pow_pos_nonneg; lia).
  assert (Q2 : 0 <= shr_m mrs2) by (rewrite M2; apply Z.div_pos; lia).
  destruct (Zdigits2_le m D Hm HD) as [d0 dD].
  assert (Hm1 : 0 <= m1 < 2 ^ (D + 1)).
  { split; [exact H1 |]. rewrite Z.pow_add_r by lia. lia. }
  destruct (Zdigits2_le m1 (D + 1) Hm1 ltac:(lia)) as [d1 dD1].
  unfold fexp, SpecFloat.emin, prec, emax in *.
  assert (Ee1 : e <= e1 <= E + D) by lia.
  assert (Ee2 : e1 <= e2 <= E + 2 * D + 1) by lia.
  split.
  - destruct (shr_m mrs2) as [| p | p]; [exact I | | lia].
    destruct (Z.leb_spec e2 (1024 - 53));
      [cbn [finite_or_zero]; lia | exfalso; lia].
  - intros Pm Le.
    assert (N1 : 0 < shr_m mrs1).
    { rewrite M1. destruct (Zdigits2_bounds m Pm) as [G1 [G2 _]].
      apply Z.div_str_pos. split; [lia |].
      eapply Z.le_trans; [| exact G2]. apply Z.pow_le_mono_r; lia. }
    assert (Pm1 : 0 < m1) by lia.
    assert (N2 : 0 < shr_m mrs2).
    { rewrite M2. destruct (Zdigits2_bounds m1 Pm1) as [G1 [G2 _]].
      apply Z.div_str_pos. split; [lia |].
      eapply Z.le_trans; [| exact G2]. apply Z.pow_le_mono_r; lia. }
    destruct (shr_m mrs2) as [| p | p]; [lia | | lia].
    destruct (Z.leb_spec e2 (1024 - 53)); [exact I | exfalso; lia].
Qed.

(** [float(n)] for a 64-bit integer is the rounding of [n]. *)
Lemma float_of_int_nonneg (n : Z) :
  0 <= n < 2 ^ 63 ->
  Prim2SF (float_of_int n) = binary_normalize prec emax n 0 false.
Proof.
  intros H. unfold float_of_int.
  pose proof (of_uint63_spec (Uint63.of_Z n)) as S.
  rewrite Uint63.of_Z_spec, Z.mod_small in S by (exact H).
  rewrite <- S, SF2Prim_Prim2SF. reflexivity.
Qed.

Lemma binary_round_aux_sign (m e : Z) (l : location) :
  binary_round_aux prec emax true m e l
  = SFopp (binary_round_aux prec emax false m e l).
Proof.
  unfold binary_round_aux.
  destruct (shr_fexp prec emax m e l) as [mrs1 e1].
  destruct (shr_fexp prec emax _ e1 loc_Exact) as [mrs2 e2].
  destruct (shr_m mrs2); try reflexivity.
  destruct (e2 <=? emax - prec); reflexivity.
Qed.

Lemma SF2Prim_opp (x : spec_float) :
  valid_binary x = true -> SF2Prim (SFopp x) = (- SF2Prim x)%float.
Proof.
  intros V. rewrite <- (SF2Prim_Prim2SF (- SF2Prim x)), opp_spec.
  rewrite Prim2SF_SF2Prim by exact V. reflexivity.
Qed.

Lemma float_of_int_spec (n : Z) :
  - 2 ^ 63 <= n < 2 ^ 63 ->
  Prim2SF (float_of_int n) = binary_normalize prec emax n 0 false.
Proof.
  intros H. destruct n as [| p | p].
  - reflexivity.
  - apply float_of_int_nonneg. lia.
  - destruct (Z.eq_dec (Z.neg p) (- 2 ^ 63)) as [E | N].
    + rewrite E. vm_compute. reflexivity.
    + assert (P : 0 <= Z.pos p < 2 ^ 63) by lia.
      pose proof (float_of_int_nonneg _ P) as S.
      unfold float_of_int in *. cbn [binary_normalize] in *.
      unfold binary_round in *.
      destruct (shl_align p 0 _) as [mz ez].
      rewrite binary_round_aux_sign.
      assert (V : valid_binary (binary_round_aux prec emax false (Z.pos mz) ez loc_Exact) = true)
        by (rewrite <- S; apply Prim2SF_valid).
      rewrite SF2Prim_opp by exact V.
      rewrite opp_spec, S. reflexivity.
Qed.

Lemma iter_xO (k p : positive) : Z.pos (Pos.iter xO p k) = Z.pos p * 2 ^ Z.pos k.
Proof.
  revert p. induction k as [| k IH] using Pos.peano_ind; intros p.
  - cbn [Pos.iter]. change (Z.pos p~0) with (2 * Z.pos p). lia.
  - rewrite Pos.iter_succ. change (Z.pos (Pos.iter xO p k)~0)
      with (2 * Z.pos (Pos.iter xO p k)).
    rewrite IH, Pos2Z.inj_succ, Z.pow_succ_r by lia. lia.
Qed.

(** The binary64 value of a 64-bit integer other than 0 is a finite
    number other than 0. *)
Lemma binary_normalize_int (n : Z) :
  - 2 ^ 63 <= n < 2 ^ 63 -> n <> 0 ->
  finite_or_zero (binary_normalize prec emax n 0 false) (-52) 129
  /\ finite_nonzero (binary_normalize prec emax n 0 false).
Proof.
  assert (G : forall (s : bool) (p : positive),
             Z.pos p <= 2 ^ 63 ->
             finite_or_zero (binary_round prec emax s p 0) (-52) 129
             /\ finite_nonzero (binary_round prec emax s p 0)).
  { intros s p B. unfold binary_round, shl_align.
    pose proof (digits2_pos_bounds p) as Dp.
    assert (Dd : Z.pos (digits2_pos p) <= 64).
    { destruct (Z_lt_le_dec 64 (Z.pos (digits2_pos p))) as [L | L]; [| exact L].
      exfalso.
      assert (2 ^ 64 <= 2 ^ (Z.pos (digits2_pos p) - 1))
        by (apply Z.pow_le_mono_r; lia).
      lia. }
    unfold fexp, SpecFloat.emin, prec, emax.
    destruct (Z.max (Z.pos (digits2_pos p) + 0 - 53) (3 - 1024 - 53) - 0)
      as [| k | k] eqn:K.
    - destruct (binary_round_aux_returned s (Z.pos p) 0 loc_Exact 64 0)
        as [R N]; try lia.
      split; [| apply N; lia].
      revert R. unfold finite_or_zero.
      destruct (binary_round_aux _ _ _ _ _ _); auto; lia.
    - destruct (binary_round_aux_returned s (Z.pos p) 0 loc_Exact 64 0)
        as [R N]; try lia.
      split; [| apply N; lia].
      revert R. unfold finite_or_zero.
      destruct (binary_round_aux _ _ _ _ _ _); auto; lia.
    - replace (Z.max (Z.pos (digits2_pos p) + 0 - 53) (3 - 1024 - 53))
        with (Z.neg k) by lia.
      assert (Kb : Z.pos k <= 52) by lia.
      assert (M : 0 <= Z.pos (Pos.iter xO p k) < 2 ^ 64).
      { rewrite iter_xO. split; [lia |].
        assert (Z.pos k = 53 - Z.pos (digits2_pos p)) by lia.
        assert (2 ^ Z.pos (digits2_pos p) * 2 ^ Z.pos k = 2 ^ 53).
        { rewrite <- Z.pow_add_r by lia. f_equal. lia. }
        assert (0 < 2 ^ Z.pos k) by (apply Z.pow_pos_nonneg; lia).
        assert (Z.pos p * 2 ^ Z.pos k < 2 ^ 53) by nia.
        lia. }
      destruct (binary_round_aux_returned s (Z.pos (Pos.iter xO p k))
                  (Z.neg k) loc_Exact 64 0) as [R N]; try lia.
      split; [| apply N; lia].
      revert R. unfold finite_or_zero.
      destruct (binary_round_aux _ _ _ _ _ _); auto; lia. }
  intros B N. destruct n as [| p | p]; [congruence | |];
    cbn [binary_normalize]; apply G; lia.
Qed.

(** The mantissa of a binary64 number has at most 53 bits. *)
Lemma valid_mantissa (s : bool) (m : positive) (e : Z) :
  valid_binary (S754_finite s m e) = true -> 0 < Z.pos m < 2 ^ 53.
Proof.
  cbn [valid_binary]. unfold bounded, canonical_mantissa, fexp, SpecFloat.emin,
    prec, emax.
  intros V. apply andb_prop in V. destruct V as [V _].
  apply Z.eqb_eq in V.
  pose proof (digits2_pos_bounds m) as [_ U].
  split; [lia |].
  eapply Z.lt_le_trans; [exact U |]. apply Z.pow_le_mono_r; lia.
Qed.

Lemma SFdiv_returned (sx sy : bool) (mx my : positive) (ex ey B : Z) :
  0 < Z.pos mx < 2 ^ 53 -> 0 < Z.pos my < 2 ^ 53 ->
  ex - ey <= B -> -1074 <= B -> B <= 300 ->
  finite_or_zero (SFdiv prec emax (S754_finite sx mx ex) (S754_finite sy my ey))
    (Z.min (-1074) (ex - ey)) (B + 317).
Proof.
  intros Hx Hy HB Lo Hi. cbn [SFdiv]. unfold SFdiv_core_binary.
  pose proof (Zdigits2_bounds (Z.pos mx) ltac:(lia)) as [Dx1 [Dx2 Dx3]].
  pose proof (Zdigits2_bounds (Z.pos my) ltac:(lia)) as [Dy1 [Dy2 Dy3]].
  destruct (Zdigits2_le (Z.pos mx) 53 ltac:(lia) ltac:(lia)) as [_ Dx].
  destruct (Zdigits2_le (Z.pos my) 53 ltac:(lia) ltac:(lia)) as [_ Dy].
  set (dx := Zdigits2 (Z.pos mx)) in *. set (dy := Zdigits2 (Z.pos my)) in *.
  set (e' := Z.min (fexp prec emax (dx + ex - (dy + ey))) (ex - ey)).
  set (sh := ex - ey - e').
  assert (Sh : 0 <= sh <= 105).
  { subst sh e'. unfold fexp, SpecFloat.emin, prec, emax. lia. }
  set (m' := match sh with
             | 0 => Z.pos mx
             | Z.pos _ => Z.shiftl (Z.pos mx) sh
             | Z.neg _ => 0
             end).
  assert (M' : 0 <= m' < 2 ^ 158).
  { subst m'. destruct sh as [| k | k] eqn:K.
    - split; [lia |]. eapply Z.lt_le_trans; [apply Hx |].
      apply Z.pow_le_mono_r; lia.
    - rewrite Z.shiftl_mul_pow2 by lia.
      assert (0 < 2 ^ Z.pos k) by (apply Z.pow_pos_nonneg; lia).
      assert (2 ^ Z.pos k <= 2 ^ 105) by (apply Z.pow_le_mono_r; lia).
      change (2 ^ 158) with (2 ^ 53 * 2 ^ 105). nia.
    - lia. }
  change (Z.div_eucl m' (Z.pos my)) with (Z.div_eucl m' (Z.pos my)).
  pose proof (Z.div_pos m' (Z.pos my) (proj1 M') ltac:(lia)) as Q0.
  assert (Q1 : m' / Z.pos my <= m').
  { apply Z.div_le_upper_bound; [lia |]. nia. }
  unfold Z.div in Q0, Q1.
  destruct (Z.div_eucl m' (Z.pos my)) as [q r].
  assert (E' : e' <= B) by (subst e'; lia).
  destruct (binary_round_aux_returned (xorb sx sy) q e'
              (new_location (Z.pos my) r) 158 B) as [R _]; try lia.
  revert R. unfold finite_or_zero.
  destruct (binary_round_aux _ _ _ _ _ _); auto.
  subst e'. unfold fexp, SpecFloat.emin, prec, emax. lia.
Qed.

Lemma SFmul_returned (sx sy : bool) (mx my : positive) (ex ey B : Z) :
  0 < Z.pos mx < 2 ^ 53 -> 0 < Z.pos my < 2 ^ 53 ->
  ex + ey <= B -> -1074 <= B -> B <= 700 ->
  finite_or_zero (SFmul prec emax (S754_finite sx mx ex) (S754_finite sy my ey))
    (ex + ey) (B + 213).
Proof.
  intros Hx Hy HB Lo Hi. cbn [SFmul].
  assert (M : 0 <= Z.pos (mx * my) < 2 ^ 106).
  { rewrite Pos2Z.inj_mul. change (2 ^ 106) with (2 ^ 53 * 2 ^ 53). nia. }
  destruct (binary_round_aux_returned (xorb sx sy) (Z.pos (mx * my)) (ex + ey)
              loc_Exact 106 B) as [R _]; try lia.
  revert R. unfold finite_or_zero.
  destruct (binary_round_aux _ _ _ _ _ _); auto. lia.
Qed.

(** [int(a / b * 100)] for 64-bit integers [a] and [b]: a number whenever
    [b] is not 0. *)
Lemma percent_returns (a b : Z) :
  - 2 ^ 63 <= a < 2 ^ 63 -> - 2 ^ 63 <= b < 2 ^ 63 -> b <> 0 ->
  exists z,
    int_of_float (float_of_int a / float_of_int b * float_of_int 100)%float
    = Ok z.
Proof.
  intros Ha Hb Nb.
  assert (R : finite_or_zero
                (Prim2SF (float_of_int a / float_of_int b * float_of_int 100)%float)
                (-3000) 971).
  { rewrite mul_spec, div_spec, !float_of_int_spec by lia.
    pose proof (Prim2SF_valid (float_of_int a / float_of_int b)%float) as Vq.
    rewrite div_spec, !float_of_int_spec in Vq by lia.
    pose proof (Prim2SF_valid (float_of_int a)) as Va.
    pose proof (Prim2SF_valid (float_of_int b)) as Vb.
    rewrite float_of_int_spec in Va, Vb by lia.
    destruct (binary_normalize_int b Hb Nb) as [Rb Zb].
    change (binary_normalize prec emax 100 0 false)
      with (S754_finite false 7036874417766400 (-46)).
    destruct (binary_normalize prec emax b 0 false) as [| | | sb mb eb];
      try contradiction.
    cbn [finite_or_zero] in Rb. apply valid_mantissa in Vb.
    destruct (Z.eq_dec a 0) as [-> | Na].
    { cbn. exact I. }
    destruct (binary_normalize_int a Ha Na) as [Ra Za].
    destruct (binary_normalize prec emax a 0 false) as [| | | sa ma ea];
      try contradiction.
    cbn [finite_or_zero] in Ra. apply valid_mantissa in Va.
    pose proof (SFdiv_returned sa sb ma mb ea eb 181 Va Vb) as Rq.
    unfold SF64div, SF64mul in *.
    destruct (SFdiv prec emax (S754_finite sa ma ea) (S754_finite sb mb eb))
      as [sq | sq | | sq mq eq]; cbn [finite_or_zero] in Rq;
      try (exfalso; apply Rq; lia).
    { cbn. exact I. }
    apply valid_mantissa in Vq.
    assert (Eq : eq <= 181 + 317) by (apply Rq; lia).
    pose proof (SFmul_returned sq false mq 7036874417766400 eq (-46) 452 Vq
                  ltac:(lia) ltac:(lia) ltac:(lia) ltac:(lia)) as Rm.
    revert Rm. unfold finite_or_zero.
    destruct (SFmul _ _ _ _); auto. lia. }
  unfold int_of_float.
  destruct (Prim2SF _); cbn [finite_or_zero] in R; try contradiction;
    eexists; reflexivity.
Qed.

(** With [b] = 0 the quotient is NaN (0 / 0) or an infinity, and [int()]
    raises. *)
Lemma percent_raises (a : Z) :
  - 2 ^ 63 <= a < 2 ^ 63 ->
  int_of_float (float_of_int a / float_of_int 0 * float_of_int 100)%float
  = Raise (if a =? 0 then ValueError else OverflowError).
Proof.
  intros Ha. destruct (Z.eqb_spec a 0) as [-> | Na]; [reflexivity |].
  unfold int_of_float.
  rewrite mul_spec, div_spec, !float_of_int_spec by lia.
  destruct (binary_normalize_int a Ha Na) as [_ Za].
  change (binary_normalize prec emax 0 0 false) with (S754_zero false).
  change (binary_normalize prec emax 100 0 false)
    with (S754_finite false 7036874417766400 (-46)).
  destruct (binary_normalize prec emax a 0 false) as [| | | sa ma ea];
    try contradiction.
  reflexivity.
Qed.

(** A 64-bit sum is a 64-bit integer. *)
Lemma wrap64_range (z : Z) : - 2 ^ 63 <= wrap64 z < 2 ^ 63.
Proof.
  unfold wrap64. pose proof (Z.mod_pos_bound (z + 2 ^ 63) (2 ^ 64)). lia.
Qed.

Lemma column_sum_int64 (col : order_row -> Z) (rows : list order_row) :
  - 2 ^ 63 <= column_sum col rows < 2 ^ 63.
Proof.
  unfold column_sum.
  assert (G : forall acc, - 2 ^ 63 <= acc < 2 ^ 63 ->
                - 2 ^ 63 <= fold_left (fun a r => wrap64 (a + col r)) rows acc
                < 2 ^ 63).
  { induction rows as [| r rows IH]; intros acc A; cbn [fold_left];
      [exact A |].
    apply IH. apply wrap64_range. }
  apply G. lia.
Qed.

End Binary64.

(** ** Dashboard metrics *)

Section Metrics.

Open Scope Z_scope.

Lemma wrap64_small (z : Z) : - 2 ^ 63 <= z < 2 ^ 63 -> wrap64 z = z.
Proof. intros H. unfold wrap64. rewrite Z.mod_small; lia. Qed.

Lemma column_sum_from (col : order_row -> Z) (rows : list order_row) :
  (forall r, In r rows -> 0 <= col r) ->
  forall acc,
    0 <= acc ->
    acc + fold_right Z.add 0 (map col rows) < 2 ^ 63 ->
    fold_left (fun a r => wrap64 (a + col r)) rows acc
    = acc + fold_right Z.add 0 (map col rows).
Proof.
  induction rows as [| r rows IH]; intros P acc A B; cbn in *; [lia |].
  assert (0 <= col r) by (apply P; left; reflexivity).
  assert (0 <= fold_right Z.add 0 (map col rows)).
  { clear -P. induction rows as [| x rows IH]; cbn; [lia |].
    assert (0 <= col x) by (apply P; right; left; reflexivity).
    assert (0 <= fold_right Z.add 0 (map col rows))
      by (apply IH; intros y [E | I]; apply P; [left | right; right]; auto).
    lia. }
  rewrite wrap64_small by lia.
  rewrite IH; [lia | intros x I; apply P; right; exact I | lia | lia].
Qed.

(** Without 64-bit overflow the column sum is the sum. *)
Lemma column_sum_exact (col : order_row -> Z) (rows : list order_row) :
  (forall r, In r rows -> 0 <= col r) ->
  fold_right Z.add 0 (map col rows) < 2 ^ 63 ->
  column_sum col rows = fold_right Z.add 0 (map col rows).
Proof.
  intros P B. unfold column_sum.
  rewrite (column_sum_from col rows P 0); lia.
Qed.

(** A column without negative entries has a sum that is not negative. *)
Lemma total_nonneg (col : order_row -> Z) (rows : list order_row) :
  (forall r, In r rows -> 0 <= col r) ->
  0 <= fold_right Z.add 0 (map col rows).
Proof.
  induction rows as [| r rows IH]; intros P; cbn [map fold_right]; [lia |].
  assert (0 <= col r) by (apply P; left; reflexivity).
  assert (0 <= fold_right Z.add 0 (map col rows))
    by (apply IH; intros x I; apply P; right; exact I).
  lia.
Qed.

Lemma date_ltb_irrefl (a : date) : date_ltb a a = false.
Proof.
  unfold date_ltb. rewrite !Z.ltb_irrefl, !Z.eqb_refl. reflexivity.
Qed.

(** A due date is after today, before today, or today: exactly one. *)
Lemma date_trichotomy (a b : date) :
  (if date_ltb a b then 1 else 0) + (if date_ltb b a then 1 else 0)
  + (if date_eqb a b then 1 else 0) = 1.
Proof.
  unfold date_ltb, date_eqb.
  destruct (Z.ltb_spec (year a) (year b)), (Z.ltb_spec (year b) (year a)),
    (Z.eqb_spec (year a) (year b)), (Z.eqb_spec (year b) (year a)),
    (Z.ltb_spec (month a) (month b)), (Z.ltb_spec (month b) (month a)),
    (Z.eqb_spec (month a) (month b)), (Z.eqb_spec (month b) (month a)),
    (Z.ltb_spec (day a) (day b)), (Z.ltb_spec (day b) (day a)),
    (Z.eqb_spec (day a) (day b)); cbn; lia.
Qed.

Lemma three_way_count (today : date) (rows : list order_row) :
  (List.length (filter (fun r => date_ltb today (due_date r)) rows)
   + List.length (filter (fun r => date_ltb (due_date r) today) rows)
   + List.length (filter (fun r => date_eqb today (due_date r)) rows)
   = List.length rows)%nat.
Proof.
  induction rows as [| r rows IH]; cbn [filter List.length]; [reflexivity |].
  pose proof (date_trichotomy today (due_date r)) as T.
  destruct (date_ltb today (due_date r)), (date_ltb (due_date r) today),
    (date_eqb today (due_date r)); cbn [List.length]; lia.
Qed.

End Metrics.

(** ** Invariants of the orders table *)

Section OrdersInvariants.

Open Scope Z_scope.

(** The status column: "Closed" exactly when the packaged count has
    reached the quantity. *)
Lemma status_closed_iff (r : order_row) :
  (status r = "Closed"%string <-> quantity r <= packaging r)
  /\ (status r = "Open"%string <-> packaging r < quantity r).
Proof.
  unfold status.
  destruct (Z.leb_spec (quantity r) (packaging r)); split; split;
    intros; try lia; try reflexivity; discriminate.
Qed.

Lemma next_id_above (ids : list Z) (x : Z) : In x ids -> x < next_id ids.
Proof.
  unfold next_id. induction ids as [| y ids IH]; cbn [fold_right In];
    [intros [] |].
  intros [-> | I]; [lia |]. specialize (IH I). lia.
Qed.

Lemma map_set_stages_keys (id cu se fi pa : Z) (rows : list order_row) :
  map o_id (map (set_stages id cu se fi pa) rows) = map o_id rows
  /\ map order_number (map (set_stages id cu se fi pa) rows)
     = map order_number rows.
Proof.
  rewrite !map_map. split; apply map_ext; intros r; unfold set_stages;
    destruct (o_id r =? id); reflexivity.
Qed.

(** How one run changes the orders table: not at all, or by a new order
    with values the order form hands over, or by new stage counters that
    the widgets of the row hand over. *)
Lemma step_orders_accepted (file : db) (a : action) :
  orders (step file a) = orders file
  \/ (exists f on cu pr dd q,
         a = DataEntry f on cu pr dd q
         /\ order_form_accepts pr q = true /\ sqlite_int q = true
         /\ existsb (fun r => String.eqb (order_number r) on) (orders file)
            = false
         /\ orders (step file a) = orders (with_order on cu pr dd q file))
  \/ (exists f id cu se fi pa row,
         a = OrdersUpdate f id cu se fi pa
         /\ order_by_id file id = Some row
         /\ row_accepts row cu se fi pa = true
         /\ orders (step file a) = map (set_stages id cu se fi pa) (orders file)).
Proof.
  destruct (setup_tables file) as [So _].
  destruct a as [f on cu pr dd q | f id cu se fi pa | f sel form now
                 | f sel ty q ra now |]; cbn [step].
  - destruct (data_entry_tables f file on cu pr dd q)
      as [-> | [A [B [E ->]]]]; [left; exact So |].
    right; left. exists f, on, cu, pr, dd, q.
    split; [reflexivity |]. split; [exact A |]. split; [exact B |].
    split; [exact E |]. cbn. rewrite So. reflexivity.
  - destruct (orders_update_tables f file id cu se fi pa)
      as [-> | [row [O [_ [A [_ [_ ->]]]]]]]; [left; exact So |].
    right; right. exists f, id, cu, se, fi, pa, row.
    split; [reflexivity |]. split; [exact O |]. split; [exact A |].
    cbn. rewrite So. reflexivity.
  - left. apply (proj2 save_frame_orders).
  - left. unfold accessories_submit, add_accessory, try_except, seq, execute,
      commit, ret, insert_accessory. cbn [working connect committed].
    destruct (String.eqb sel ""); [exact So |].
    destruct (dict_get _ sel) as [[[on p] u] |]; [| exact So].
    destruct (f 0%nat); [exact So |].
    destruct (f 1%nat); exact So.
  - left. exact So.
Qed.

Lemma step_orders (file : db) (a : action) :
  orders (step file a) = orders file
  \/ (exists f on cu pr dd q,
         a = DataEntry f on cu pr dd q
         /\ existsb (fun r => String.eqb (order_number r) on) (orders file)
            = false
         /\ orders (step file a) = orders (with_order on cu pr dd q file))
  \/ (exists f id cu se fi pa,
         a = OrdersUpdate f id cu se fi pa
         /\ orders (step file a) = map (set_stages id cu se fi pa) (orders file)).
Proof.
  destruct (step_orders_accepted file a)
    as [H | [[f [on [cu [pr [dd [q [E [_ [_ [X H]]]]]]]]]]
           | [f [id [cu [se [fi [pa [row [E [_ [_ H]]]]]]]]]]]].
  - left. exact H.
  - right; left. exists f, on, cu, pr, dd, q. auto.
  - right; right. exists f, id, cu, se, fi, pa. auto.
Qed.

(** One run keeps order numbers and ids without repeats. *)
Lemma step_keys_unique (file : db) (a : action) :
  NoDup (map order_number (orders file)) ->
  NoDup (map o_id (orders file)) ->
  NoDup (map order_number (orders (step file a)))
  /\ NoDup (map o_id (orders (step file a))).
Proof.
  intros Hn Hi.
  destruct (step_orders file a)
    as [-> | [[f [on [cu [pr [dd [q [_ [E ->]]]]]]]]
             | [f [id [cu [se [fi [pa [_ ->]]]]]]]]].
  - auto.
  - cbn [orders with_order]. rewrite !map_app. cbn [map order_number o_id].
    split; apply NoDup_app; auto.
    + repeat constructor. intros [].
    + intros x Ix [<- | []].
      apply in_map_iff in Ix. destruct Ix as [r [Er Ir]].
      assert (X : existsb (fun r => String.eqb (order_number r) on)
                    (orders file) = true).
      { apply existsb_exists. exists r. split; [exact Ir |].
        apply String.eqb_eq. exact Er. }
      congruence.
    + repeat constructor. intros [].
    + intros x Ix [<- | []]. apply next_id_above in Ix. lia.
  - destruct (map_set_stages_keys id cu se fi pa (orders file)) as [-> ->].
    auto.
Qed.

(** X3.  The order number identifies the order: along every trace from the
    fresh database no two rows of [orders] share an order number or an
    id. *)
Lemma order_identity_unique (trace : list action) :
  NoDup (map order_number (orders (run empty_db trace)))
  /\ NoDup (map o_id (orders (run empty_db trace))).
Proof.
  assert (G : forall file,
             NoDup (map order_number (orders file)) ->
             NoDup (map o_id (orders file)) ->
             NoDup (map order_number (orders (run file trace)))
             /\ NoDup (map o_id (orders (run file trace)))).
  { induction trace as [| a trace IH]; intros file Hn Hi; cbn [run fold_left].
    - auto.
    - destruct (step_keys_unique file a Hn Hi) as [Hn' Hi'].
      exact (IH (step file a) Hn' Hi'). }
  apply G; constructor.
Qed.

(** The bounds of an order: quantity at least 1, stage counters between 0
    and the quantity. *)
Lemma step_bounds (file : db) (a : action) :
  widgets_allow file a ->
  (forall r, In r (orders file) -> 1 <= quantity r /\ stages_in_range r) ->
  forall r, In r (orders (step file a)) ->
            1 <= quantity r /\ stages_in_range r.
Proof.
  intros W Inv.
  destruct (step_orders file a)
    as [-> | [[f [on [cu [pr [dd [q [-> [_ ->]]]]]]]]
             | [f [id [cu [se [fi [pa [-> ->]]]]]]]]].
  - exact Inv.
  - cbn in W. cbn [orders with_order]. intros r I.
    apply in_app_or in I. destruct I as [I | [<- | []]]; [exact (Inv r I) |].
    unfold stages_in_range. cbn. lia.
  - cbn in W. intros r I. apply in_map_iff in I. destruct I as [r0 [<- I0]].
    destruct (Inv r0 I0) as [Q S]. unfold set_stages.
    destruct (o_id r0 =? id) eqn:E; [| auto].
    apply Z.eqb_eq in E. destruct (W r0 I0 E) as [W1 [W2 [W3 W4]]].
    apply number_input_ok_range in W1, W2, W3, W4.
    unfold stages_in_range. cbn. auto.
Qed.

(** X4.  Along every trace whose values the widgets allow, every order has a
    quantity of at least 1 and its four stage counters between 0 and that
    quantity. *)
Lemma reachable_bounds (trace : list action) :
  admissible empty_db trace ->
  forall r, In r (orders (run empty_db trace)) ->
            1 <= quantity r /\ stages_in_range r.
Proof.
  assert (G : forall file,
             admissible file trace ->
             (forall r, In r (orders file) ->
                        1 <= quantity r /\ stages_in_range r) ->
             forall r, In r (orders (run file trace)) ->
                       1 <= quantity r /\ stages_in_range r).
  { induction trace as [| a trace IH]; intros file A Inv; cbn [run fold_left].
    - exact Inv.
    - destruct A as [W A].
      exact (IH (step file a) A (step_bounds file a W Inv)). }
  intros A. apply (G empty_db A). intros r [].
Qed.

(** The bounds at work: an order of 10 is entered and its stages set. *)
Lemma reachable_bounds_witness :
  admissible empty_db
    [DataEntry no_faults "ORD-1" "Acme" "Tops" may_1st 10;
     OrdersUpdate no_faults 1 3 2 1 0]
  /\ forall r,
       In r (orders (run empty_db
                       [DataEntry no_faults "ORD-1" "Acme" "Tops" may_1st 10;
                        OrdersUpdate no_faults 1 3 2 1 0])) ->
       1 <= quantity r /\ stages_in_range r.
Proof.
  assert (A : admissible empty_db
                [DataEntry no_faults "ORD-1" "Acme" "Tops" may_1st 10;
                 OrdersUpdate no_faults 1 3 2 1 0]).
  { cbn. split; [lia |]. split; [| exact I].
    intros r [<- | []] _. repeat split; reflexivity. }
  split; [exact A |].
  exact (reachable_bounds _ A).
Defined.

(** The id is the key of the table: the row found under an id is the
    only row with that id. *)
Lemma order_by_id_unique (d : db) (id : Z) (row r : order_row) :
  NoDup (map o_id (orders d)) ->
  order_by_id d id = Some row ->
  In r (orders d) -> o_id r = id -> r = row.
Proof.
  unfold order_by_id. induction (orders d) as [| x rows IH]; cbn [map find In];
    [intros _ _ [] |].
  intros N F I E. inversion N as [| y l Nx Nl]; subst y l.
  destruct (Z.eqb_spec (o_id x) id) as [Ex | Nx'].
  - injection F as <-. destruct I as [-> | I]; [reflexivity |].
    exfalso. apply Nx. rewrite Ex, <- E. apply in_map. exact I.
  - destruct I as [-> | I]; [congruence |]. exact (IH Nl F I E).
Qed.

(** One run keeps every order within the bounds of the widgets that
    wrote it, whatever numbers the run is given. *)
Lemma step_in_range (file : db) (a : action) :
  NoDup (map o_id (orders file)) ->
  (forall r, In r (orders file) ->
             1 <= quantity r < 2 ^ 63 /\ stages_in_range r
             /\ In (product r) product_options) ->
  forall r, In r (orders (step file a)) ->
            1 <= quantity r < 2 ^ 63 /\ stages_in_range r
            /\ In (product r) product_options.
Proof.
  intros N Inv.
  destruct (step_orders_accepted file a)
    as [-> | [[f [on [cu [pr [dd [q [_ [A [B [_ ->]]]]]]]]]]
             | [f [id [cu [se [fi [pa [row [_ [O [A ->]]]]]]]]]]]].
  - exact Inv.
  - cbn [orders with_order]. intros r I.
    apply in_app_or in I. destruct I as [I | [<- | []]]; [exact (Inv r I) |].
    apply order_form_accepts_iff in A. apply sqlite_int_range in B.
    unfold stages_in_range. cbn. split; [lia |]. split; [lia | apply A].
  - intros r I. apply in_map_iff in I. destruct I as [r0 [<- I0]].
    destruct (Inv r0 I0) as [Q [S P]]. unfold set_stages.
    destruct (o_id r0 =? id) eqn:E; [| auto].
    apply Z.eqb_eq in E.
    rewrite (order_by_id_unique file id row r0 N O I0 E) in *.
    apply row_accepts_iff in A.
    unfold stages_in_range. cbn. auto.
Qed.

(** On a database the application created every order has a product of
    the order form, a quantity of at least 1 that fits 64 bits, and its
    four stage counters between 0 and the quantity: the widgets hand over
    nothing else. *)
Lemma run_in_range (trace : list action) (r : order_row) :
  In r (orders (run empty_db trace)) ->
  1 <= quantity r < 2 ^ 63 /\ stages_in_range r
  /\ In (product r) product_options.
Proof.
  assert (G : forall file,
             NoDup (map order_number (orders file)) ->
             NoDup (map o_id (orders file)) ->
             (forall r, In r (orders file) ->
                        1 <= quantity r < 2 ^ 63 /\ stages_in_range r
                        /\ In (product r) product_options) ->
             forall r, In r (orders (run file trace)) ->
                       1 <= quantity r < 2 ^ 63 /\ stages_in_range r
                       /\ In (product r) product_options).
  { induction trace as [| a trace IH]; intros file Hn Hi Inv;
      cbn [run fold_left]; [exact Inv |].
    destruct (step_keys_unique file a Hn Hi) as [Hn' Hi'].
    exact (IH (step file a) Hn' Hi' (step_in_range file a Hi Inv)). }
  apply (G empty_db); [constructor | constructor | intros x []].
Qed.

End OrdersInvariants.

(** ** The order registry *)

Section OrderRegistry.

Open Scope Z_scope.

(** C6.  One press of "Add Order".  An order number already on record
    never adds an order: with values the form hands over, and the INSERT
    not failed by the engine, the page reports "Order number must be
    unique." and the tables stay as they were.  A quantity below 1 is
    refused by the form's widget ([min_value=1]): the INSERT is not run
    and nothing is written.  The order is added exactly when the product
    is one of the form's three, the quantity is at least 1 and fits 64
    bits, the order number is new and no database call fails; then exactly
    one row is appended, under the next id, with the values of the form
    and the four stage counters at 0, and no other table is touched.  In
    every other case the file is left as the setup left it.  So on a
    database the application created every order has a quantity of at
    least 1. *)
Theorem create_order_outcomes
    (f : faults) (file : db) (order_number customer product : string)
    (due_date : date) (quantity : Z) :
  let out :=
    data_entry_submit f file order_number customer product due_date
      quantity in
  ((exists r, In r (orders file) /\ Store.order_number r = order_number) ->
   snd out <> OrderAdded
   /\ (In product product_options -> 1 <= quantity < 2 ^ 63 ->
       f 0%nat = None -> out = (setup file, MustBeUnique)))
  /\ (quantity < 1 -> out = (setup file, NotAccepted))
  /\ (snd out = OrderAdded
      <-> In product product_options /\ 1 <= quantity < 2 ^ 63
          /\ (forall r, In r (orders file) ->
                        Store.order_number r <> order_number)
          /\ f 0%nat = None /\ f 1%nat = None)
  /\ (snd out = OrderAdded ->
      orders (fst out)
      = (orders file
         ++ [ {| o_id := next_id (map o_id (orders file));
                 Store.order_number := order_number;
                 Store.customer := customer;
                 Store.product := product;
                 Store.due_date := due_date;
                 Store.quantity := quantity;
                 cutting := 0; sewing := 0; finishing := 0;
                 packaging := 0 |} ])%list
      /\ fabric_cost_1 (fst out) = fabric_cost_1 file
      /\ fabric_cost_history (fst out) = fabric_cost_history file
      /\ accessories_details (fst out) = accessories_details file
      /\ fabric_standards (fst out) = fabric_standards (setup file))
  /\ (snd out <> OrderAdded ->
      fst out = setup file /\ orders (fst out) = orders file)
  /\ (forall (trace : list action) (r : order_row),
         In r (orders (run empty_db trace)) -> 1 <= Store.quantity r).
Proof.
  cbn zeta.
  destruct (setup_tables file) as [So [S1 [Sh Sa]]].
  pose proof (order_form_accepts_iff product quantity) as A.
  pose proof (sqlite_int_range quantity) as B.
  pose proof (existsb_order_number (orders file) order_number) as D.
  pose proof (data_entry_submit_cases f file order_number customer product
                due_date quantity) as C.
  assert (Added : snd (data_entry_submit f file order_number customer product
                         due_date quantity) = OrderAdded
                  <-> In product product_options /\ 1 <= quantity < 2 ^ 63
                      /\ (forall r, In r (orders file) ->
                                    Store.order_number r <> order_number)
                      /\ f 0%nat = None /\ f 1%nat = None).
  { rewrite C. split.
    - destruct (order_form_accepts product quantity) eqn:EA; [| discriminate].
      destruct (f 0%nat) as [e0 |];
        [intros H; destruct (entry_reported_not_added e0 H) |].
      destruct (sqlite_int quantity) eqn:EB; cbn [negb]; [| discriminate].
      destruct (existsb _ (orders file)) eqn:ED; [discriminate |].
      destruct (f 1%nat) as [e1 |];
        [intros H; destruct (entry_reported_not_added e1 H) |].
      intros _.
      destruct (proj1 A eq_refl) as [Ap Aq].
      destruct (proj1 B eq_refl) as [B1 B2].
      repeat split; try assumption; try lia.
      intros r I E. destruct D as [_ D].
      assert (X := D (ex_intro _ r (conj I E))). congruence.
    - intros [Ap [[Aq Bq] [Fresh [-> ->]]]].
      rewrite (proj2 A (conj Ap Aq)), (proj2 B) by lia. cbn [negb].
      destruct (existsb _ (orders file)) eqn:ED; [| reflexivity].
      destruct (proj1 D eq_refl) as [r [I E]]. destruct (Fresh r I E). }
  assert (Not : snd (data_entry_submit f file order_number customer product
                       due_date quantity) <> OrderAdded ->
                fst (data_entry_submit f file order_number customer product
                       due_date quantity) = setup file).
  { destruct (data_entry_tables f file order_number customer product due_date
                quantity) as [E | [_ [_ [_ E]]]]; [intros _; exact E |].
    rewrite E. intros H. destruct (H eq_refl). }
  split.
  { intros [r0 [I0 E0]]. split.
    - intros H. apply Added in H. destruct H as [_ [_ [Fresh _]]].
      exact (Fresh r0 I0 E0).
    - intros Ap Aq F0.
      assert (EA : order_form_accepts product quantity = true)
        by (apply A; split; [exact Ap | lia]).
      assert (EB : sqlite_int quantity = true) by (apply B; lia).
      assert (ED : existsb (fun r => String.eqb (Store.order_number r)
                                       order_number) (orders file) = true)
        by (apply D; exists r0; auto).
      rewrite C, F0, EA, EB, ED. reflexivity. }
  split.
  { intros Q. rewrite C.
    destruct (order_form_accepts product quantity) eqn:EA; [| reflexivity].
    destruct (proj1 A eq_refl) as [_ Aq]. lia. }
  split; [exact Added |].
  split.
  { intros H.
    destruct (data_entry_tables f file order_number customer product due_date
                quantity) as [E | [_ [_ [_ E]]]].
    - exfalso. apply Added in H.
      destruct H as [Ap [[Aq Bq] [Fresh [F0 F1]]]].
      assert (EA : order_form_accepts product quantity = true)
        by (apply A; split; [exact Ap | lia]).
      assert (EB : sqlite_int quantity = true) by (apply B; lia).
      assert (ED : existsb (fun r => String.eqb (Store.order_number r)
                                       order_number) (orders file) = false).
      { destruct (existsb _ (orders file)) eqn:ED; [| reflexivity].
        destruct (proj1 D eq_refl) as [r [I E']]. destruct (Fresh r I E'). }
      revert E. rewrite C, F0, F1, EA, EB, ED. cbn [negb fst].
      intros E. apply (f_equal orders) in E. cbn [orders with_order] in E.
      rewrite So in E.
      apply (f_equal (@List.length order_row)) in E.
      rewrite length_app in E. cbn [List.length] in E. lia.
    - rewrite E. cbn. rewrite So. auto. }
  split.
  { intros H. split; [exact (Not H) |]. rewrite (Not H). exact So. }
  intros trace r I. destruct (run_in_range trace r I) as [Q _]. lia.
Qed.

End OrderRegistry.

(** ** Stage updates *)

Section StageUpdates.

Open Scope Z_scope.

(** C7.  One press of "Update", with any four numbers.  If every order
    has its four counters between 0 and its quantity before the press, so
    it has after, and on a database the application created every order
    has, whatever was pressed and entered.  A number outside the interval
    from 0 to the row's quantity is refused by the row's widgets: the
    UPDATE is not run, nothing is written and no success is reported.  The
    press succeeds exactly when the row exists, its widgets are there
    (counters within bounds, quantity an integer JavaScript holds), the
    four numbers are within bounds and no database call fails; then the
    four counters of the row are the four numbers, whatever they were,
    nothing else has changed, and the update is committed: the file holds
    the new values and the next run of the script reads them.  A press
    that does not succeed leaves the orders as they were. *)
Theorem update_stages_invariant
    (f : faults) (file : db) (id cutting sewing finishing packaging : Z) :
  let out := orders_update f file id cutting sewing finishing packaging in
  (NoDup (map o_id (orders file)) ->
   (forall r, In r (orders file) -> stages_in_range r) ->
   forall r, In r (orders (fst out)) -> stages_in_range r)
  /\ (forall (trace : list action) (r : order_row),
         In r (orders (run empty_db trace)) -> stages_in_range r)
  /\ (forall row,
         order_by_id file id = Some row ->
         ~ (0 <= cutting <= Store.quantity row
            /\ 0 <= sewing <= Store.quantity row
            /\ 0 <= finishing <= Store.quantity row
            /\ 0 <= packaging <= Store.quantity row) ->
         out = (setup file, false) /\ orders (fst out) = orders file)
  /\ (snd out = true
      <-> exists row,
            order_by_id file id = Some row
            /\ Store.quantity row <= 2 ^ 53 - 1 /\ stages_in_range row
            /\ 0 <= cutting <= Store.quantity row
            /\ 0 <= sewing <= Store.quantity row
            /\ 0 <= finishing <= Store.quantity row
            /\ 0 <= packaging <= Store.quantity row
            /\ f 0%nat = None /\ f 1%nat = None)
  /\ (snd out = true ->
      orders (fst out)
      = map (set_stages id cutting sewing finishing packaging) (orders file)
      /\ (exists row row',
             order_by_id file id = Some row
             /\ order_by_id (fst out) id = Some row'
             /\ order_by_id (working (connect (setup (fst out)))) id
                = Some row'
             /\ Store.cutting row' = cutting
             /\ Store.sewing row' = sewing
             /\ Store.finishing row' = finishing
             /\ Store.packaging row' = packaging
             /\ Store.quantity row' = Store.quantity row
             /\ Store.order_number row' = Store.order_number row)
      /\ (forall r, In r (orders file) -> o_id r <> id ->
                    In r (orders (fst out))))
  /\ (snd out = false -> fst out = setup file /\ orders (fst out) = orders file).
Proof.
  cbn zeta.
  destruct (setup_tables file) as [So _].
  pose proof (orders_update_cases f file id cutting sewing finishing packaging)
    as C.
  pose proof (orders_update_tables f file id cutting sewing finishing packaging)
    as T.
  split.
  { intros N Inv.
    destruct T as [-> | [row [O [_ [A [_ [_ ->]]]]]]];
      cbn [fst orders with_stages]; rewrite So; [exact Inv |].
    intros r I. apply in_map_iff in I. destruct I as [r0 [<- I0]].
    unfold set_stages. destruct (o_id r0 =? id) eqn:E; [| exact (Inv r0 I0)].
    apply Z.eqb_eq in E.
    rewrite (order_by_id_unique file id row r0 N O I0 E).
    apply row_accepts_iff in A. unfold stages_in_range. cbn. exact A. }
  split.
  { intros trace r I. apply (run_in_range trace r I). }
  split.
  { intros row O No. rewrite C, O.
    destruct (row_accepts row cutting sewing finishing packaging) eqn:A.
    - apply row_accepts_iff in A. destruct (No A).
    - rewrite andb_false_r. cbn [fst]. auto. }
  split.
  { rewrite C. split.
    - destruct (order_by_id file id) as [row |]; [| discriminate].
      destruct (row_renders row) eqn:R; cbn [andb]; [| discriminate].
      destruct (row_accepts row cutting sewing finishing packaging) eqn:A;
        [| discriminate].
      destruct (f 0%nat); [discriminate |].
      destruct (f 1%nat); [discriminate |].
      intros _. exists row.
      apply row_renders_iff in R. apply row_accepts_iff in A.
      destruct R as [R1 R2]. destruct A as [A1 [A2 [A3 A4]]].
      split; [reflexivity |]. split; [exact R1 |]. split; [exact R2 |].
      auto 10.
    - intros [row [-> [Q [S [A1 [A2 [A3 [A4 [-> ->]]]]]]]]].
      rewrite (proj2 (row_renders_iff row) (conj Q S)).
      rewrite (proj2 (row_accepts_iff row cutting sewing finishing packaging))
        by auto.
      reflexivity. }
  split.
  { intros H.
    destruct T as [E | [row [O [_ [A [_ [_ E]]]]]]];
      [rewrite E in H; discriminate H |].
    rewrite E. cbn [fst orders with_stages]. rewrite So.
    split; [reflexivity |].
    assert (Eid : (o_id row =? id) = true).
    { unfold order_by_id in O. apply find_some in O. apply O. }
    assert (Q : find (fun r => o_id r =? id)
                  (map (set_stages id cutting sewing finishing packaging)
                     (orders file))
                = Some (set_stages id cutting sewing finishing packaging row)).
    { rewrite find_map_set_stages.
      unfold order_by_id in O. rewrite O. reflexivity. }
    split.
    - exists row, (set_stages id cutting sewing finishing packaging row).
      split; [exact O |].
      unfold order_by_id. cbn [orders with_stages working connect].
      split; [rewrite So; exact Q |].
      split.
      { match goal with
        | |- context [orders (setup ?d)] =>
            destruct (setup_tables d) as [-> _]
        end.
        cbn [orders with_stages]. rewrite So. exact Q. }
      unfold set_stages. rewrite Eid. cbn. auto 10.
    - intros r I N. apply in_map_iff. exists r. split; [| exact I].
      unfold set_stages. apply Z.eqb_neq in N. rewrite N. reflexivity. }
  intros H.
  destruct T as [E | [row [_ [_ [_ [_ [_ E]]]]]]];
    rewrite E in H |- *; [| discriminate H].
  cbn [fst]. auto.
Qed.

End StageUpdates.

(** ** The completion metrics *)

Section Completion.

Open Scope Z_scope.

(** C9, as amended.  For a non-empty set of orders the metrics are
    returned exactly when the 64-bit sum of the quantities is not 0, and
    the overall completion is then [int(sum(packaging) / sum(quantity) *
    100)]: the binary64 quotient of the two 64-bit sums, times 100, cut to
    its integer part.  The code has no guard against a zero divisor other
    than the table being non-empty: when the sum of the quantities is 0,
    [int()] raises ValueError (nothing packed) or OverflowError.  The sum
    is at least 1 when every order has a quantity of at least 1 and the
    quantities add up to less than 2^63, as on a database the application
    created; 2049 orders whose quantities add up to 2^64 make it 0.
    On-track counts the orders due strictly after today, at-risk those due
    strictly before, and an order due today is in neither, so the two
    counts and the orders due today add up to the number of orders.  One
    unit of three packed gives 33; 29 of 100 give 28. *)
Theorem completion_metrics_computed (today : date) (rows : list order_row) :
  rows <> [] ->
  (column_sum quantity rows <> 0 ->
   exists m,
     completion_metrics today rows = Some (Ok m)
     /\ int_of_float
          (float_of_int (column_sum packaging rows)
           / float_of_int (column_sum quantity rows)
           * float_of_int 100)%float
        = Ok (overall_completion m)
     /\ active_orders m = List.length rows
     /\ on_track m
        = List.length (filter (fun r => date_ltb today (due_date r)) rows)
     /\ at_risk m
        = List.length (filter (fun r => date_ltb (due_date r) today) rows)
     /\ (on_track m + at_risk m
         + List.length (filter (fun r => date_eqb today (due_date r)) rows)
         = List.length rows)%nat)
  /\ (column_sum quantity rows = 0 ->
      completion_metrics today rows
      = Some (Raise (if column_sum packaging rows =? 0
                     then ValueError else OverflowError)))
  /\ ((forall r, In r rows -> 1 <= quantity r) ->
      fold_right Z.add 0 (map quantity rows) < 2 ^ 63 ->
      column_sum quantity rows = fold_right Z.add 0 (map quantity rows)
      /\ 1 <= column_sum quantity rows)
  /\ (forall r, In r rows -> due_date r = today ->
                date_ltb today (due_date r) = false
                /\ date_ltb (due_date r) today = false)
  /\ (forall (trace : list action),
         orders (run empty_db trace) <> [] ->
         fold_right Z.add 0 (map quantity (orders (run empty_db trace)))
         < 2 ^ 63 ->
         exists m, dashboard today (run empty_db trace) = Some (Ok m))
  /\ completion_metrics may_1st [order_of 3 1 may_1st]
     = Some (Ok {| overall_completion := 33; active_orders := 1;
                   on_track := 0; at_risk := 0 |})
  /\ completion_metrics may_1st [order_of 100 29 may_1st]
     = Some (Ok {| overall_completion := 28; active_orders := 1;
                   on_track := 0; at_risk := 0 |})
  /\ ((forall r, In r orders_adding_to_2_64 ->
                 1 <= quantity r <= 2 ^ 53 - 1)
      /\ column_sum quantity orders_adding_to_2_64 = 0
      /\ completion_metrics may_1st orders_adding_to_2_64
         = Some (Raise ValueError)).
Proof.
  intros NE.
  assert (C : forall rows : list order_row,
             rows <> [] ->
             completion_metrics today rows
             = Some (bind (overall_completion_of rows)
                       (fun pct =>
                          Ok {| overall_completion := pct;
                                active_orders := List.length rows;
                                on_track :=
                                  List.length
                                    (filter (fun r => date_ltb today (due_date r))
                                       rows);
                                at_risk :=
                                  List.length
                                    (filter (fun r => date_ltb (due_date r) today)
                                       rows) |}))).
  { intros [| r0 rows0] H; [congruence | reflexivity]. }
  assert (Returns : forall rows : list order_row,
             rows <> [] -> column_sum quantity rows <> 0 ->
             exists m, completion_metrics today rows = Some (Ok m)
                       /\ overall_completion_of rows
                          = Ok (overall_completion m)
                       /\ active_orders m = List.length rows
                       /\ on_track m
                          = List.length
                              (filter (fun r => date_ltb today (due_date r)) rows)
                       /\ at_risk m
                          = List.length
                              (filter (fun r => date_ltb (due_date r) today) rows)).
  { intros rows' NE' Q. rewrite (C rows' NE').
    destruct (percent_returns (column_sum packaging rows')
                (column_sum quantity rows')
                (column_sum_int64 packaging rows')
                (column_sum_int64 quantity rows') Q) as [z Hz].
    unfold overall_completion_of. rewrite Hz. cbn [bind].
    eexists. split; [reflexivity |]. cbn. auto. }
  assert (Exact : forall rows : list order_row,
             (forall r, In r rows -> 1 <= quantity r) ->
             rows <> [] ->
             fold_right Z.add 0 (map quantity rows) < 2 ^ 63 ->
             column_sum quantity rows = fold_right Z.add 0 (map quantity rows)
             /\ 1 <= column_sum quantity rows).
  { intros rows' Q NE' B.
    assert (E : column_sum quantity rows'
                = fold_right Z.add 0 (map quantity rows')).
    { apply column_sum_exact; [| exact B].
      intros r I. specialize (Q r I). lia. }
    split; [exact E |]. rewrite E.
    destruct rows' as [| r0 rows0]; [congruence |]. cbn [map fold_right].
    assert (1 <= quantity r0) by (apply Q; left; reflexivity).
    assert (0 <= fold_right Z.add 0 (map quantity rows0)).
    { apply total_nonneg. intros r I.
      assert (1 <= quantity r) by (apply Q; right; exact I). lia. }
    lia. }
  split.
  { intros Q. destruct (Returns rows NE Q) as [m [M [P [A [T R]]]]].
    exists m. split; [exact M |]. split; [exact P |].
    split; [exact A |]. split; [exact T |]. split; [exact R |].
    rewrite T, R. apply three_way_count. }
  split.
  { intros Q. rewrite (C rows NE). unfold overall_completion_of.
    rewrite Q, percent_raises by apply column_sum_int64. reflexivity. }
  split.
  { intros Q B. exact (Exact rows Q NE B). }
  split.
  { intros r _ ->. rewrite date_ltb_irrefl. auto. }
  split.
  { intros trace NE' B. unfold dashboard.
    destruct (setup_tables (run empty_db trace)) as [-> _].
    assert (Q : forall r, In r (orders (run empty_db trace)) -> 1 <= quantity r).
    { intros r I. destruct (run_in_range trace r I) as [H _]. lia. }
    destruct (Exact _ Q NE' B) as [_ P].
    destruct (Returns (orders (run empty_db trace)) NE' ltac:(lia))
      as [m [M _]].
    exists m. exact M. }
  split; [vm_compute; reflexivity |].
  split; [vm_compute; reflexivity |].
  split; [| split; vm_compute; reflexivity].
  intros r I. unfold orders_adding_to_2_64 in I.
  apply in_app_or in I. destruct I as [I | [<- | []]].
  - apply repeat_spec in I. subst r. cbn [quantity order_of]. lia.
  - cbn [quantity order_of]. lia.
Qed.

(** The theorem at work on a table of two orders. *)
Lemma completion_metrics_computed_witness :
  [order_of 3 1 may_1st; order_of 100 29 may_1st] <> []
  /\ exists m,
       completion_metrics may_1st [order_of 3 1 may_1st; order_of 100 29 may_1st]
       = Some (Ok m)
       /\ active_orders m = 2%nat.
Proof.
  assert (NE : [order_of 3 1 may_1st; order_of 100 29 may_1st] <> [])
    by discriminate.
  split; [exact NE |].
  destruct (proj1 (completion_metrics_computed may_1st _ NE))
    as [m [M [_ [A _]]]].
  - vm_compute. discriminate.
  - exists m. split; [exact M | exact A].
Defined.

(** C9, the claim as stated: the figure on the card is not the ratio times
    100.  For one order with 1 of 3 units packed it is 33, and 33 is not
    1 / 3 * 100. *)
Lemma completion_is_truncated :
  ~ (forall (today : date) (rows : list order_row) (m : metrics),
        completion_metrics today rows = Some (Ok m) ->
        float_of_int (overall_completion m)
        = (float_of_int (column_sum packaging rows)
           / float_of_int (column_sum quantity rows)
           * float_of_int 100)%float).
Proof.
  intros H.
  specialize (H may_1st [order_of 3 1 may_1st]
                {| overall_completion := 33; active_orders := 1;
                   on_track := 0; at_risk := 0 |}).
  revert H. vm_compute. intros H. specialize (H eq_refl). revert H.
  apply eqb_false_neq; reflexivity.
Qed.

End Completion.


(** ** The fabric standards table *)

Section Standards.

Open Scope float_scope.

Lemma setup_standards (d : db) :
  fabric_standards (setup d)
  = match fabric_standards d with
    | [] => seed_standards
    | r :: rows => r :: rows
    end.
Proof.
  unfold setup. destruct (fabric_standards d) eqn:E; cbn;
    [reflexivity | exact E].
Qed.

(** Once the tables are set up, setting them up again changes nothing. *)
Lemma setup_idempotent (d : db) : setup (setup d) = setup d.
Proof.
  unfold setup. destruct (fabric_standards d) eqn:E; cbn;
    [reflexivity | rewrite E; reflexivity].
Qed.

(** No button writes to [fabric_standards]. *)
Lemma step_standards (file : db) (a : action) :
  fabric_standards (step file a) = fabric_standards (setup file).
Proof.
  destruct a as [f on cu pr dd q | f id cu se fi pa | f sel form now
                 | f sel ty q ra now |]; cbn [step].
  - destruct (data_entry_tables f file on cu pr dd q)
      as [-> | [_ [_ [_ ->]]]]; reflexivity.
  - destruct (orders_update_tables f file id cu se fi pa)
      as [-> | [row [_ [_ [_ [_ [_ ->]]]]]]]; reflexivity.
  - destruct (cost_sheet_submit f file sel form now) as [page |] eqn:P;
      [| reflexivity].
    destruct (cost_sheet_submit_some _ _ _ _ _ _ P)
      as [product [units [_ [_ [_ [_ [_ [_ [_ ->]]]]]]]]].
    rewrite save_handler_cases.
    destruct (f 0%nat), (f 1%nat), (f 2%nat); reflexivity.
  - unfold accessories_submit, add_accessory, try_except, seq, execute,
      commit, ret, insert_accessory. cbn [working connect committed].
    destruct (String.eqb sel ""); [reflexivity |].
    destruct (dict_get _ sel) as [[[on p] u] |]; [| reflexivity].
    destruct (f 0%nat); [reflexivity |].
    destruct (f 1%nat); reflexivity.
  - reflexivity.
Qed.

(** The standards a run works with, after any trace. *)
Lemma run_standards (trace : list action) :
  forall file : db,
    fabric_standards (setup (run file trace)) = fabric_standards (setup file).
Proof.
  induction trace as [| a trace IH]; intros file; cbn [run fold_left];
    [reflexivity |].
  change (fold_left step trace (step file a)) with (run (step file a) trace).
  rewrite IH, setup_standards, step_standards, setup_standards.
  destruct (fabric_standards file); reflexivity.
Qed.

(** X5.  The standards are seeded once and never written again: whatever
    the application is made to do, the table a later run works with is the
    one the first setup left, and on a database the application created
    itself it is the three seeded rows. *)
Theorem standards_never_modified :
  (forall (file : db) (trace : list action),
      fabric_standards (setup (run file trace))
      = fabric_standards (setup file))
  /\ (forall trace : list action,
         fabric_standards (setup (run empty_db trace)) = seed_standards).
Proof.
  split.
  - intros file trace. apply run_standards.
  - intros trace. rewrite run_standards. reflexivity.
Qed.

(** X6.  On every database the application has created, the cost sheet of
    an order for Tops, Trousers or Suits finds a standards row, its value
    is the built-in constant of the item type, the required fabric is that
    constant times the units, and the "No standard fabric requirement
    defined" warning is not shown. *)
Theorem builtin_products_have_standards
    (trace : list action) (product : string) :
  In product ["Tops"; "Trousers"; "Suits"]%string ->
  exists k,
    dict_get FABRIC_STANDARD (item_type_of product) = Some k
    /\ select_standard (setup (run empty_db trace)) (item_type_of product)
       = Some k
    /\ no_standard_defined (setup (run empty_db trace)) (item_type_of product)
       = false
    /\ forall units,
         fabric_required_std (setup (run empty_db trace))
           (item_type_of product) units
         = Float (k * float_of_int units).
Proof.
  intros H.
  assert (S : fabric_standards (setup (run empty_db trace)) = seed_standards)
    by (rewrite run_standards; reflexivity).
  assert (Q : forall it,
             select_standard (setup (run empty_db trace)) it
             = option_map fabric_per_unit
                 (find (fun r => String.eqb (product_type r) it
                                 && String.eqb (size r) "standard")
                       seed_standards)).
  { intros it. unfold select_standard. rewrite S. reflexivity. }
  unfold no_standard_defined, fabric_required_std.
  destruct H as [<- | [<- | [<- | []]]]; rewrite Q;
    eexists; (split; [reflexivity |]); (split; [reflexivity |]);
    split; reflexivity.
Qed.

(** The theorem at work: Trousers, after an order has been entered. *)
Lemma builtin_products_have_standards_witness :
  In "Trousers"%string ["Tops"; "Trousers"; "Suits"]%string
  /\ exists k,
       dict_get FABRIC_STANDARD (item_type_of "Trousers") = Some k
       /\ select_standard
            (setup (run empty_db
                      [DataEntry no_faults "ORD-1" "Acme" "Trousers" may_1st 4]))
            (item_type_of "Trousers") = Some k.
Proof.
  assert (I : In "Trousers"%string ["Tops"; "Trousers"; "Suits"]%string)
    by (right; left; reflexivity).
  split; [exact I |].
  destruct (builtin_products_have_standards
              [DataEntry no_faults "ORD-1" "Acme" "Trousers" may_1st 4]
              "Trousers" I) as [k [A [B _]]].
  exists k. split; assumption.
Defined.

End Standards.

(** ** Item types and text search *)

Section Text.

Open Scope string_scope.

Lemma lower_char_idem (c : ascii) : lower_char (lower_char c) = lower_char c.
Proof. destruct c as [[] [] [] [] [] [] [] []]; reflexivity. Qed.

Lemma upper_lower_char (c : ascii) : upper_char (lower_char c) = upper_char c.
Proof. destruct c as [[] [] [] [] [] [] [] []]; reflexivity. Qed.

Lemma lower_idem (s : string) : lower (lower s) = lower s.
Proof.
  induction s as [| c s IH]; cbn; [reflexivity |].
  rewrite lower_char_idem, IH. reflexivity.
Qed.

(** [capitalize] looks at its argument through [lower] only. *)
Lemma capitalize_lower (s : string) :
  capitalize s
  = match lower s with
    | EmptyString => EmptyString
    | String c s' => String (upper_char c) s'
    end.
Proof.
  destruct s as [| c s]; cbn; [reflexivity |].
  rewrite upper_lower_char. reflexivity.
Qed.

(** X7.  The item type of a product does not depend on the case of its
    letters, and it is itself in lower case: "Tops", "TOPS" and "tops" all
    give "top". *)
Theorem item_type_case_insensitive :
  (forall p q : string, lower p = lower q -> item_type_of p = item_type_of q)
  /\ (forall p : string, lower (item_type_of p) = item_type_of p)
  /\ item_type_of "TOPS" = "top".
Proof.
  split; [| split; [| reflexivity]].
  - intros p q H. unfold item_type_of.
    rewrite (capitalize_lower p), (capitalize_lower q), H. reflexivity.
  - intros p. unfold item_type_of, PRODUCT_MAPPING. cbn [dict_get].
    destruct (String.eqb "Tops" (capitalize p)); [reflexivity |].
    destruct (String.eqb "Trousers" (capitalize p)); [reflexivity |].
    destruct (String.eqb "Suits" (capitalize p)); [reflexivity |].
    apply lower_idem.
Qed.

(** *** LIKE *)









End Text.

(** ** The Record page *)

Section RecordListing.

Open Scope Z_scope.

Variable str_contains : string -> string -> bool.

Lemma status_test (r : order_row) :
  String.eqb (status r) "Closed" = (quantity r <=? packaging r)
  /\ String.eqb (status r) "Open" = negb (quantity r <=? packaging r).
Proof. unfold status. destruct (quantity r <=? packaging r); split; reflexivity. Qed.

Lemma filter_split_length {A : Type} (p : A -> bool) (l : list A) :
  (List.length (filter p l) + List.length (filter (fun x => negb (p x)) l)
   = List.length l)%nat.
Proof.
  induction l as [| x l IH]; cbn; [reflexivity |].
  destruct (p x); cbn; lia.
Qed.

(** X2.  The status filter of the Record page.  Whatever the two text
    filters, "Closed" keeps exactly the listed orders whose packaged count
    has reached the quantity and "Open" exactly the others, so every order
    listed under "All" is under one of the two and none under both; with
    no filter set, the listing is the whole table. *)
Theorem record_status_filter
    (d : db) (search_order search_customer : string) :
  let listing := record_listing str_contains d search_order search_customer in
  listing "Closed"%string
  = filter (fun r => quantity r <=? packaging r) (listing "All"%string)
  /\ listing "Open"%string
     = filter (fun r => negb (quantity r <=? packaging r))
         (listing "All"%string)
  /\ (List.length (listing "Closed"%string)
      + List.length (listing "Open"%string)
      = List.length (listing "All"%string))%nat
  /\ (forall r, In r (listing "Closed"%string)
                <-> In r (listing "All"%string) /\ quantity r <= packaging r)
  /\ (forall r, In r (listing "Open"%string)
                <-> In r (listing "All"%string) /\ packaging r < quantity r)
  /\ record_listing str_contains d "" "" "All" = orders d.
Proof.
  cbn zeta. unfold record_listing. cbn [String.eqb Ascii.eqb Bool.eqb].
  set (rows :=
         if String.eqb search_customer ""
         then if String.eqb search_order "" then orders d
              else filter (fun r => str_contains search_order (order_number r))
                          (orders d)
         else filter (fun r => str_contains search_customer (customer r))
                (if String.eqb search_order "" then orders d
                 else filter
                        (fun r => str_contains search_order (order_number r))
                        (orders d))).
  assert (C : filter (fun r => String.eqb (status r) "Closed") rows
              = filter (fun r => quantity r <=? packaging r) rows)
    by (apply filter_ext; intros r; apply status_test).
  assert (O : filter (fun r => String.eqb (status r) "Open") rows
              = filter (fun r => negb (quantity r <=? packaging r)) rows)
    by (apply filter_ext; intros r; apply status_test).
  rewrite C, O.
  split; [reflexivity |]. split; [reflexivity |].
  split; [apply filter_split_length |].
  split; [| split; [| reflexivity]].
  - intros r. rewrite filter_In, Z.leb_le. reflexivity.
  - intros r. rewrite filter_In, negb_true_iff, Z.leb_gt. reflexivity.
Qed.

End RecordListing.

(** ** Accessory lines *)

Section Accessories.

(** The outcome of one press of "Add Accessory", case by case. *)
Lemma accessories_submit_cases
    (f : faults) (file : db) (sel ty : string) (q ra : float) (now : string) :
  accessories_submit f file sel ty q ra now =
  if String.eqb sel "" then setup file
  else
    match dict_get (order_map (setup file)) sel, f 0%nat, f 1%nat with
    | Some (on, _, _), None, None =>
        match insert_accessory on ty q ra now (setup file) with
        | Ok d => d
        | Raise _ => setup file
        end
    | _, _, _ => setup file
    end.
Proof.
  unfold accessories_submit, add_accessory, try_except, seq, execute, commit,
    ret, insert_accessory. cbn [working connect committed close].
  destruct (String.eqb sel ""); [reflexivity |].
  destruct (dict_get _ sel) as [[[on p] u] |]; [| reflexivity].
  destruct (f 0%nat); [reflexivity |].
  destruct (f 1%nat); reflexivity.
Qed.

(** How one run changes the accessory lines of an order. *)
Lemma step_accessories (k : string) (file : db) (a : action) :
  accessories_of (step file a) k
  = accessories_of file k
    ++ match added_accessory file a with
       | Some (k', line) => if String.eqb k' k then [line] else []
       | None => []
       end.
Proof.
  destruct (setup_tables file) as [_ [_ [_ Sa]]].
  unfold accessories_of.
  assert (Same : forall rows : list accessory_row,
             rows = accessories_details file ->
             map (fun a => (accessory_type a, a_quantity a, a_rate a))
               (filter (fun a => String.eqb (a_order_number a) k) rows)
             = map (fun a => (accessory_type a, a_quantity a, a_rate a))
                 (filter (fun a => String.eqb (a_order_number a) k)
                    (accessories_details file)) ++ [])
    by (intros rows ->; rewrite app_nil_r; reflexivity).
  destruct a as [f on cu pr dd q | f id cu se fi pa | f sel form now
                 | f sel ty q ra now |]; cbn [step added_accessory].
  - apply Same.
    destruct (data_entry_tables f file on cu pr dd q)
      as [-> | [_ [_ [_ ->]]]]; exact Sa.
  - apply Same.
    destruct (orders_update_tables f file id cu se fi pa)
      as [-> | [row [_ [_ [_ [_ [_ ->]]]]]]]; exact Sa.
  - apply Same.
    destruct (cost_sheet_submit f file sel form now) as [page |] eqn:P;
      [| exact Sa].
    destruct (cost_sheet_submit_some _ _ _ _ _ _ P)
      as [product [units [_ [_ [_ [_ [_ [_ [_ ->]]]]]]]]].
    rewrite save_handler_cases.
    destruct (f 0%nat), (f 1%nat), (f 2%nat); exact Sa.
  - rewrite accessories_submit_cases.
    destruct (String.eqb sel ""); [apply Same; exact Sa |].
    destruct (dict_get _ sel) as [[[on p] u] |]; [| apply Same; exact Sa].
    destruct (f 0%nat); [apply Same; exact Sa |].
    destruct (f 1%nat); [apply Same; exact Sa |].
    cbn [insert_accessory accessories_details]. rewrite Sa, filter_app, map_app.
    cbn [filter a_order_number].
    destruct (String.eqb on k); reflexivity.
  - apply Same. exact Sa.
Qed.

(** X9.  The accessory ledger.  Let the numbers entered be numbers of 0
    or more, as the two widgets yield them.  After any sequence of runs the
    accessory lines of an order are the lines it had, followed by one line
    (type, quantity, rate) for each successful "Add Accessory" for that
    order, in the order they were added: a line is never merged with an
    earlier one of the same type, changed or removed.  On a database the
    application created, the lines of an order are exactly the ones added
    for it.  The quantity and the rate of a line are the numbers entered as
    the REAL columns hold them: numerically equal, and the same binary64
    value unless a negative zero was entered, which is held as zero. *)
Theorem accessories_ledger (order_number : string) (trace : list action) :
  Forall numbers_allow trace ->
  (forall file : db,
      accessories_of (run file trace) order_number
      = accessories_of file order_number
        ++ added_accessories order_number file trace)
  /\ accessories_of (run empty_db trace) order_number
     = added_accessories order_number empty_db trace
  /\ (forall (file : db) (a : action) (k ty : string) (q' r' : float),
         In a trace ->
         added_accessory file a = Some (k, (ty, q', r')) ->
         exists f sel q ra now,
           a = AccessoryAdd f sel ty q ra now
           /\ (q' =? q)%float = true /\ (r' =? ra)%float = true
           /\ (Prim2SF q <> S754_zero true -> q' = q)
           /\ (Prim2SF ra <> S754_zero true -> r' = ra)).
Proof.
  intros W.
  assert (G : forall (trace : list action) (file : db),
             accessories_of (run file trace) order_number
             = accessories_of file order_number
               ++ added_accessories order_number file trace).
  { clear. intros trace.
    induction trace as [| a trace IH]; intros file;
      cbn [run fold_left added_accessories].
    - rewrite app_nil_r. reflexivity.
    - change (fold_left step trace (step file a))
        with (run (step file a) trace).
      rewrite IH, step_accessories, <- app_assoc.
      destruct (added_accessory file a) as [[k' line] |];
        [destruct (String.eqb k' order_number) |]; reflexivity. }
  split; [apply G |].
  split; [rewrite G; reflexivity |].
  intros file a k ty q' r' I.
  rewrite Forall_forall in W. specialize (W a I).
  destruct a as [| | | f sel ty0 q ra now |]; cbn [added_accessory];
    try discriminate.
  destruct (String.eqb sel ""); [discriminate |].
  destruct (dict_get _ sel) as [[[on p] u] |]; [| discriminate].
  destruct (f 0%nat); [discriminate |].
  destruct (f 1%nat); [discriminate |].
  intros E.
  assert (E1 : ty0 = ty) by congruence.
  assert (E2 : sql_real q = q') by congruence.
  assert (E3 : sql_real ra = r') by congruence.
  subst ty0 q' r'. destruct W as [Wq Wr].
  destruct (sql_real_number q Wq) as [Q1 [_ [Q2 _]]].
  destruct (sql_real_number ra Wr) as [R1 [_ [R2 _]]].
  exists f, sel, q, ra, now. auto 10.
Qed.

(** The theorem at work: 40 buttons at a rate entered as negative zero. *)
Lemma accessories_ledger_witness :
  Forall numbers_allow
    [DataEntry no_faults "ORD-1" "Acme" "Tops" may_1st 10;
     AccessoryAdd no_faults "ORD-1" "Buttons" 40 neg_zero "t"]
  /\ accessories_of
       (run empty_db
          [DataEntry no_faults "ORD-1" "Acme" "Tops" may_1st 10;
           AccessoryAdd no_faults "ORD-1" "Buttons" 40 neg_zero "t"])
       "ORD-1"
     = [("Buttons"%string, 40%float, 0%float)].
Proof.
  assert (W : Forall numbers_allow
                [DataEntry no_faults "ORD-1" "Acme" "Tops" may_1st 10;
                 AccessoryAdd no_faults "ORD-1" "Buttons" 40 neg_zero "t"]).
  { constructor; [exact I |]. constructor; [| constructor].
    split; reflexivity. }
  split; [exact W |].
  destruct (accessories_ledger "ORD-1" _ W) as [_ [E _]].
  rewrite E. vm_compute. reflexivity.
Defined.

End Accessories.

(** ** Which button writes which table *)

Section Writers.

(** Only "Add Accessory" writes to [accessories_details]. *)
Lemma step_accessories_table (file : db) (a : action) :
  match a with
  | AccessoryAdd _ _ _ _ _ _ => True
  | _ => accessories_details (step file a) = accessories_details file
  end.
Proof.
  destruct (setup_tables file) as [_ [_ [_ Sa]]].
  destruct a as [f on cu pr dd q | f id cu se fi pa | f sel form now
                 | f sel ty q ra now |]; cbn [step]; [| | | exact I |].
  - destruct (data_entry_tables f file on cu pr dd q)
      as [-> | [_ [_ [_ ->]]]]; exact Sa.
  - destruct (orders_update_tables f file id cu se fi pa)
      as [-> | [row [_ [_ [_ [_ [_ ->]]]]]]]; exact Sa.
  - destruct (cost_sheet_submit f file sel form now) as [page |] eqn:P;
      [| exact Sa].
    destruct (cost_sheet_submit_some _ _ _ _ _ _ P)
      as [product [units [_ [_ [_ [_ [_ [_ [_ ->]]]]]]]]].
    rewrite save_handler_cases.
    destruct (f 0%nat), (f 1%nat), (f 2%nat); exact Sa.
  - exact Sa.
Qed.

(** X10.  Each button writes its own tables and no other.  "Add Order"
    and "Update" leave the cost records, the cost history and the
    accessory lines as they were; "Save Cost Record" leaves the orders and
    the accessory lines; "Add Accessory" leaves the orders, the cost
    records and the cost history; a run without a button leaves all four.
    No run changes the fabric standards once they are seeded.  This holds
    whether the run succeeds or fails. *)
Theorem writes_by_button (file : db) (a : action) :
  fabric_standards (step file a) = fabric_standards (setup file)
  /\ match a with
     | DataEntry _ _ _ _ _ _ | OrdersUpdate _ _ _ _ _ _ =>
         fabric_cost_1 (step file a) = fabric_cost_1 file
         /\ fabric_cost_history (step file a) = fabric_cost_history file
         /\ accessories_details (step file a) = accessories_details file
     | CostSave _ _ _ _ =>
         orders (step file a) = orders file
         /\ accessories_details (step file a) = accessories_details file
     | AccessoryAdd _ _ _ _ _ _ =>
         orders (step file a) = orders file
         /\ fabric_cost_1 (step file a) = fabric_cost_1 file
         /\ fabric_cost_history (step file a) = fabric_cost_history file
     | View =>
         orders (step file a) = orders file
         /\ fabric_cost_1 (step file a) = fabric_cost_1 file
         /\ fabric_cost_history (step file a) = fabric_cost_history file
         /\ accessories_details (step file a) = accessories_details file
     end.
Proof.
  split; [apply step_standards |].
  pose proof (step_cost_tables file a) as C.
  pose proof (step_accessories_table file a) as A.
  pose proof (step_orders file a) as O.
  destruct a as [f on cu pr dd q | f id cu se fi pa | f sel form now
                 | f sel ty q ra now |]; cbn [saved_row] in C.
  - destruct C as [Ch C1]. auto.
  - destruct C as [Ch C1]. auto.
  - split; [| exact A].
    destruct O as [O | [[f' [on [cu [pr [dd [q [E _]]]]]]]
                       | [f' [id [cu [se [fi [pa [E _]]]]]]]]];
      [exact O | discriminate E | discriminate E].
  - destruct C as [Ch C1]. split; [| auto].
    destruct O as [O | [[f' [on [cu [pr [dd [q' [E _]]]]]]]
                       | [f' [id [cu [se [fi [pa [E _]]]]]]]]];
      [exact O | discriminate E | discriminate E].
  - destruct C as [Ch C1]. split; [| auto].
    destruct O as [O | [[f' [on [cu [pr [dd [q' [E _]]]]]]]
                       | [f' [id [cu [se [fi [pa [E _]]]]]]]]];
      [exact O | discriminate E | discriminate E].
Qed.

End Writers.

(** ** Loading after any trace *)

Section LoadAfterTrace.

Lemma find_upsert_other (r : cost_row) (k : string) (t : list cost_row) :
  String.eqb (c_order_number r) k = false ->
  find (fun y => String.eqb (c_order_number y) k) (upsert r t)
  = find (fun y => String.eqb (c_order_number y) k) t.
Proof.
  intros N. induction t as [| y t IH]; cbn.
  - rewrite N. reflexivity.
  - destruct (String.eqb (c_order_number y) (c_order_number r)) eqn:E; cbn.
    + apply String.eqb_eq in E. rewrite E, N. reflexivity.
    + destruct (String.eqb (c_order_number y) k); [reflexivity | exact IH].
Qed.

(** How one run changes what [load_cost] finds. *)
Lemma load_step (k : string) (file : db) (a : action) :
  load_cost (step file a) k
  = match saved_row file a with
    | Some r =>
        if String.eqb (c_order_number r) k
        then Some (stored_inputs (c_inputs r))
        else load_cost file k
    | None => load_cost file k
    end.
Proof.
  unfold load_cost.
  pose proof (step_cost_tables file a) as T.
  destruct (saved_row file a) as [r |]; destruct T as [_ ->]; [| reflexivity].
  destruct (String.eqb (c_order_number r) k) eqn:E.
  - apply String.eqb_eq in E. subst k.
    destruct (find_upsert r (fabric_cost_1 file)) as [x [F [_ [_ [I _]]]]].
    rewrite F. cbn. rewrite I. reflexivity.
  - rewrite find_upsert_other by exact E. reflexivity.
Qed.

Lemma last_saved_none (k : string) (trace : list action) :
  forall (file : db) (before : option cost_inputs),
    last_saved k file trace before = None
    <-> before = None /\ successful_saves k file trace = 0%nat.
Proof.
  induction trace as [| a trace IH]; intros file before;
    cbn [last_saved successful_saves].
  - intuition.
  - rewrite IH, saves_saved_row.
    destruct (saved_row file a) as [r |];
      [destruct (String.eqb (c_order_number r) k) |];
      cbn; intuition (try discriminate; try lia).
Qed.

(** The REAL columns hold numbers of 0 or more when such numbers were
    bound. *)
Lemma stored_inputs_numbers (i : cost_inputs) :
  Forall at_least_zero (fields i) ->
  Forall at_least_zero (fields (stored_inputs i)).
Proof.
  intros W. rewrite Forall_forall in W.
  assert (Each : forall x, In x (fields i) -> at_least_zero (sql_real x))
    by (intros x Ix; apply sql_real_number, W, Ix).
  unfold fields, stored_inputs in *;
    cbn [fabric_issued fabric_rate accessories_rate
      printing_rate overhead_per_unit labor_cutting_rate labor_sewing_rate
      labor_finishing_rate dyeing_rate embroidery_rate shipping_cost misc_cost].
  repeat (constructor; [apply Each; cbn [In]; auto 15 |]). constructor.
Qed.

(** The row a run saves holds the twelve values of its form. *)
Lemma saved_row_inputs (file : db) (a : action) (r : cost_row) :
  saved_row file a = Some r ->
  exists f sel form now,
    a = CostSave f sel form now /\ c_inputs r = form_inputs form.
Proof.
  destruct a as [| | f sel form now | |]; cbn [saved_row]; try discriminate.
  destruct (cost_sheet_submit f file sel form now) as [page |];
    [| discriminate].
  destruct (dict_get _ sel) as [[[on pr] u] |]; [| discriminate].
  destruct (shown_message page); try discriminate.
  intros [= <-]. exists f, sel, form, now. auto.
Qed.

Lemma last_saved_numbers (k : string) (trace : list action) :
  Forall numbers_allow trace ->
  forall (file : db) (before : option cost_inputs),
    (forall i, before = Some i -> Forall at_least_zero (fields i)) ->
    forall i, last_saved k file trace before = Some i ->
              Forall at_least_zero (fields i).
Proof.
  induction 1 as [| a trace A _ IH]; intros file before B i;
    cbn [last_saved]; [apply B |].
  apply IH. intros j.
  destruct (saved_row file a) as [r |] eqn:S; [| apply B].
  destruct (String.eqb (c_order_number r) k); [| apply B].
  intros [= <-]. apply stored_inputs_numbers.
  destruct (saved_row_inputs _ _ _ S) as [f [sel [form [now [-> ->]]]]].
  apply A.
Qed.

(** X11.  What the cost form of an order starts from.  Let the numbers
    entered in the cost sheet be numbers of 0 or more, as its widgets
    yield them.  After any sequence of runs, loading an order's cost record
    gives the twelve inputs of the latest successful save for that order
    number, as the REAL columns hold them (the numbers saved, a negative
    zero as zero), whatever was saved for other orders or done on other
    pages in between; each is a number of 0 or more; and the load gives
    nothing, and the form starts from zeros, exactly when no save for that
    order has succeeded. *)
Theorem load_is_last_save (order_number : string) (trace : list action) :
  Forall numbers_allow trace ->
  (forall file : db,
      load_cost (run file trace) order_number
      = last_saved order_number file trace (load_cost file order_number))
  /\ load_cost (run empty_db trace) order_number
     = last_saved order_number empty_db trace None
  /\ (load_cost (run empty_db trace) order_number = None
      <-> successful_saves order_number empty_db trace = 0%nat)
  /\ (successful_saves order_number empty_db trace = 0%nat ->
      defaults (run empty_db trace) order_number = zero_inputs)
  /\ (forall i,
         load_cost (run empty_db trace) order_number = Some i ->
         Forall at_least_zero (fields i)).
Proof.
  intros W.
  assert (G : forall (trace : list action) (file : db),
             load_cost (run file trace) order_number
             = last_saved order_number file trace
                 (load_cost file order_number)).
  { clear. intros trace.
    induction trace as [| a trace IH]; intros file;
      cbn [run fold_left last_saved]; [reflexivity |].
    change (fold_left step trace (step file a)) with (run (step file a) trace).
    rewrite IH, load_step. reflexivity. }
  split; [apply G |].
  assert (E : load_cost (run empty_db trace) order_number
              = last_saved order_number empty_db trace None)
    by (rewrite G; reflexivity).
  split; [exact E |].
  assert (N : load_cost (run empty_db trace) order_number = None
              <-> successful_saves order_number empty_db trace = 0%nat).
  { rewrite E, last_saved_none. intuition. }
  split; [exact N |].
  split.
  - intros Z. unfold defaults. apply N in Z. rewrite Z. reflexivity.
  - intros i. rewrite E.
    apply (last_saved_numbers order_number trace W empty_db None).
    discriminate.
Qed.

(** The theorem at work: ORD-1 is entered and costed with the worked
    example; the form then starts from those values. *)
Lemma load_is_last_save_witness :
  Forall numbers_allow
    [DataEntry no_faults "ORD-1" "Acme" "Tops" may_1st 10;
     CostSave no_faults "ORD-1" example_form "t"]
  /\ load_cost
       (run empty_db
          [DataEntry no_faults "ORD-1" "Acme" "Tops" may_1st 10;
           CostSave no_faults "ORD-1" example_form "t"]) "ORD-1"
     = Some example_inputs.
Proof.
  assert (W : Forall numbers_allow
                [DataEntry no_faults "ORD-1" "Acme" "Tops" may_1st 10;
                 CostSave no_faults "ORD-1" example_form "t"]).
  { constructor; [exact I |]. constructor; [| constructor].
    split; [reflexivity | repeat constructor]. }
  split; [exact W |].
  destruct (load_is_last_save "ORD-1" _ W) as [_ [E _]].
  rewrite E. vm_compute. reflexivity.
Defined.

End LoadAfterTrace.

(** ** Orders stay on record *)

Section OrdersPersist.

Open Scope Z_scope.

(** One run keeps every order, with the values it was entered with. *)
Lemma step_keeps_order (file : db) (a : action) (r : order_row) :
  In r (orders file) ->
  exists r',
    In r' (orders (step file a))
    /\ o_id r' = o_id r /\ order_number r' = order_number r
    /\ customer r' = customer r /\ product r' = product r
    /\ due_date r' = due_date r /\ quantity r' = quantity r.
Proof.
  intros I.
  destruct (step_orders file a)
    as [-> | [[f [on [cu [pr [dd [q [_ [_ ->]]]]]]]]
             | [f [id [cu [se [fi [pa [_ ->]]]]]]]]].
  - exists r. auto 10.
  - exists r. split; [| auto 10].
    cbn [orders with_order]. apply in_or_app. left. exact I.
  - exists (set_stages id cu se fi pa r).
    split; [apply in_map; exact I |].
    unfold set_stages. destruct (o_id r =? id); cbn; auto 10.
Qed.

(** X12.  No order is ever deleted and, apart from its four stage
    counters, nothing about an order ever changes: after any sequence of
    runs every order of the table is still there under its id, with its
    order number, customer, product, due date and quantity. *)
Theorem orders_stay_on_record
    (trace : list action) (file : db) (r : order_row) :
  In r (orders file) ->
  exists r',
    In r' (orders (run file trace))
    /\ o_id r' = o_id r /\ order_number r' = order_number r
    /\ customer r' = customer r /\ product r' = product r
    /\ due_date r' = due_date r /\ quantity r' = quantity r.
Proof.
  revert file r.
  induction trace as [| a trace IH]; intros file r I; cbn [run fold_left].
  - exists r. auto 10.
  - change (fold_left step trace (step file a)) with (run (step file a) trace).
    destruct (step_keeps_order file a r I)
      as [r1 [I1 [E1 [E2 [E3 [E4 [E5 E6]]]]]]].
    destruct (IH (step file a) r1 I1)
      as [r2 [I2 [F1 [F2 [F3 [F4 [F5 F6]]]]]]].
    exists r2. split; [exact I2 |].
    repeat split; congruence.
Qed.

(** The theorem at work: ORD-1 after its stages are set and a second
    order is entered. *)
Lemma orders_stay_on_record_witness :
  In (order_of 10 0 may_1st) (orders one_order)
  /\ exists r',
       In r' (orders (run one_order
                        [OrdersUpdate no_faults 1 3 2 1 0;
                         DataEntry no_faults "ORD-2" "Acme" "Suits" may_1st 5]))
       /\ order_number r' = "ORD-1"%string /\ quantity r' = 10.
Proof.
  assert (I : In (order_of 10 0 may_1st) (orders one_order))
    by (left; reflexivity).
  split; [exact I |].
  destruct (orders_stay_on_record
              [OrdersUpdate no_faults 1 3 2 1 0;
               DataEntry no_faults "ORD-2" "Acme" "Suits" may_1st 5]
              one_order _ I) as [r' [I' [_ [E [_ [_ [_ Q]]]]]]].
  exists r'. auto.
Defined.

(** Order numbers and ids stay without repeats along a trace. *)
Lemma run_keys_unique (trace : list action) :
  forall file : db,
    NoDup (map order_number (orders file)) ->
    NoDup (map o_id (orders file)) ->
    NoDup (map order_number (orders (run file trace)))
    /\ NoDup (map o_id (orders (run file trace))).
Proof.
  induction trace as [| a trace IH]; intros file Hn Hi; cbn [run fold_left].
  - auto.
  - destruct (step_keys_unique file a Hn Hi) as [Hn' Hi'].
    exact (IH (step file a) Hn' Hi').
Qed.

Lemma dict_get_unique {V : Type} (m : list (string * V)) (k : string) (v : V) :
  NoDup (map fst m) -> In (k, v) m -> dict_get m k = Some v.
Proof.
  induction m as [| [k' v'] m IH]; cbn; [intros _ [] |].
  intros N I. inversion N as [| x l Nx Nl]; subst.
  destruct (String.eqb k' k) eqn:E.
  - apply String.eqb_eq in E. subst k'.
    destruct I as [[= <-] | I]; [reflexivity |].
    exfalso. apply Nx. apply in_map_iff. exists (k, v). auto.
  - destruct I as [[= -> _] | I]; [rewrite String.eqb_refl in E; discriminate |].
    exact (IH Nl I).
Qed.

(** With order numbers without repeats, an order is found in [order_map]
    under its number. *)
Lemma order_map_finds (d : db) (r : order_row) :
  NoDup (map order_number (orders d)) ->
  In r (orders d) ->
  dict_get (order_map d) (order_number r)
  = Some (order_number r, product r, quantity r).
Proof.
  intros N I. unfold order_map. apply dict_get_unique.
  - rewrite map_rev, map_map. cbn [fst]. apply NoDup_rev. exact N.
  - apply in_rev. rewrite rev_involutive.
    apply (in_map (fun r => (order_number r,
                             (order_number r, product r, quantity r)))).
    exact I.
Qed.

(** X13.  Every order on record can be costed.  On a database the
    application created, the product of every order is one of the three of
    the order form, so its item type has a built-in standard (the override
    widget of line 384 starts from that number).  Selecting the number of
    any order (the empty number apart, which the page treats as no
    selection) opens the cost sheet for it: with numbers of 0 or more in
    the form, the run goes through to the save handler, the units of the
    calculation are the order's quantity, the required fabric is resolved
    for the item type of its product, and after a save that reports
    success the file holds the twelve inputs for the order, as the REAL
    columns hold them. *)
Theorem every_order_has_a_cost_sheet
    (trace : list action) (r : order_row) (f : faults) (form : cost_form)
    (now : string) :
  In r (orders (run empty_db trace)) ->
  order_number r <> ""%string ->
  form_allows form ->
  (In (product r) product_options
   /\ exists k, dict_get FABRIC_STANDARD (item_type_of (product r)) = Some k)
  /\ exists page,
       cost_sheet_submit f (run empty_db trace) (order_number r) form now
       = Some page
       /\ compute (quantity r) (form_inputs form) = Ok (shown_breakdown page)
       /\ shown_warnings page
          = validate (fabric_issued (form_inputs form))
              (fabric_required (fabric_required_override form) (quantity r)
                 (fabric_required_std (setup (run empty_db trace))
                    (item_type_of (product r)) (quantity r)))
              (fabric_rate (form_inputs form))
       /\ (shown_message page = Saved ->
           load_cost (file_after page) (order_number r)
           = Some (stored_inputs (form_inputs form))
           /\ Forall at_least_zero (fields (stored_inputs (form_inputs form)))).
Proof.
  intros I NE A.
  split.
  { destruct (run_in_range trace r I) as [_ [_ P]]. split; [exact P |].
    destruct P as [<- | [<- | [<- | []]]]; eexists; reflexivity. }
  destruct (run_keys_unique trace empty_db) as [N _]; [constructor .. |].
  destruct (setup_tables (run empty_db trace)) as [So _].
  assert (G : dict_get (order_map (setup (run empty_db trace)))
                (order_number r)
              = Some (order_number r, product r, quantity r)).
  { unfold order_map. rewrite So. apply order_map_finds; assumption. }
  destruct (cost_sheet_submit_runs f _ _ _ _ form now G NE) as [page P].
  exists page. split; [exact P |].
  destruct (cost_sheet_submit_some _ _ _ _ _ _ P)
    as [p' [u' [G' [_ [C [W [M [_ [_ F]]]]]]]]].
  rewrite G in G'. injection G' as <- <-.
  split; [exact C |]. split; [exact W |].
  intros S. rewrite S in M. cbn zeta in M, F.
  destruct (save_handler f _ (connect (setup (run empty_db trace))))
    as [c' res] eqn:H.
  cbn [fst snd] in M, F. subst res. rewrite F.
  apply save_handler_saved in H. destruct H as [_ [_ [_ [Hc _]]]].
  unfold close. rewrite Hc.
  split; [| apply stored_inputs_numbers, A].
  apply (load_after_put
           (cost_record (order_number r) (item_type_of (product r))
              (quantity r) (form_inputs form) now)).
Qed.

(** The theorem at work: the cost sheet of ORD-1. *)
Lemma every_order_has_a_cost_sheet_witness :
  (In (order_of 10 0 may_1st)
      (orders (run empty_db
                 [DataEntry no_faults "ORD-1" "Acme" "Tops" may_1st 10]))
   /\ order_number (order_of 10 0 may_1st) <> ""%string
   /\ form_allows example_form)
  /\ exists page,
       cost_sheet_submit no_faults
         (run empty_db [DataEntry no_faults "ORD-1" "Acme" "Tops" may_1st 10])
         (order_number (order_of 10 0 may_1st)) example_form "t"
       = Some page
       /\ compute (quantity (order_of 10 0 may_1st)) (form_inputs example_form)
          = Ok (shown_breakdown page).
Proof.
  assert (I : In (order_of 10 0 may_1st)
                (orders (run empty_db
                           [DataEntry no_faults "ORD-1" "Acme" "Tops"
                              may_1st 10])))
    by (left; reflexivity).
  assert (N : order_number (order_of 10 0 may_1st) <> ""%string)
    by discriminate.
  assert (A : form_allows example_form)
    by (split; [reflexivity | repeat constructor]).
  split; [exact (conj I (conj N A)) |].
  destruct (every_order_has_a_cost_sheet
              [DataEntry no_faults "ORD-1" "Acme" "Tops" may_1st 10]
              (order_of 10 0 may_1st) no_faults example_form "t" I N A)
    as [_ [page [P [C _]]]].
  exists page. split; assumption.
Defined.

End OrdersPersist.

(** ** The order-wise cost export *)

Section CostExport.

Lemma filter_at_most_one {A : Type} (p : A -> bool) (l : list A) :
  (List.length (filter p l) <= 1)%nat ->
  filter p l = match find p l with
               | Some x => [x]
               | None => []
               end.
Proof.
  induction l as [| x l IH]; cbn; [reflexivity |].
  destruct (p x); cbn; [| exact IH].
  intros H. destruct (filter p l); [reflexivity | cbn in H; lia].
Qed.

(** On a database the application created there is at most one cost
    record per order number. *)
Lemma one_current_record (trace : list action) (k : string) :
  (current_count (run empty_db trace) k <= 1)%nat.
Proof.
  destruct (run_counts k trace empty_db) as [_ ->].
  destruct (successful_saves k empty_db trace); cbn; lia.
Qed.

Lemma flat_map_single {A B : Type} (f : A -> list B) (g : A -> B)
    (l : list A) :
  (forall x, In x l -> f x = [g x]) -> flat_map f l = map g l.
Proof.
  induction l as [| x l IH]; intros H; cbn; [reflexivity |].
  rewrite (H x (or_introl eq_refl)), IH; [reflexivity |].
  intros y I. apply H. right. exact I.
Qed.

(** X14.  The cost data export has one line per order.  On a database the
    application created, the lines of the export are the orders of the
    table, one line each, with the order's number, customer, product and
    quantity; the cost columns of a line are the inputs last saved for
    that order, and all zero (with empty item type and date) for an order
    that was never costed. *)
Theorem cost_export_one_line_per_order (trace : list action) :
  let d := run empty_db trace in
  map e_order_number (cost_export_join d) = map order_number (orders d)
  /\ map e_customer (cost_export_join d) = map customer (orders d)
  /\ map e_product (cost_export_join d) = map product (orders d)
  /\ map e_quantity (cost_export_join d) = map quantity (orders d)
  /\ map e_inputs (cost_export_join d)
     = map (fun o => defaults d (order_number o)) (orders d)
  /\ (forall line,
         In line (cost_export_join d) ->
         load_cost d (e_order_number line) = None ->
         e_item_type line = ""%string /\ e_units line = 0%Z
         /\ e_last_updated line = ""%string /\ e_inputs line = zero_inputs).
Proof.
  cbn zeta. set (d := run empty_db trace).
  pose (line_of := fun o : order_row =>
          match find (fun f => String.eqb (c_order_number f) (order_number o))
                  (fabric_cost_1 d) with
          | Some f =>
              {| e_order_number := order_number o; e_customer := customer o;
                 e_product := product o; e_quantity := quantity o;
                 e_item_type := c_item_type f; e_units := c_units f;
                 e_inputs := c_inputs f;
                 e_last_updated := c_last_updated f |}
          | None =>
              {| e_order_number := order_number o; e_customer := customer o;
                 e_product := product o; e_quantity := quantity o;
                 e_item_type := ""; e_units := 0; e_inputs := zero_inputs;
                 e_last_updated := "" |}
          end).
  assert (J : cost_export_join d = map line_of (orders d)).
  { unfold cost_export_join. apply flat_map_single. intros o _.
    pose proof (one_current_record trace (order_number o)) as H.
    fold d in H. unfold current_count, current_of in H.
    unfold current_of, line_of.
    rewrite (filter_at_most_one _ _ H).
    destruct (find _ (fabric_cost_1 d)); reflexivity. }
  rewrite J, !map_map.
  assert (K : forall o, e_order_number (line_of o) = order_number o
                        /\ e_customer (line_of o) = customer o
                        /\ e_product (line_of o) = product o
                        /\ e_quantity (line_of o) = quantity o
                        /\ e_inputs (line_of o) = defaults d (order_number o)).
  { intros o. unfold line_of, defaults, load_cost.
    destruct (find _ (fabric_cost_1 d)); cbn; auto. }
  split; [apply map_ext; intros o; apply K |].
  split; [apply map_ext; intros o; apply K |].
  split; [apply map_ext; intros o; apply K |].
  split; [apply map_ext; intros o; apply K |].
  split; [apply map_ext; intros o; apply K |].
  intros line I. apply in_map_iff in I. destruct I as [o [<- _]].
  destruct (K o) as [-> _]. unfold line_of, load_cost.
  destruct (find _ (fabric_cost_1 d)); cbn; [discriminate | auto].
Qed.

End CostExport.

(** ** Login *)

Section Login.

Open Scope string_scope.

(** The credentials the login accepts. *)
Lemma credentials_ok_iff (u p : string) :
  credentials_ok u p = true
  <-> (u = "admin" /\ p = "admin123") \/ (u = "user1" /\ p = "password1").
Proof.
  unfold credentials_ok, users. cbn [dict_get].
  destruct (String.eqb "admin" u) eqn:A.
  - apply String.eqb_eq in A. subst u. rewrite String.eqb_eq.
    split; [intros <-; auto | intros [[_ ->] | [E _]]; [reflexivity | discriminate E]].
  - apply String.eqb_neq in A.
    destruct (String.eqb "user1" u) eqn:B.
    + apply String.eqb_eq in B. subst u. rewrite String.eqb_eq.
      split; [intros <-; auto
             | intros [[E _] | [_ ->]]; [discriminate E | reflexivity]].
    + apply String.eqb_neq in B.
      split; [discriminate | intros [[E _] | [E _]]; congruence].
Qed.

(** X15.  Nothing is done without a login.  A session that is not logged
    in and never submits one of the two accepted pairs of user name and
    password stays logged out, and whatever it presses, the orders, the
    cost records, the cost history and the accessory lines stay as they
    were; the only pairs accepted are admin/admin123 and
    user1/password1. *)
Theorem no_write_without_login
    (presses : list press) (s : session) (file : db) :
  authenticated s = false ->
  (forall u p, In (LoginForm u p) presses -> credentials_ok u p = false) ->
  authenticated (fst (session_run s file presses)) = false
  /\ orders (snd (session_run s file presses)) = orders file
  /\ fabric_cost_1 (snd (session_run s file presses)) = fabric_cost_1 file
  /\ fabric_cost_history (snd (session_run s file presses))
     = fabric_cost_history file
  /\ accessories_details (snd (session_run s file presses))
     = accessories_details file
  /\ (forall u p,
         credentials_ok u p = true
         <-> (u = "admin" /\ p = "admin123")
             \/ (u = "user1" /\ p = "password1")).
Proof.
  revert s file.
  induction presses as [| p presses IH]; intros s file A H.
  - cbn. repeat split; try assumption; apply credentials_ok_iff.
  - cbn [session_run].
    assert (R : script_run s file p = (s, setup file)).
    { unfold script_run. rewrite A.
      destruct p as [u pw | | a]; try reflexivity.
      rewrite (H u pw (or_introl eq_refl)). reflexivity. }
    rewrite R.
    destruct (IH s (setup file) A (fun u pw I => H u pw (or_intror I)))
      as [I1 [I2 [I3 [I4 [I5 I6]]]]].
    destruct (setup_tables file) as [So [S1 [Sh Sa]]].
    rewrite I2, I3, I4, I5, So, S1, Sh, Sa. auto 10.
Qed.

(** The theorem at work: a wrong password, then an attempt to add an
    order. *)
Lemma no_write_without_login_witness :
  (authenticated new_session = false
   /\ forall u p,
        In (LoginForm u p)
           [LoginForm "admin" "admin";
            PageButton (DataEntry no_faults "ORD-1" "Acme" "Tops" may_1st 10)] ->
        credentials_ok u p = false)
  /\ orders (snd (session_run new_session empty_db
                    [LoginForm "admin" "admin";
                     PageButton
                       (DataEntry no_faults "ORD-1" "Acme" "Tops" may_1st 10)]))
     = orders empty_db.
Proof.
  assert (H : forall u p,
             In (LoginForm u p)
                [LoginForm "admin" "admin";
                 PageButton
                   (DataEntry no_faults "ORD-1" "Acme" "Tops" may_1st 10)] ->
             credentials_ok u p = false).
  { intros u p [[= <- <-] | [E | []]]; [reflexivity | discriminate E]. }
  split; [split; [reflexivity | exact H] |].
  apply (no_write_without_login _ new_session empty_db eq_refl H).
Defined.

End Login.

(** ** The month-wise summary *)

Section MonthlySummary.

Open Scope Z_scope.

Lemma month_eqb_eq (a b : month_key) : month_eqb a b = true <-> a = b.
Proof.
  destruct a as [ya ma], b as [yb mb]. unfold month_eqb. cbn [fst snd].
  rewrite andb_true_iff, !Z.eqb_eq. split; [intros [-> ->] | intros [= -> ->]];
    auto.
Qed.

Lemma month_ltb_lt (a b : month_key) :
  month_ltb a b = true
  <-> fst a < fst b \/ (fst a = fst b /\ snd a < snd b).
Proof. unfold month_ltb. lia. Qed.

Lemma insert_month_in (k x : month_key) (keys : list month_key) :
  In x (insert_month k keys) <-> x = k \/ In x keys.
Proof.
  induction keys as [| k' keys IH]; cbn; [intuition |].
  destruct (month_ltb k k'); cbn; [intuition |].
  destruct (month_eqb k k') eqn:E; cbn.
  - apply month_eqb_eq in E. subst k'. intuition.
  - rewrite IH. intuition.
Qed.

Lemma insert_month_sorted (k : month_key) (keys : list month_key) :
  StronglySorted (fun a b => month_ltb a b = true) keys ->
  StronglySorted (fun a b => month_ltb a b = true) (insert_month k keys).
Proof.
  induction keys as [| k' keys IH]; intros S; cbn.
  - repeat constructor.
  - inversion S as [| x l Sl Fl]; subst.
    destruct (month_ltb k k') eqn:L.
    + constructor; [exact S |].
      constructor; [exact L |].
      apply Forall_forall. intros y Iy.
      rewrite Forall_forall in Fl. specialize (Fl y Iy).
      apply month_ltb_lt. apply month_ltb_lt in L, Fl. lia.
    + destruct (month_eqb k k') eqn:E; [exact S |].
      constructor; [exact (IH Sl) |].
      apply Forall_forall. intros y Iy. apply insert_month_in in Iy.
      destruct Iy as [-> | Iy].
      * apply month_ltb_lt.
        assert (N : k <> k') by (intros ->; rewrite (proj2 (month_eqb_eq k' k') eq_refl) in E; discriminate).
        assert (~ (fst k < fst k' \/ (fst k = fst k' /\ snd k < snd k'))).
        { intros C. apply month_ltb_lt in C. congruence. }
        destruct k, k'. cbn [fst snd] in *.
        assert (~ (z = z1 /\ z0 = z2)) by (intros [-> ->]; congruence).
        lia.
      * rewrite Forall_forall in Fl. exact (Fl y Iy).
Qed.

Lemma months_sorted (rows : list order_row) :
  StronglySorted (fun a b => month_ltb a b = true) (months rows).
Proof.
  induction rows as [| r rows IH]; cbn; [constructor |].
  apply insert_month_sorted. exact IH.
Qed.

Lemma months_in (rows : list order_row) (k : month_key) :
  In k (months rows) <-> exists r, In r rows /\ month_of r = k.
Proof.
  induction rows as [| r rows IH]; cbn.
  - split; [intros [] | intros [r [[] _]]].
  - rewrite insert_month_in, IH. split.
    + intros [-> | [x [I E]]]; [exists r; auto | exists x; auto].
    + intros [x [[-> | I] E]]; [left; auto | right; exists x; auto].
Qed.

(** The plain sum of a column. *)
Lemma total_filter_split (col : order_row -> Z) (p : order_row -> bool)
    (rows : list order_row) :
  fold_right Z.add 0 (map col rows)
  = fold_right Z.add 0 (map col (filter p rows))
    + fold_right Z.add 0 (map col (filter (fun r => negb (p r)) rows)).
Proof.
  induction rows as [| r rows IH]; cbn [filter map fold_right]; [reflexivity |].
  destruct (p r); cbn [negb map fold_right]; lia.
Qed.

(** Summed group by group over keys that are all different and cover the
    rows, a column gives its sum over the rows. *)
Lemma total_by_groups (col : order_row -> Z) (keys : list month_key) :
  StronglySorted (fun a b => month_ltb a b = true) keys ->
  forall rows : list order_row,
    (forall r, In r rows -> In (month_of r) keys) ->
    fold_right Z.add 0
      (map (fun k =>
              fold_right Z.add 0
                (map col (filter (fun r => month_eqb (month_of r) k) rows)))
           keys)
    = fold_right Z.add 0 (map col rows).
Proof.
  induction keys as [| k keys IH]; intros S rows Cover.
  - destruct rows as [| r rows]; [reflexivity |].
    destruct (Cover r (or_introl eq_refl)).
  - inversion S as [| x l Sl Fl]; subst. rewrite Forall_forall in Fl.
    cbn [map fold_right].
    rewrite (total_filter_split col (fun r => month_eqb (month_of r) k) rows).
    f_equal.
    rewrite <- (IH Sl (filter (fun r => negb (month_eqb (month_of r) k)) rows)).
    + f_equal. apply map_ext_in. intros k' Ik'. f_equal. f_equal.
      clear - Fl Ik'. specialize (Fl k' Ik').
      induction rows as [| r rows IHr]; cbn [filter]; [reflexivity |].
      destruct (month_eqb (month_of r) k) eqn:E; cbn [negb filter].
      * apply month_eqb_eq in E.
        destruct (month_eqb (month_of r) k') eqn:E'; [| exact IHr].
        apply month_eqb_eq in E'. exfalso.
        rewrite <- E, E' in Fl. apply month_ltb_lt in Fl. lia.
      * destruct (month_eqb (month_of r) k'); [f_equal |]; exact IHr.
    + intros r I. apply filter_In in I. destruct I as [I N].
      destruct (Cover r I) as [E | Ik]; [| exact Ik].
      apply negb_true_iff in N.
      rewrite (proj2 (month_eqb_eq (month_of r) k) (eq_sym E)) in N.
      discriminate N.
Qed.

Lemma total_filter_le (col : order_row -> Z) (p : order_row -> bool)
    (rows : list order_row) :
  (forall r, In r rows -> 0 <= col r) ->
  fold_right Z.add 0 (map col (filter p rows))
  <= fold_right Z.add 0 (map col rows).
Proof.
  intros P. rewrite (total_filter_split col p rows).
  assert (0 <= fold_right Z.add 0
                  (map col (filter (fun r => negb (p r)) rows))).
  { apply total_nonneg. intros r I. apply filter_In in I. apply P, I. }
  lia.
Qed.

(** The month rows of one column, without overflow. *)
Lemma summary_column_total (col : order_row -> Z) (rows : list order_row) :
  (forall r, In r rows -> 0 <= col r) ->
  fold_right Z.add 0 (map col rows) < 2 ^ 63 ->
  fold_right Z.add 0
    (map (fun k =>
            column_sum col (filter (fun r => month_eqb (month_of r) k) rows))
         (months rows))
  = fold_right Z.add 0 (map col rows).
Proof.
  intros P B.
  rewrite <- (total_by_groups col (months rows) (months_sorted rows) rows)
    by (intros r I; apply months_in; exists r; auto).
  f_equal. apply map_ext. intros k.
  apply column_sum_exact.
  - intros r I. apply filter_In in I. apply P, I.
  - pose proof (total_filter_le col (fun r => month_eqb (month_of r) k) rows P).
    lia.
Qed.

Lemma total_le (col col' : order_row -> Z) (rows : list order_row) :
  (forall r, In r rows -> col r <= col' r) ->
  fold_right Z.add 0 (map col rows) <= fold_right Z.add 0 (map col' rows).
Proof.
  induction rows as [| r rows IH]; intros P; cbn [map fold_right]; [lia |].
  assert (col r <= col' r) by (apply P; left; reflexivity).
  assert (fold_right Z.add 0 (map col rows)
          <= fold_right Z.add 0 (map col' rows))
    by (apply IH; intros x I; apply P; right; exact I).
  lia.
Qed.

(** X16.  The month-wise production summary.  It has one row for each
    month in which an order is due, and no other, in ascending order of
    month.  When every order has its stage counters between 0 and its
    quantity and the quantities add up within 64 bits, each of the five
    columns adds up, over the months, to its sum over all orders: no order
    is counted twice or left out. *)
Theorem monthly_summary_totals (rows : list order_row) :
  (forall r, In r rows -> stages_in_range r) ->
  fold_right Z.add 0 (map quantity rows) < 2 ^ 63 ->
  StronglySorted (fun a b => month_ltb a b = true)
    (map m_month (monthly_summary rows))
  /\ (forall k, In k (map m_month (monthly_summary rows))
                <-> exists r, In r rows /\ month_of r = k)
  /\ fold_right Z.add 0 (map m_quantity (monthly_summary rows))
     = fold_right Z.add 0 (map quantity rows)
  /\ fold_right Z.add 0 (map m_cutting (monthly_summary rows))
     = fold_right Z.add 0 (map cutting rows)
  /\ fold_right Z.add 0 (map m_sewing (monthly_summary rows))
     = fold_right Z.add 0 (map sewing rows)
  /\ fold_right Z.add 0 (map m_finishing (monthly_summary rows))
     = fold_right Z.add 0 (map finishing rows)
  /\ fold_right Z.add 0 (map m_packaging (monthly_summary rows))
     = fold_right Z.add 0 (map packaging rows).
Proof.
  intros R B.
  assert (M : map m_month (monthly_summary rows) = months rows).
  { unfold monthly_summary. rewrite map_map. cbn [m_month]. apply map_id. }
  rewrite M.
  split; [apply months_sorted |].
  split; [apply months_in |].
  unfold monthly_summary. rewrite !map_map.
  cbn [m_quantity m_cutting m_sewing m_finishing m_packaging].
  assert (Col : forall col : order_row -> Z,
             (forall r, In r rows -> 0 <= col r <= quantity r) ->
             fold_right Z.add 0
               (map (fun k =>
                       column_sum col
                         (filter (fun r => month_eqb (month_of r) k) rows))
                    (months rows))
             = fold_right Z.add 0 (map col rows)).
  { intros col P. apply summary_column_total.
    - intros r I. apply P, I.
    - pose proof (total_le col quantity rows (fun r I => proj2 (P r I))). lia. }
  split; [apply Col; intros r I; destruct (R r I) as [[? ?] _]; lia |].
  split; [apply Col; intros r I; apply (R r I) |].
  split; [apply Col; intros r I; apply (R r I) |].
  split; [apply Col; intros r I; apply (R r I) |].
  apply Col; intros r I; apply (R r I).
Qed.

(** The theorem at work: two orders due in May 2024 make one row, with
    103 units ordered and 30 packed. *)
Lemma monthly_summary_totals_witness :
  ((forall r, In r [order_of 3 1 may_1st; order_of 100 29 may_1st] ->
              stages_in_range r)
   /\ fold_right Z.add 0
        (map quantity [order_of 3 1 may_1st; order_of 100 29 may_1st])
      < 2 ^ 63)
  /\ fold_right Z.add 0
       (map m_quantity
          (monthly_summary [order_of 3 1 may_1st; order_of 100 29 may_1st]))
     = 103
  /\ map m_month
       (monthly_summary [order_of 3 1 may_1st; order_of 100 29 may_1st])
     = [(2024, 5)].
Proof.
  assert (R : forall r, In r [order_of 3 1 may_1st; order_of 100 29 may_1st] ->
                        stages_in_range r).
  { intros r [<- | [<- | []]]; unfold stages_in_range; cbn; lia. }
  assert (B : fold_right Z.add 0
                (map quantity [order_of 3 1 may_1st; order_of 100 29 may_1st])
              < 2 ^ 63) by (cbn; lia).
  split; [split; assumption |].
  split; [| reflexivity].
  destruct (monthly_summary_totals _ R B) as [_ [_ [Q _]]].
  rewrite Q. reflexivity.
Defined.

End MonthlySummary.

(** ** The current record and the history agree *)

Section CurrentAndHistory.

Lemma find_upsert_row (r : cost_row) (t : list cost_row) :
  find (fun y => String.eqb (c_order_number y) (c_order_number r)) (upsert r t)
  = Some (stored r).
Proof.
  destruct (find_upsert r t) as [x [F [E1 [E2 [E3 E4]]]]].
  rewrite F. f_equal.
  apply find_some in F. destruct F as [_ K]. apply String.eqb_eq in K.
  destruct x, r. unfold stored. cbn in *. congruence.
Qed.

Lemma last_some_app {A : Type} (l : list A) (x : A) :
  last (map Some (l ++ [x])) None = Some x.
Proof.
  induction l as [| y l IH]; [reflexivity |].
  cbn [app map]. cbn [app map] in IH.
  destruct (map Some (l ++ [x])) eqn:E.
  - destruct l; discriminate E.
  - cbn [last]. exact IH.
Qed.

(** One run keeps the current record of every order equal to the latest
    row of its history. *)
Lemma step_current_latest (file : db) (a : action) :
  (forall k,
      find (fun y => String.eqb (c_order_number y) k) (fabric_cost_1 file)
      = last (map Some (map h_cost (history_of file k))) None) ->
  forall k,
    find (fun y => String.eqb (c_order_number y) k)
      (fabric_cost_1 (step file a))
    = last (map Some (map h_cost (history_of (step file a) k))) None.
Proof.
  intros Inv k. unfold history_of.
  pose proof (step_cost_tables file a) as T.
  destruct (saved_row file a) as [r |]; destruct T as [-> ->];
    [| exact (Inv k)].
  rewrite filter_app. cbn [filter h_cost stored c_order_number].
  destruct (String.eqb (c_order_number r) k) eqn:E.
  - apply String.eqb_eq in E. subst k.
    rewrite find_upsert_row, map_app. cbn [map h_cost].
    rewrite last_some_app. reflexivity.
  - rewrite find_upsert_other by exact E. rewrite app_nil_r. exact (Inv k).
Qed.

(** X17.  The two cost tables never drift apart.  On a database the
    application created, after any sequence of runs, failed saves
    included, the current cost record of an order is the latest row of
    that order's history, field for field; an order has no current record
    exactly when it has no history. *)
Theorem current_is_latest_history (trace : list action) (k : string) :
  find (fun y => String.eqb (c_order_number y) k)
    (fabric_cost_1 (run empty_db trace))
  = last (map Some (map h_cost (history_of (run empty_db trace) k))) None
  /\ (load_cost (run empty_db trace) k = None
      <-> history_of (run empty_db trace) k = []).
Proof.
  assert (G : forall (trace : list action) (file : db),
             (forall k,
                 find (fun y => String.eqb (c_order_number y) k)
                   (fabric_cost_1 file)
                 = last (map Some (map h_cost (history_of file k))) None) ->
             forall k,
               find (fun y => String.eqb (c_order_number y) k)
                 (fabric_cost_1 (run file trace))
               = last (map Some (map h_cost (history_of (run file trace) k)))
                   None).
  { clear. induction trace as [| a trace IH]; intros file Inv;
      cbn [run fold_left]; [exact Inv |].
    exact (IH (step file a) (step_current_latest file a Inv)). }
  assert (E := G trace empty_db (fun _ => eq_refl) k).
  split; [exact E |].
  unfold load_cost. rewrite E.
  destruct (history_of (run empty_db trace) k) as [| h hs] eqn:H.
  - cbn. intuition.
  - split; [| discriminate].
    intros N. exfalso.
    assert (X : exists x, last (map Some (map h_cost (h :: hs))) None = Some x).
    { clear. generalize h. induction hs as [| h' hs IH]; intros h0.
      - exists (h_cost h0). reflexivity.
      - destruct (IH h') as [x Hx]. exists x. exact Hx. }
    destruct X as [x Hx]. rewrite Hx in N. discriminate N.
Qed.

End CurrentAndHistory.
